(** * mcp-poc: the tool dispatch and validation contract

    A shallow embedding of the MCP proof-of-concept server
    (resolvers, use cases and the [ToolResolver] orchestrator) together
    with the fragments of the JavaScript runtime and of the zod (v3)
    validation library that the program relies on.

    - [JS]: ECMAScript numbers (IEEE 754 binary64, through the
      axiom-free [SpecFloat] of the standard library), the number to
      string conversions and the string primitives the program calls.
    - [Zod]: the parse algorithm of the zod combinators used by the three
      schemas (statuses valid / dirty / aborted, issue collection,
      key stripping of objects, refinements, preprocessing, defaults).
    - [Eff]: thrown errors, [try]/[catch] and a call log.
    - one module per source class, [Server] for the request handlers of
      the entry point, and [Tools] and [LegacyServer] for the single-file
      version that the layered one replaces. *)

From Stdlib Require Import ZArith Lia String Ascii List.
From Stdlib Require Import Floats.SpecFloat Numbers.DecimalString.
From Stdlib Require Numbers.DecimalPos.
From stdpp Require Import base strings gmap list.

Open Scope Z_scope.

(* ===================================================================== *)
(** ** ECMAScript primitives *)
(* ===================================================================== *)

Module JS.

(** A JS number is an IEEE 754 double. *)
Abbreviation number := spec_float.

Definition prec : Z := 53.
Definition emax : Z := 1024.

Definition add : number -> number -> number := SFadd prec emax.
Definition sub : number -> number -> number := SFsub prec emax.
Definition mul : number -> number -> number := SFmul prec emax.
Definition div : number -> number -> number := SFdiv prec emax.

(** [x === y] on numbers: NaN differs from everything, [+0 === -0]. *)
Definition strict_eq_number (x y : number) : bool := SFeqb x y.

Definition zero : number := S754_zero false.

(** Number literals: the double nearest to an integer, to [m * 10^e]. *)
Definition ofZ (z : Z) : number := binary_normalize prec emax z 0 false.

Definition ofDecimal (m e : Z) : number :=
  if 0 <=? e then ofZ (m * 10 ^ e) else div (ofZ m) (ofZ (10 ^ (- e))).

Definition Number_isNaN (x : number) : bool :=
  match x with S754_nan => true | _ => false end.

Definition Number_isFinite (x : number) : bool :=
  match x with S754_zero _ | S754_finite _ _ _ => true | _ => false end.

(** The magnitude of a finite non-zero double, as a fraction [num / den]. *)
Definition magnitude (m : positive) (e : Z) : Z * Z :=
  if 0 <=? e then (Zpos m * 2 ^ e, 1) else (Zpos m, 2 ^ (- e)).

Definition Number_isInteger (x : number) : bool :=
  match x with
  | S754_zero _ => true
  | S754_finite _ m e => let '(n, d) := magnitude m e in n mod d =? 0
  | _ => false
  end.

(** Decimal digits of a non-negative integer. *)
Definition string_of_Z (z : Z) : string :=
  NilZero.string_of_uint (N.to_uint (Z.to_N z)).

Fixpoint zeros (n : nat) : string :=
  match n with O => EmptyString | S n' => String "0" (zeros n') end.

(** Number of decimal digits of [z >= 1]. *)
Fixpoint ndigits_fuel (fuel : nat) (z : Z) : Z :=
  match fuel with
  | O => 1
  | S f => if z <? 10 then 1 else 1 + ndigits_fuel f (z / 10)
  end.

Definition ndigits (z : Z) : Z := ndigits_fuel (S (Z.to_nat (Z.log2 z))) z.

(** Least [j >= 1] with [num * 10^j >= den], for [0 < num < den]. *)
Fixpoint lead_fuel (fuel : nat) (num den : Z) : Z :=
  match fuel with
  | O => 1
  | S f => if den <=? num * 10 then 1 else 1 + lead_fuel f (num * 10) den
  end.

(** The [n] with [10^(n-1) <= num/den < 10^n]. *)
Definition decimal_exponent (num den : Z) : Z :=
  if den <=? num then ndigits (num / den)
  else 1 - lead_fuel (S (Z.to_nat (Z.log2 den))) num den.

Definition round_half_even (a b : Z) : Z :=
  let q := a / b in
  match 2 * (a mod b) ?= b with
  | Lt => q
  | Gt => q + 1
  | Eq => if Z.even q then q else q + 1
  end.

(** The triple [(s, k, n)] of Number::toString: [s] has [k] decimal digits
    and [s * 10^(n-k)] converts back to the number, with [k] minimal. *)
Record digits := { dg_s : Z; dg_k : Z; dg_n : Z }.

Section Shortest.
Variables (m : positive) (e : Z).

  (** Everything is measured in quarters of the unit in the last place:
      the value is [m_val] quarters, and the reals that round to it are
      those between [m_lo] and [m_hi] quarters (bounds included when the
      mantissa is even). *)
Definition unit_num : Z := if 0 <=? e - 2 then 2 ^ (e - 2) else 1.
Definition unit_den : Z := if 0 <=? e - 2 then 1 else 2 ^ (2 - e).
Definition half_gap_below : bool := (Zpos m =? 2 ^ 52) && (-1074 <? e).
Definition m_val : Z := 4 * Zpos m.
Definition m_lo : Z := if half_gap_below then m_val - 1 else m_val - 2.
Definition m_hi : Z := m_val + 2.
Definition n_val : Z := decimal_exponent (m_val * unit_num) unit_den.

Definition in_interval (w a' : Z) : bool :=
    if Z.even (Zpos m)
    then (m_lo * a' <=? w) && (w <=? m_hi * a')
    else (m_lo * a' <? w) && (w <? m_hi * a').

  (** The [k]-digit decimal nearest to the value, when it converts back. *)
Definition candidate (k : Z) : option digits :=
    let p := n_val - k in
    let a' := unit_num * 10 ^ (Z.max (- p) 0) in
    let b' := unit_den * 10 ^ (Z.max p 0) in
    let s := round_half_even (m_val * a') b' in
    if in_interval (s * b') a' then
      Some (if s =? 10 ^ k then {| dg_s := 1; dg_k := 1; dg_n := n_val + 1 |}
            else {| dg_s := s; dg_k := k; dg_n := n_val |})
    else None.

Fixpoint search (fuel : nat) (k : Z) : digits :=
    match fuel with
    | O => {| dg_s := m_val * unit_num / unit_den; dg_k := k; dg_n := n_val |}
    | S f => match candidate k with
             | Some d => d
             | None => search f (k + 1)
             end
    end.

Definition shortest : digits := search 25 1.
End Shortest.

Definition split_at (n : nat) (s : string) : string * string :=
  (substring 0 n s, substring n (String.length s - n) s).

(** Steps 6 to 10 of Number::toString. *)
Definition render (d : digits) : string :=
  let ds := string_of_Z (dg_s d) in
  let k := dg_k d in
  let n := dg_n d in
  if (k <=? n) && (n <=? 21) then ds +:+ zeros (Z.to_nat (n - k))
  else if (0 <? n) && (n <=? 21) then
    let '(a, b) := split_at (Z.to_nat n) ds in a +:+ "." +:+ b
  else if (-6 <? n) && (n <=? 0) then "0." +:+ zeros (Z.to_nat (- n)) +:+ ds
  else
    let ex := (if 0 <=? n - 1 then "+" else "-") +:+ string_of_Z (Z.abs (n - 1)) in
    if k =? 1 then ds +:+ "e" +:+ ex
    else let '(a, b) := split_at 1 ds in a +:+ "." +:+ b +:+ "e" +:+ ex.

(** [String(x)], [x.toString()] and [`${x}`] for a number [x]. *)
Definition Number_toString (x : number) : string :=
  match x with
  | S754_nan => "NaN"
  | S754_zero _ => "0"
  | S754_infinity s => if s then "-Infinity" else "Infinity"
  | S754_finite s m e => (if s then "-" else "") +:+ render (shortest m e)
  end.

(** The integer [n] for which [n / 10^6 - num/den] is closest to zero,
    the larger one if there are two. *)
Definition fixed6_scaled (num den : Z) : Z :=
  (2 * num * 10 ^ 6 + den) / (2 * den).

(** The digits of [n], with zeros in front up to seven digits. *)
Definition fixed6_padded (n : Z) : string :=
  let ds := string_of_Z n in
  zeros (7 - String.length ds) +:+ ds.

Definition fixed6_digits (n : Z) : string :=
  let ds := fixed6_padded n in
  let '(a, b) := split_at (String.length ds - 6) ds in
  a +:+ "." +:+ b.

(** [x.toFixed(6)]. *)
Definition Number_toFixed6 (x : number) : string :=
  match x with
  | S754_finite s m e =>
      let '(num, den) := magnitude m e in
      (if s then "-" else "") +:+
      (if 10 ^ 21 * den <=? num then Number_toString (S754_finite false m e)
       else fixed6_digits (fixed6_scaled num den))
  | S754_zero _ => "0.000000"
  | _ => Number_toString x
  end.

(** *** Strings

    A string is kept as the bytes of its UTF-8 encoding. *)

(** [s.length]: the number of UTF-16 code units. *)
Definition utf16_units (c : ascii) : nat :=
  let b := N_of_ascii c in
  if (b <? 128)%N then 1%nat
  else if (b <? 192)%N then 0%nat
  else if (b <? 240)%N then 1%nat
  else 2%nat.

Fixpoint String_length (s : string) : nat :=
  match s with
  | EmptyString => O
  | String c s' => (utf16_units c + String_length s')%nat
  end.

Definition lower_ascii (c : ascii) : ascii :=
  let b := N_of_ascii c in
  if ((65 <=? b) && (b <=? 90))%N then ascii_of_N (b + 32) else c.

(** [s.toLowerCase()], on the ASCII letters. No character outside ASCII
    lowers to one of the letters of ["true"], the only string the
    program compares a lowered string with. *)
Fixpoint String_toLowerCase (s : string) : string :=
  match s with
  | EmptyString => EmptyString
  | String c s' => String (lower_ascii c) (String_toLowerCase s')
  end.

Fixpoint all_zeros (s : string) : bool :=
  match s with
  | EmptyString => false
  | String c EmptyString => Ascii.eqb c "0"
  | String c s' => Ascii.eqb c "0" && all_zeros s'
  end.

(** Does the whole of [s] match [\.?0+] ? *)
Definition match_dot_zeros (s : string) : bool :=
  match s with
  | String "." s' => all_zeros s'
  | _ => all_zeros s
  end.

(** [s.replace(/\.?0+$/, '')]: the leftmost match is removed. *)
Fixpoint replace_dot_zeros (s : string) : string :=
  if match_dot_zeros s then EmptyString
  else match s with
       | EmptyString => EmptyString
       | String c s' => String c (replace_dot_zeros s')
       end.

(** [l.join(sep)]. *)
Fixpoint join (sep : string) (l : list string) : string :=
  match l with
  | [] => EmptyString
  | [x] => x
  | x :: l' => x +:+ sep +:+ join sep l'
  end.

(** [t.includes(s)], as a proposition. *)
Definition includes (t s : string) : Prop := exists a b, t = a +:+ s +:+ b.

(** Does the string hold a decimal point? *)
Fixpoint has_point (s : string) : bool :=
  match s with
  | EmptyString => false
  | String c s' => Ascii.eqb c "." || has_point s'
  end.

Definition is_digit (c : ascii) : bool :=
  let b := N_of_ascii c in ((48 <=? b) && (b <=? 57))%N.

Fixpoint all_digits (s : string) : bool :=
  match s with
  | EmptyString => true
  | String c s' => is_digit c && all_digits s'
  end.

(** The magnitude of a number is below [10^21]. *)
Definition below_1e21 (x : number) : bool :=
  match x with
  | S754_zero _ => true
  | S754_finite _ m e => let '(n, d) := magnitude m e in n <? 10 ^ 21 * d
  | _ => false
  end.


End JS.

(* ===================================================================== *)
(** ** Untyped values: what [args: any] can hold *)
(* ===================================================================== *)

#[warnings="-register-all"]
Inductive value :=
| VUndefined
| VNull
| VBool (b : bool)
| VNumber (x : JS.number)
| VString (s : string)
| VArray (l : list value)
| VObject (o : gmap string value).

(** [o[key]] and [o.key]: [undefined] when the property is missing. *)
Definition get (key : string) (v : value) : value :=
  match v with
  | VObject o => default VUndefined (o !! key)
  | _ => VUndefined
  end.

(** [x === y] on the primitive values the program compares. *)
Definition strict_eq (x y : value) : bool :=
  match x, y with
  | VUndefined, VUndefined => true
  | VNull, VNull => true
  | VBool a, VBool b => Bool.eqb a b
  | VNumber a, VNumber b => JS.strict_eq_number a b
  | VString a, VString b => String.eqb a b
  | _, _ => false
  end.

(* ===================================================================== *)
(** ** zod *)
(* ===================================================================== *)

Module Zod.

(** [getParsedType]. *)
Definition getParsedType (data : value) : string :=
  match data with
  | VUndefined => "undefined"
  | VNull => "null"
  | VBool _ => "boolean"
  | VNumber x => if JS.Number_isNaN x then "nan" else "number"
  | VString _ => "string"
  | VArray _ => "array"
  | VObject _ => "object"
  end.

Inductive IssueData :=
| invalid_type (expected received : string)
| invalid_enum_value (options : list string) (received : string)
| too_small (minimum : nat)
| too_big (maximum : nat)
| not_finite
| custom.

Record ZodIssue := {
  issue : IssueData;
  path : list string;
  message : string
}.

(** An error map receives the issue and the message found so far. *)
Definition ZodErrorMap := IssueData -> string -> string.

Definition joinValues (options : list string) : string :=
  JS.join " | " (map (fun v => "'" +:+ v +:+ "'") options).

Definition defaultErrorMap (d : IssueData) : string :=
  match d with
  | invalid_type expected received =>
      if String.eqb received "undefined" then "Required"
      else "Expected " +:+ expected +:+ ", received " +:+ received
  | invalid_enum_value options received =>
      "Invalid enum value. Expected " +:+ joinValues options
        +:+ ", received '" +:+ received +:+ "'"
  | too_small minimum =>
      "String must contain at least " +:+ JS.string_of_Z (Z.of_nat minimum)
        +:+ " character(s)"
  | too_big maximum =>
      "String must contain at most " +:+ JS.string_of_Z (Z.of_nat maximum)
        +:+ " character(s)"
  | not_finite => "Number must be finite"
  | custom => "Invalid input"
  end.

(** [makeIssue]: an explicit message wins; otherwise the schema's error
    map is applied on top of the default one. *)
Definition makeIssue (schemaErrorMap : option ZodErrorMap) (ctx_path : list string)
    (d : IssueData) (msg : option string) (sub : list string) : ZodIssue :=
  {| issue := d;
     path := ctx_path ++ sub;
     message :=
       match msg with
       | Some m => m
       | None =>
           match schemaErrorMap with
           | Some f => f d (defaultErrorMap d)
           | None => defaultErrorMap d
           end
       end |}.

Inductive ParseStatus := valid | dirty | aborted.

(** What [_parse] returns, with the issues it added to the context. *)
Record ParseReturn := {
  status : ParseStatus;
  output : value;
  issues : list ZodIssue
}.

Definition INVALID (iss : list ZodIssue) : ParseReturn :=
  {| status := aborted; output := VUndefined; issues := iss |}.

Definition OK (v : value) : ParseReturn :=
  {| status := valid; output := v; issues := [] |}.

Inductive StringCheck :=
| ck_min (bound : nat) (msg : option string)
| ck_max (bound : nat) (msg : option string).

Inductive NumberCheck :=
| ck_finite (msg : option string).

Inductive Effect :=
| refinement (check : value -> bool) (msg : option string) (sub : list string)
| preprocess (transform : value -> value).

#[warnings="-register-all"]
Inductive ZodType :=
| ZodString (checks : list StringCheck)
| ZodNumber (checks : list NumberCheck)
| ZodBoolean
| ZodEnum (values : list string) (errorMap : option ZodErrorMap)
| ZodOptional (innerType : ZodType)
| ZodDefault (innerType : ZodType) (defaultValue : value)
| ZodObject (shape : list (string * ZodType))
| ZodEffects (schema : ZodType) (effect : Effect).

(** One check of ZodString._parse. *)
Definition string_check (p : list string) (s : string) (c : StringCheck) : list ZodIssue :=
  match c with
  | ck_min bound msg =>
      if (JS.String_length s <? bound)%nat
      then [makeIssue None p (too_small bound) msg []] else []
  | ck_max bound msg =>
      if (bound <? JS.String_length s)%nat
      then [makeIssue None p (too_big bound) msg []] else []
  end.

Definition number_check (p : list string) (x : JS.number) (c : NumberCheck) : list ZodIssue :=
  match c with
  | ck_finite msg =>
      if JS.Number_isFinite x then [] else [makeIssue None p not_finite msg []]
  end.

(** A parse that ran its checks is dirty as soon as one added an issue. *)
Definition checked (v : value) (iss : list ZodIssue) : ParseReturn :=
  {| status := match iss with [] => valid | _ => dirty end;
     output := v; issues := iss |}.

(** [ParseStatus.mergeObjectSync]: the object is aborted when a field is,
    dirty when a field is; a key is kept when its value is defined or the
    key was in the input. Only keys of the shape are ever kept. *)
Definition assign (data final : gmap string value) (key : string) (v : value)
    : gmap string value :=
  match v, data !! key with
  | VUndefined, None => final
  | _, _ => <[key := v]> final
  end.

Fixpoint mergeObjectSync (data : gmap string value)
    (pairs : list (string * ParseReturn)) (st : ParseStatus)
    (final : gmap string value) : ParseStatus * gmap string value :=
  match pairs with
  | [] => (st, final)
  | (key, r) :: rest =>
      match status r with
      | aborted => (aborted, ∅)
      | s =>
          mergeObjectSync data rest
            (match s with dirty => dirty | _ => st end)
            (assign data final key (output r))
      end
  end.

(** [schema._parse(input)], for the input [data] found at [p]. *)
Fixpoint _parse (t : ZodType) (p : list string) (data : value) {struct t} : ParseReturn :=
  match t with
  | ZodString checks =>
      match data with
      | VString s => checked data (concat (map (string_check p s) checks))
      | _ => INVALID [makeIssue None p (invalid_type "string" (getParsedType data)) None []]
      end
  | ZodNumber checks =>
      match data with
      | VNumber x =>
          if JS.Number_isNaN x
          then INVALID [makeIssue None p (invalid_type "number" (getParsedType data)) None []]
          else checked data (concat (map (number_check p x) checks))
      | _ => INVALID [makeIssue None p (invalid_type "number" (getParsedType data)) None []]
      end
  | ZodBoolean =>
      match data with
      | VBool _ => OK data
      | _ => INVALID [makeIssue None p (invalid_type "boolean" (getParsedType data)) None []]
      end
  | ZodEnum values errorMap =>
      match data with
      | VString s =>
          if existsb (String.eqb s) values then OK data
          else INVALID [makeIssue errorMap p (invalid_enum_value values s) None []]
      | _ => INVALID [makeIssue errorMap p
                        (invalid_type (joinValues values) (getParsedType data)) None []]
      end
  | ZodOptional innerType =>
      match data with
      | VUndefined => OK VUndefined
      | _ => _parse innerType p data
      end
  | ZodDefault innerType defaultValue =>
      match data with
      | VUndefined => _parse innerType p defaultValue
      | _ => _parse innerType p data
      end
  | ZodObject shape =>
      match data with
      | VObject o =>
          let pairs :=
            map (fun kt : string * ZodType =>
                   (fst kt, _parse (snd kt) (p ++ [fst kt]) (get (fst kt) data)))
                shape in
          let '(st, final) := mergeObjectSync o pairs valid ∅ in
          {| status := st;
             output := match st with aborted => VUndefined | _ => VObject final end;
             issues := concat (map (fun kr : string * ParseReturn => issues (snd kr)) pairs) |}
      | _ => INVALID [makeIssue None p (invalid_type "object" (getParsedType data)) None []]
      end
  | ZodEffects schema (preprocess transform) =>
      let result := _parse schema p (transform data) in
      match status result with
      | aborted => INVALID (issues result)
      | _ => result
      end
  | ZodEffects schema (refinement check msg sub) =>
      let inner := _parse schema p data in
      match status inner with
      | aborted => INVALID (issues inner)
      | _ =>
          if check (output inner) then inner
          else {| status := dirty; output := output inner;
                  issues := issues inner ++ [makeIssue None p custom msg sub] |}
      end
  end.

(** What [schema.parse(data)] throws or returns. *)
Inductive ParseOutcome :=
| Parsed (v : value)
| ZodError (errors : list ZodIssue)
| NoIssues.   (* Error("Validation failed but no issues detected.") *)

Definition parse (t : ZodType) (data : value) : ParseOutcome :=
  let result := _parse t [] data in
  match status result with
  | valid => Parsed (output result)
  | _ => match issues result with
         | [] => NoIssues
         | iss => ZodError iss
         end
  end.

End Zod.

(** The schema builders, as the program spells them. *)
Module z.
Import Zod.

Definition string : ZodType := ZodString [].
Definition number : ZodType := ZodNumber [].
Definition boolean : ZodType := ZodBoolean.
Definition enum (values : list String.string) (errorMap : option ZodErrorMap) : ZodType :=
    ZodEnum values errorMap.
Definition object (shape : list (String.string * ZodType)) : ZodType := ZodObject shape.
Definition preprocess (f : value -> value) (schema : ZodType) : ZodType :=
    ZodEffects schema (Zod.preprocess f).

Definition min (n : nat) (msg : String.string) (t : ZodType) : ZodType :=
    match t with ZodString cs => ZodString (cs ++ [ck_min n (Some msg)]) | _ => t end.
Definition max (n : nat) (msg : String.string) (t : ZodType) : ZodType :=
    match t with ZodString cs => ZodString (cs ++ [ck_max n (Some msg)]) | _ => t end.
Definition finite (msg : String.string) (t : ZodType) : ZodType :=
    match t with ZodNumber cs => ZodNumber (cs ++ [ck_finite (Some msg)]) | _ => t end.
Definition optional (t : ZodType) : ZodType := ZodOptional t.
Definition default (d : value) (t : ZodType) : ZodType := ZodDefault t d.
Definition refine (check : value -> bool) (msg : String.string) (sub : list String.string)
      (t : ZodType) : ZodType :=
    ZodEffects t (refinement check (Some msg) sub).
End z.

(** Method chaining: [x |> f] is [x.f]. *)
Notation "x |> f" := (f x) (at level 45, left associativity, only parsing).

(* ===================================================================== *)
(** ** Errors, [try] / [catch] and the call log *)
(* ===================================================================== *)

Module Eff.

(** [ErrorCode] of the MCP SDK. *)
Inductive ErrorCode := InvalidParams | InternalError | MethodNotFound.

Definition ErrorCode_number (c : ErrorCode) : string :=
  match c with
  | MethodNotFound => "-32601"
  | InvalidParams => "-32602"
  | InternalError => "-32603"
  end.

(** The [Error] objects the program throws and catches. *)
Inductive thrown :=
| ThrownZodError (errors : list Zod.ZodIssue)
| ThrownMcpError (code : ErrorCode) (message : string)
| ThrownError (message : string).

(** [new McpError(code, message)]: the SDK prefixes the message. *)
Definition McpError (code : ErrorCode) (message : string) : thrown :=
  ThrownMcpError code ("MCP error " +:+ ErrorCode_number code +:+ ": " +:+ message).

(** Calls recorded in the log: a resolver's [resolveAndExecute] and a use
    case's [execute], for the tool named. *)
Inductive call :=
| CallResolver (tool : string)
| CallUseCase (tool : string).

(** A computation appends to the call log and returns or throws. *)
Definition M (A : Type) : Type := list call * (thrown + A).

Definition ret {A} (a : A) : M A := ([], inr a).
Definition throw {A} (e : thrown) : M A := ([], inl e).
Definition log (c : call) : M unit := ([c], inr tt).

Definition bind {A B} (m : M A) (k : A -> M B) : M B :=
  match m with
  | (l, inl e) => (l, inl e)
  | (l, inr a) => let '(l', r) := k a in (l ++ l', r)
  end.

Definition try_catch {A} (body : M A) (handler : thrown -> M A) : M A :=
  match body with
  | (l, inl e) => let '(l', r) := handler e in (l ++ l', r)
  | (l, inr a) => (l, inr a)
  end.

Definition calls {A} (m : M A) : list call := fst m.
Definition outcome {A} (m : M A) : thrown + A := snd m.

End Eff.

Import Eff.

Notation "'let*' x ':=' m 'in' k" := (bind m (fun x => k))
  (at level 10, x name, m at level 100, k at level 200).
Notation "m ';;' k" := (bind m (fun _ => k))
  (at level 100, k at level 200, right associativity).
Notation "'try' body 'catch' handler" := (try_catch body handler)
  (at level 10, body at level 200, handler at level 200).

(** What the program reads from its environment: the wall clock, the
    time zone database and the date formatting of [Intl]. [formatDate]
    is the text produced for a supported time zone; [ZodError_message]
    is the [message] of a [ZodError], which the program never reads. *)
Inductive DateMethod := toLocaleDateString | toLocaleTimeString | toLocaleString.

Record DateTimeFormatOptions := {
  timeZone : string;
  weekday : option string;
  year : option string;
  month : option string;
  day : option string;
  hour : option string;
  minute : option string;
  second : option string
}.

Record Runtime := {
  Date_getHours : Z;
  Date_toISOString : string;
  supportedTimeZone : string -> bool;
  RangeError_message : string -> string;
  formatDate : DateMethod -> string -> DateTimeFormatOptions -> string;
  ZodError_message : list Zod.ZodIssue -> string
}.

(** [ahora.toLocale...String(locale, options)]: a RangeError for a time
    zone the runtime does not know. *)
Definition Date_toLocale (rt : Runtime) (meth : DateMethod) (locale : string)
    (options : DateTimeFormatOptions) : M string :=
  if supportedTimeZone rt (timeZone options)
  then ret (formatDate rt meth locale options)
  else throw (ThrownError (RangeError_message rt (timeZone options))).

(** [error.message]. *)
Definition message_of (rt : Runtime) (error : thrown) : string :=
  match error with
  | ThrownZodError errors => ZodError_message rt errors
  | ThrownMcpError _ message => message
  | ThrownError message => message
  end.

(** The result envelope [{ content: [{ type: "text", text }] }]. *)
Record Content := { type : string; text : string }.
Record ToolResult := { content : list Content }.

Definition text_result (t : string) : ToolResult :=
  {| content := [ {| type := "text"; text := t |} ] |}.

(** Typed views of a validated object, as destructuring reads it. *)
Definition as_string (v : value) : string :=
  match v with VString s => s | _ => "" end.
Definition as_bool (v : value) : bool :=
  match v with VBool b => b | _ => false end.
Definition as_number (v : value) : JS.number :=
  match v with VNumber x => x | _ => S754_nan end.

(** The advertised descriptor of a tool. The descriptions and examples of
    the individual properties are left out. *)
Record PropertySchema := {
  prop_type : string;
  prop_enum : option (list string);
  prop_default : option value;
  prop_minLength : option nat;
  prop_maxLength : option nat
}.

Record InputSchema := {
  schema_type : string;
  properties : list (string * PropertySchema);
  required : list string;
  additionalProperties : bool
}.

Record ToolDefinition := {
  name : string;
  description : string;
  inputSchema : InputSchema
}.

(** [formattedErrors]: [err.path.join('.') + ": " + err.message], joined. *)
Definition formattedErrors (errors : list Zod.ZodIssue) : string :=
  JS.join "; " (map (fun err => JS.join "." (Zod.path err) +:+ ": " +:+ Zod.message err) errors).

(* ===================================================================== *)
(** ** Use cases *)
(* ===================================================================== *)

Module GreetingUseCase.

Record GreetingInput := { nombre : string; formal : bool }.

Definition execute (rt : Runtime) (input : GreetingInput) : M ToolResult :=
    log (CallUseCase "saludo") ;;
    let nombre := nombre input in
    let formal := formal input in
    let tiempoActual := Date_getHours rt in
    let saludoTiempo :=
      if tiempoActual <? 12 then (if formal then "Buenos días" else "¡Buenos días")
      else if tiempoActual <? 18 then (if formal then "Buenas tardes" else "¡Buenas tardes")
      else (if formal then "Buenas noches" else "¡Buenas noches") in
    let saludo :=
      if formal
      then saludoTiempo +:+ ", " +:+ nombre
             +:+ ". Es un placer saludarle. Espero que tenga un excelente día."
      else saludoTiempo +:+ " " +:+ nombre
             +:+ "! ¿Cómo estás? ¡Espero que tengas un día genial!" in
    ret (text_result saludo).

End GreetingUseCase.

Module CalculatorUseCase.

Record CalculatorInput := { operacion : string; a : JS.number; b : JS.number }.

  (** [resultadoFormateado]. *)
Definition formatear (resultado : JS.number) : string :=
    if JS.Number_isInteger resultado
    then JS.Number_toString resultado
    else JS.replace_dot_zeros (JS.Number_toFixed6 resultado).

Definition execute (input : CalculatorInput) : M ToolResult :=
    log (CallUseCase "calcular") ;;
    let operacion := operacion input in
    let a := a input in
    let b := b input in
    let* r :=
      (if String.eqb operacion "suma" then ret (JS.add a b, "+", "Suma")
       else if String.eqb operacion "resta" then ret (JS.sub a b, "-", "Resta")
       else if String.eqb operacion "multiplicacion" then ret (JS.mul a b, "×", "Multiplicación")
       else if String.eqb operacion "division" then ret (JS.div a b, "÷", "División")
       else throw (ThrownError "Operación no válida")) in
    let '(resultado, simbolo, descripcion) := r in
    let resultadoFormateado := formatear resultado in
    ret (text_result
           (descripcion +:+ ": " +:+ JS.Number_toString a +:+ " " +:+ simbolo +:+ " "
              +:+ JS.Number_toString b +:+ " = " +:+ resultadoFormateado)).

End CalculatorUseCase.

Module DateTimeUseCase.

Record DateTimeInput := { formato : string; zona_horaria : string }.

Definition options (tz : string) : DateTimeFormatOptions :=
    {| timeZone := tz; weekday := None; year := None; month := None; day := None;
       hour := None; minute := None; second := None |}.

Definition execute (rt : Runtime) (input : DateTimeInput) : M ToolResult :=
    log (CallUseCase "fecha_actual") ;;
    let formato := formato input in
    let zona_horaria := zona_horaria input in
    try
      (let* fechaFormateada :=
         (if String.eqb formato "corto" then
            Date_toLocale rt toLocaleDateString "es-ES" (options zona_horaria)
          else if String.eqb formato "hora" then
            Date_toLocale rt toLocaleTimeString "es-ES"
              {| timeZone := zona_horaria; weekday := None; year := None; month := None;
                 day := None; hour := Some "2-digit"; minute := Some "2-digit";
                 second := Some "2-digit" |}
          else if String.eqb formato "completo" then
            Date_toLocale rt toLocaleString "es-ES"
              {| timeZone := zona_horaria; weekday := Some "long"; year := Some "numeric";
                 month := Some "long"; day := Some "numeric"; hour := Some "2-digit";
                 minute := Some "2-digit"; second := Some "2-digit" |}
          else if String.eqb formato "iso" then
            ret (Date_toISOString rt)
          else
            Date_toLocale rt toLocaleDateString "es-ES"
              {| timeZone := zona_horaria; weekday := Some "long"; year := Some "numeric";
                 month := Some "long"; day := Some "numeric"; hour := None;
                 minute := None; second := None |}) in
       let zonaInfo :=
         if String.eqb zona_horaria "Europe/Madrid" then ""
         else " (Zona horaria: " +:+ zona_horaria +:+ ")" in
       ret (text_result ("La fecha actual es: " +:+ fechaFormateada +:+ zonaInfo)))
    catch (fun error =>
       throw (ThrownError ("Error al formatear la fecha: " +:+ message_of rt error))).

End DateTimeUseCase.

(* ===================================================================== *)
(** ** Resolvers *)
(* ===================================================================== *)

(** [Schema.parse(args)] as a computation: a ZodError is thrown. *)
Definition zod_parse (schema : Zod.ZodType) (args : value) : M value :=
  match Zod.parse schema args with
  | Zod.Parsed v => ret v
  | Zod.ZodError errors => throw (ThrownZodError errors)
  | Zod.NoIssues => throw (ThrownError "Validation failed but no issues detected.")
  end.

Definition no_prop (ty : string) : PropertySchema :=
  {| prop_type := ty; prop_enum := None; prop_default := None;
     prop_minLength := None; prop_maxLength := None |}.

Module GreetingResolver.
Import GreetingUseCase.

Definition GreetingInputSchema : Zod.ZodType :=
    z.object [
      ("nombre", z.string |> z.min 1 "El nombre no puede estar vacío"
                          |> z.max 100 "El nombre es demasiado largo");
      ("formal", z.preprocess
                   (fun val =>
                      match val with
                      | VString s => VBool (String.eqb (JS.String_toLowerCase s) "true")
                      | _ => val
                      end)
                   (z.boolean |> z.optional |> z.default (VBool false)))
    ].

Definition GREETING_TOOL_DEFINITION : ToolDefinition :=
    {| name := "saludo";
       description := "Genera un saludo personalizado y contextual en español. Útil para iniciar conversaciones de manera cordial y apropiada según el contexto.";
       inputSchema :=
         {| schema_type := "object";
            properties := [
              ("nombre", {| prop_type := "string"; prop_enum := None; prop_default := None;
                            prop_minLength := Some 1%nat; prop_maxLength := Some 100%nat |});
              ("formal", {| prop_type := "boolean"; prop_enum := None;
                            prop_default := Some (VBool false);
                            prop_minLength := None; prop_maxLength := None |}) ];
            required := ["nombre"];
            additionalProperties := false |} |}.

Definition getToolDefinition : ToolDefinition := GREETING_TOOL_DEFINITION.

Definition validateInput (args : value) : M value :=
    zod_parse GreetingInputSchema args.

  (** The validated object at its TypeScript type [GreetingInput]. *)
Definition GreetingInput_of (v : value) : GreetingInput :=
    {| nombre := as_string (get "nombre" v); formal := as_bool (get "formal" v) |}.

  (** The [catch] clause of [resolveAndExecute]. *)
Definition resolveAndExecute_catch (error : thrown) : M ToolResult :=
    match error with
    | ThrownZodError errors =>
        throw (McpError InvalidParams
                 ("Errores de validación en herramienta 'saludo': " +:+ formattedErrors errors))
    | ThrownMcpError _ _ => throw error
    | ThrownError message =>
        throw (McpError InternalError ("Error interno en herramienta 'saludo': " +:+ message))
    end.

Definition resolveAndExecute (rt : Runtime) (args : value) : M ToolResult :=
    log (CallResolver "saludo") ;;
    try
      (let* validatedInput := validateInput args in
       execute rt (GreetingInput_of validatedInput))
    catch resolveAndExecute_catch.

End GreetingResolver.

Module CalculatorResolver.
Import CalculatorUseCase.

Definition CalculatorInputSchema : Zod.ZodType :=
    z.object [
      ("operacion", z.enum ["suma"; "resta"; "multiplicacion"; "division"]
                      (Some (fun _ _ => "La operación debe ser una de: suma, resta, multiplicacion, division")));
      ("a", z.number |> z.finite "El primer número debe ser un número válido");
      ("b", z.number |> z.finite "El segundo número debe ser un número válido")
    ] |> z.refine
           (fun data =>
              if strict_eq (get "operacion" data) (VString "division")
                 && strict_eq (get "b" data) (VNumber JS.zero)
              then false
              else true)
           "No se puede dividir por cero" ["b"].

Definition CALCULATOR_TOOL_DEFINITION : ToolDefinition :=
    {| name := "calcular";
       description := "Realiza operaciones matemáticas básicas con alta precisión. Soporta suma, resta, multiplicación y división con manejo seguro de errores.";
       inputSchema :=
         {| schema_type := "object";
            properties := [
              ("operacion", {| prop_type := "string";
                               prop_enum := Some ["suma"; "resta"; "multiplicacion"; "division"];
                               prop_default := None;
                               prop_minLength := None; prop_maxLength := None |});
              ("a", no_prop "number");
              ("b", no_prop "number") ];
            required := ["operacion"; "a"; "b"];
            additionalProperties := false |} |}.

Definition getToolDefinition : ToolDefinition := CALCULATOR_TOOL_DEFINITION.

Definition validateInput (args : value) : M value :=
    zod_parse CalculatorInputSchema args.

  (** The validated object at its TypeScript type [CalculatorInput]. *)
Definition CalculatorInput_of (v : value) : CalculatorInput :=
    {| operacion := as_string (get "operacion" v);
       a := as_number (get "a" v);
       b := as_number (get "b" v) |}.

  (** The [catch] clause of [resolveAndExecute]. *)
Definition resolveAndExecute_catch (error : thrown) : M ToolResult :=
    match error with
    | ThrownZodError errors =>
        throw (McpError InvalidParams
                 ("Errores de validación en herramienta 'calcular': " +:+ formattedErrors errors))
    | ThrownMcpError _ _ => throw error
    | ThrownError message =>
        throw (McpError InternalError ("Error interno en herramienta 'calcular': " +:+ message))
    end.

Definition resolveAndExecute (args : value) : M ToolResult :=
    log (CallResolver "calcular") ;;
    try
      (let* validatedInput := validateInput args in
       execute (CalculatorInput_of validatedInput))
    catch resolveAndExecute_catch.

End CalculatorResolver.

Module DateTimeResolver.
Import DateTimeUseCase.

Definition DateTimeInputSchema : Zod.ZodType :=
    z.object [
      ("formato", z.enum ["corto"; "largo"; "hora"; "completo"; "iso"]
                    (Some (fun _ _ => "El formato debe ser uno de: corto, largo, hora, completo, iso"))
                  |> z.optional |> z.default (VString "largo"));
      ("zona_horaria", z.string |> z.optional |> z.default (VString "Europe/Madrid"))
    ].

Definition DATETIME_TOOL_DEFINITION : ToolDefinition :=
    {| name := "fecha_actual";
       description := "Obtiene la fecha y hora actual en diferentes formatos y zonas horarias. Ideal para referencias temporales precisas en documentos y comunicaciones.";
       inputSchema :=
         {| schema_type := "object";
            properties := [
              ("formato", {| prop_type := "string";
                             prop_enum := Some ["corto"; "largo"; "hora"; "completo"; "iso"];
                             prop_default := Some (VString "largo");
                             prop_minLength := None; prop_maxLength := None |});
              ("zona_horaria", {| prop_type := "string"; prop_enum := None;
                                  prop_default := Some (VString "Europe/Madrid");
                                  prop_minLength := None; prop_maxLength := None |}) ];
            required := [];
            additionalProperties := false |} |}.

Definition getToolDefinition : ToolDefinition := DATETIME_TOOL_DEFINITION.

Definition validateInput (args : value) : M value :=
    zod_parse DateTimeInputSchema args.

  (** The validated object at its TypeScript type [DateTimeInput]. *)
Definition DateTimeInput_of (v : value) : DateTimeInput :=
    {| formato := as_string (get "formato" v);
       zona_horaria := as_string (get "zona_horaria" v) |}.

  (** The [catch] clause of [resolveAndExecute]. *)
Definition resolveAndExecute_catch (error : thrown) : M ToolResult :=
    match error with
    | ThrownZodError errors =>
        throw (McpError InvalidParams
                 ("Errores de validación en herramienta 'fecha_actual': " +:+ formattedErrors errors))
    | ThrownMcpError _ _ => throw error
    | ThrownError message =>
        throw (McpError InternalError ("Error interno en herramienta 'fecha_actual': " +:+ message))
    end.

Definition resolveAndExecute (rt : Runtime) (args : value) : M ToolResult :=
    log (CallResolver "fecha_actual") ;;
    try
      (let* validatedInput := validateInput args in
       execute rt (DateTimeInput_of validatedInput))
    catch resolveAndExecute_catch.

End DateTimeResolver.

(* ===================================================================== *)
(** ** The orchestrator *)
(* ===================================================================== *)

Module ToolResolver.

Definition getToolDefinitions : list ToolDefinition :=
    [ GreetingResolver.getToolDefinition;
      CalculatorResolver.getToolDefinition;
      DateTimeResolver.getToolDefinition ].

(** The [catch] clause of [resolveAndExecute]. *)
Definition resolveAndExecute_catch (rt : Runtime) (toolName : string) (error : thrown)
    : M ToolResult :=
    match error with
    | ThrownMcpError _ _ => throw error
    | _ => throw (McpError InternalError
                    ("Error interno en herramienta '" +:+ toolName +:+ "': "
                       +:+ message_of rt error))
    end.

Definition resolveAndExecute (rt : Runtime) (toolName : string) (args : value) : M ToolResult :=
    try
      (if String.eqb toolName "saludo" then GreetingResolver.resolveAndExecute rt args
       else if String.eqb toolName "calcular" then CalculatorResolver.resolveAndExecute args
       else if String.eqb toolName "fecha_actual" then DateTimeResolver.resolveAndExecute rt args
       else throw (McpError MethodNotFound
                     ("Herramienta desconocida: " +:+ toolName
                        +:+ ". Herramientas disponibles: saludo, calcular, fecha_actual")))
    catch resolveAndExecute_catch rt toolName.

Definition validateInput (toolName : string) (args : value) : M value :=
    if String.eqb toolName "saludo" then GreetingResolver.validateInput args
    else if String.eqb toolName "calcular" then CalculatorResolver.validateInput args
    else if String.eqb toolName "fecha_actual" then DateTimeResolver.validateInput args
    else throw (ThrownError ("Herramienta desconocida: " +:+ toolName)).

Definition getToolInfo (toolName : string) : option ToolDefinition :=
    if String.eqb toolName "saludo" then Some GreetingResolver.getToolDefinition
    else if String.eqb toolName "calcular" then Some CalculatorResolver.getToolDefinition
    else if String.eqb toolName "fecha_actual" then Some DateTimeResolver.getToolDefinition
    else None.

End ToolResolver.

(* ===================================================================== *)
(** ** The server *)
(* ===================================================================== *)

Module Server.

(** The parameters of a [tools/call] request, as the SDK hands them to
    the handler: [arguments] is an object or is missing. *)
Record CallToolParams := { name : string; arguments : option (gmap string value) }.
Record CallToolRequest := { params : CallToolParams }.

Record ListToolsResult := { tools : list ToolDefinition }.

(** The handler of [ListToolsRequestSchema]. *)
Definition listTools : ListToolsResult :=
    {| tools := ToolResolver.getToolDefinitions |}.

(** The [catch] clause of the handler of [CallToolRequestSchema]. *)
Definition callTool_catch (rt : Runtime) (error : thrown) : M ToolResult :=
    match error with
    | ThrownMcpError _ _ => throw error
    | _ => throw (McpError InvalidParams ("MCP error -32602: " +:+ message_of rt error))
    end.

(** The handler of [CallToolRequestSchema]. *)
Definition callTool (rt : Runtime) (request : CallToolRequest) : M ToolResult :=
    let name := name (params request) in
    let args := from_option VObject VUndefined (arguments (params request)) in
    try ToolResolver.resolveAndExecute rt name args
    catch callTool_catch rt.

End Server.

(* ===================================================================== *)
(** ** The single-file version: [tools.ts] and its server *)
(* ===================================================================== *)

(** [typeof v]. *)
Definition typeof (v : value) : string :=
  match v with
  | VUndefined => "undefined"
  | VBool _ => "boolean"
  | VNumber _ => "number"
  | VString _ => "string"
  | VNull | VArray _ | VObject _ => "object"
  end.

(** [ToBoolean]: what [!v] and [v ? _ : _] test. *)
Definition ToBoolean (v : value) : bool :=
  match v with
  | VUndefined | VNull => false
  | VBool b => b
  | VNumber x => match x with S754_zero _ | S754_nan => false | _ => true end
  | VString s => negb (String.eqb s "")
  | VArray _ | VObject _ => true
  end.

(** A destructuring default: [{ key = d } = args]. *)
Definition get_default (key : string) (d : value) (args : value) : value :=
  match get key args with VUndefined => d | v => v end.

(** What [tools.ts] reads from the engine: the message of the TypeError
    raised when [undefined] or [null] is destructured, and the local date
    formatting, given the method, the locale and the options literal. *)
Record Engine := {
  TypeError_message : string -> value -> string;
  Date_format : DateMethod -> string -> list (string * string) -> string
}.

Module Tools.

(** [const { first, ... } = args]. *)
Definition destructure (eng : Engine) (first : string) (args : value) : M value :=
    match args with
    | VUndefined | VNull => throw (ThrownError (TypeError_message eng first args))
    | _ => ret args
    end.

Definition manejarSaludo (eng : Engine) (args : value) : M ToolResult :=
    let* args := destructure eng "nombre" args in
    let nombre := get "nombre" args in
    let formal := get_default "formal" (VBool false) args in
    if negb (ToBoolean nombre) || negb (String.eqb (typeof nombre) "string")
    then throw (ThrownError "El nombre es requerido y debe ser una cadena")
    else
      let saludo :=
        if ToBoolean formal
        then "Buenos días, Sr./Sra. " +:+ as_string nombre +:+ ". Es un placer saludarle."
        else "¡Hola " +:+ as_string nombre +:+ "! ¿Cómo estás?" in
      ret (text_result saludo).

Definition manejarCalcular (eng : Engine) (args : value) : M ToolResult :=
    let* args := destructure eng "operacion" args in
    let operacion := get "operacion" args in
    let a := get "a" args in
    let b := get "b" args in
    if negb (String.eqb (typeof a) "number") || negb (String.eqb (typeof b) "number")
    then throw (ThrownError "Los números deben ser valores numéricos")
    else
      let a := as_number a in
      let b := as_number b in
      let* r :=
        (if strict_eq operacion (VString "suma") then ret (JS.add a b, "+")
         else if strict_eq operacion (VString "resta") then ret (JS.sub a b, "-")
         else if strict_eq operacion (VString "multiplicacion") then ret (JS.mul a b, "×")
         else if strict_eq operacion (VString "division") then
           (if JS.strict_eq_number b JS.zero
            then throw (ThrownError "No se puede dividir por cero")
            else ret (JS.div a b, "÷"))
         else throw (ThrownError "Operación no válida")) in
      let '(resultado, simbolo) := r in
      ret (text_result
             (JS.Number_toString a +:+ " " +:+ simbolo +:+ " " +:+ JS.Number_toString b
                +:+ " = " +:+ JS.Number_toString resultado)).

Definition manejarFechaActual (eng : Engine) (args : value) : M ToolResult :=
    let* args := destructure eng "formato" args in
    let formato := get_default "formato" (VString "largo") args in
    let fechaFormateada :=
      if strict_eq formato (VString "corto") then
        Date_format eng toLocaleDateString "es-ES" []
      else if strict_eq formato (VString "hora") then
        Date_format eng toLocaleTimeString "es-ES" []
      else
        Date_format eng toLocaleDateString "es-ES"
          [("weekday", "long"); ("year", "numeric"); ("month", "long"); ("day", "numeric")] in
    ret (text_result ("La fecha actual es: " +:+ fechaFormateada)).

End Tools.

(** The server of the single-file version. *)
Module LegacyServer.

(** [error instanceof Error ? error.message : String(error)]: every error
    this version raises is an [Error]. *)
Definition callTool_catch (rt : Runtime) (error : thrown) : M ToolResult :=
    match error with
    | ThrownMcpError _ _ => throw error
    | _ => throw (McpError InvalidParams ("MCP error -32602: " +:+ message_of rt error))
    end.

Definition callTool (rt : Runtime) (eng : Engine) (request : Server.CallToolRequest)
    : M ToolResult :=
    let name := Server.name (Server.params request) in
    let args := from_option VObject VUndefined (Server.arguments (Server.params request)) in
    try
      (if String.eqb name "saludo" then Tools.manejarSaludo eng args
       else if String.eqb name "calcular" then Tools.manejarCalcular eng args
       else if String.eqb name "fecha_actual" then Tools.manejarFechaActual eng args
       else throw (McpError MethodNotFound ("Herramienta desconocida: " +:+ name)))
    catch callTool_catch rt.

End LegacyServer.

(* ===================================================================== *)
(** ** What the specification expects of validation *)
(* ===================================================================== *)

Module Spec.

  (** A violation: the path of the field and the message of the
      constraint it breaks. *)
Definition Violation : Type := string * string.

  (** The violations as [fieldPath: message] pairs. *)
Definition enumerate (vs : list Violation) : string :=
    JS.join "; " (map (fun v : Violation => fst v +:+ ": " +:+ snd v) vs).

  (** A field that is absent, or present at the wrong type. *)
Definition mistyped (field expected : string) (v : value) : list Violation :=
    match v with
    | VUndefined => [(field, "Required")]
    | _ => [(field, "Expected " +:+ expected +:+ ", received " +:+ Zod.getParsedType v)]
    end.

  (** *** calculate *)

Definition operacion_typed (v : value) : bool :=
    match v with
    | VString s => existsb (String.eqb s) ["suma"; "resta"; "multiplicacion"; "division"]
    | _ => false
    end.

Definition number_typed (v : value) : bool :=
    match v with
    | VNumber x => negb (JS.Number_isNaN x)
    | _ => false
    end.

Definition operacion_violations (v : value) : list Violation :=
    if operacion_typed v then []
    else [("operacion", "La operación debe ser una de: suma, resta, multiplicacion, division")].

Definition number_violations (field msg : string) (v : value) : list Violation :=
    if number_typed v then
      (if JS.Number_isFinite (as_number v) then [] else [(field, msg)])
    else mistyped field "number" v.

  (** The cross-field rule, looked at only when every field is well typed. *)
Definition cross_field_violations (operacion a b : value) : list Violation :=
    if operacion_typed operacion && number_typed a && number_typed b
       && strict_eq operacion (VString "division") && strict_eq b (VNumber JS.zero)
    then [("b", "No se puede dividir por cero")]
    else [].

Definition calculator_violations (args : value) : list Violation :=
    operacion_violations (get "operacion" args)
    ++ number_violations "a" "El primer número debe ser un número válido" (get "a" args)
    ++ number_violations "b" "El segundo número debe ser un número válido" (get "b" args)
    ++ cross_field_violations (get "operacion" args) (get "a" args) (get "b" args).

  (** *** greeting *)

Definition nombre_violations (v : value) : list Violation :=
    match v with
    | VString s =>
        (if (JS.String_length s <? 1)%nat
         then [("nombre", "El nombre no puede estar vacío")] else [])
        ++ (if (100 <? JS.String_length s)%nat
            then [("nombre", "El nombre es demasiado largo")] else [])
    | _ => mistyped "nombre" "string" v
    end.

Definition formal_violations (v : value) : list Violation :=
    match v with
    | VUndefined | VBool _ | VString _ => []
    | _ => mistyped "formal" "boolean" v
    end.

Definition greeting_violations (args : value) : list Violation :=
    nombre_violations (get "nombre" args) ++ formal_violations (get "formal" args).

  (** The lenient boolean: absent is [false], a string is compared with
      ["true"] whatever its case, a boolean is itself. *)
Definition lenient_boolean (v : value) : bool :=
    match v with
    | VString s => String.eqb (JS.String_toLowerCase s) "true"
    | VBool b => b
    | _ => false
    end.

  (** *** datetime *)

  (** An optional field with a default. *)
Definition or_default (d v : value) : value :=
    match v with VUndefined => d | _ => v end.

Definition formato_violations (v : value) : list Violation :=
    match v with
    | VUndefined => []
    | VString s =>
        if existsb (String.eqb s) ["corto"; "largo"; "hora"; "completo"; "iso"] then []
        else [("formato", "El formato debe ser uno de: corto, largo, hora, completo, iso")]
    | _ => [("formato", "El formato debe ser uno de: corto, largo, hora, completo, iso")]
    end.

Definition zona_horaria_violations (v : value) : list Violation :=
    match v with
    | VUndefined | VString _ => []
    | _ => mistyped "zona_horaria" "string" v
    end.

Definition datetime_violations (args : value) : list Violation :=
    formato_violations (get "formato" args) ++ zona_horaria_violations (get "zona_horaria" args).

  (** *** Number formatting *)

  (** A fraction with its trailing zeros stripped. *)
Fixpoint strip_trailing_zeros (s : string) : string :=
    match s with
    | EmptyString => EmptyString
    | String c s' =>
        match strip_trailing_zeros s' with
        | EmptyString => if Ascii.eqb c "0" then EmptyString else String c EmptyString
        | t => String c t
        end
    end.

  (** The decimal part printed for the six decimals [b]: nothing when
      they are all zeros. *)
Definition fraction (b : string) : string :=
    match strip_trailing_zeros b with
    | EmptyString => EmptyString
    | t => "." +:+ t
    end.

  (** *** Greeting bands *)

Inductive Band := morning | afternoon | evening.

Definition band_of (h : Z) : Band :=
    if h <? 12 then morning else if h <? 18 then afternoon else evening.

Definition salutation (b : Band) : string :=
    match b with
    | morning => "Buenos días"
    | afternoon => "Buenas tardes"
    | evening => "Buenas noches"
    end.

Definition formal_template (b : Band) (nombre : string) : string :=
    salutation b +:+ ", " +:+ nombre
      +:+ ". Es un placer saludarle. Espero que tenga un excelente día.".

Definition informal_template (b : Band) (nombre : string) : string :=
    "¡" +:+ salutation b +:+ " " +:+ nombre
      +:+ "! ¿Cómo estás? ¡Espero que tengas un día genial!".

End Spec.

(** What the resolvers print of an issue, and tests on parse results. *)
Definition shown (i : Zod.ZodIssue) : Spec.Violation :=
  (JS.join "." (Zod.path i), Zod.message i).

Definition is_aborted (r : Zod.ParseReturn) : bool :=
  match Zod.status r with Zod.aborted => true | _ => false end.

Definition is_dirty (r : Zod.ParseReturn) : bool :=
  match Zod.status r with Zod.dirty => true | _ => false end.

(** A field's parse result [r], against the violations [vs] expected of
    it and the value [v] it validates to. *)
Definition field_summary (r : Zod.ParseReturn) (vs : list Spec.Violation) (v : value) : Prop :=
  map shown (Zod.issues r) = vs
  /\ ((Zod.status r = Zod.aborted /\ vs <> [])
      \/ (Zod.status r = Zod.dirty /\ vs <> [] /\ Zod.output r = v)
      \/ (r = Zod.OK v /\ vs = [] /\ v <> VUndefined)).

Definition outcome_of (r : Zod.ParseReturn) : Zod.ParseOutcome :=
  match Zod.status r with
  | Zod.valid => Zod.Parsed (Zod.output r)
  | _ => match Zod.issues r with [] => Zod.NoIssues | iss => Zod.ZodError iss end
  end.

(** The keys a descriptor declares. *)
Definition declared (d : ToolDefinition) : list string :=
  map fst (properties (inputSchema d)).


(** The violations of an argument value of any kind: a single one at
    the root when the value is not an object. *)
Definition root_violations (violations : value -> list Spec.Violation) (args : value)
    : list Spec.Violation :=
  match args with
  | VObject _ => violations args
  | _ => Spec.mistyped "" "object" args
  end.

(** What each schema validates an accepted object to. *)
Definition greeting_validated (args : value) : value :=
  VObject (<["formal" := VBool (Spec.lenient_boolean (get "formal" args))]>
             (<["nombre" := get "nombre" args]> ∅)).

Definition calculator_validated (args : value) : value :=
  VObject (<["b" := get "b" args]> (<["a" := get "a" args]>
             (<["operacion" := get "operacion" args]> ∅))).

Definition datetime_validated (args : value) : value :=
  VObject (<["zona_horaria" := Spec.or_default (VString "Europe/Madrid")
                                 (get "zona_horaria" args)]>
             (<["formato" := Spec.or_default (VString "largo") (get "formato" args)]> ∅)).

(** The same, by tool name. *)
Definition violations_of (toolName : string) (args : value) : list Spec.Violation :=
  if String.eqb toolName "saludo" then root_violations Spec.greeting_violations args
  else if String.eqb toolName "calcular" then root_violations Spec.calculator_violations args
  else if String.eqb toolName "fecha_actual" then root_violations Spec.datetime_violations args
  else [].

Definition validated_of (toolName : string) (args : value) : value :=
  if String.eqb toolName "saludo" then greeting_validated args
  else if String.eqb toolName "calcular" then calculator_validated args
  else if String.eqb toolName "fecha_actual" then datetime_validated args
  else VUndefined.

(** What a handler of [tools.ts] can do: return, or throw a plain Error,
    without a call of the layered code. *)
Definition plain_outcome (m : M ToolResult) : Prop :=
  calls m = [] /\ match outcome m with
                  | inr _ | inl (ThrownError _) => True
                  | inl _ => False
                  end.

(** The double that holds the integer [V], for [1 <= V < 2^53], with the
    sign [s]: a mantissa of 53 bits. *)
Definition canonical (s : bool) (V : Z) : JS.number :=
  S754_finite s (Z.to_pos (V * 2 ^ (53 - Zdigits2 V))) (Zdigits2 V - 53).

(** The decimal numeral of an integer. *)
Definition decimal (z : Z) : string :=
  (if z <? 0 then "-" else "") +:+ JS.string_of_Z (Z.abs z).

(** The integers every one of which a double holds: [-2^53 < z < 2^53]. *)
Definition safe (z : Z) : Prop := Z.abs z < 2 ^ 53.

(** The four operations of the calculator: the function, its symbol and
    its description. *)
Definition operations
    : list (string * ((JS.number -> JS.number -> JS.number) * string * string)) :=
  [ ("suma", (JS.add, "+", "Suma"));
    ("resta", (JS.sub, "-", "Resta"));
    ("multiplicacion", (JS.mul, "×", "Multiplicación"));
    ("division", (JS.div, "÷", "División")) ].

(** The text of the greeting at hour [h]. *)
Definition greeting_text (h : Z) (formal : bool) (nombre : string) : string :=
  if formal then Spec.formal_template (Spec.band_of h) nombre
  else Spec.informal_template (Spec.band_of h) nombre.

(** [zonaInfo]: the suffix that names a time zone other than the default. *)
Definition zone_suffix (tz : string) : string :=
  if String.eqb tz "Europe/Madrid" then "" else " (Zona horaria: " +:+ tz +:+ ")".

Definition registered (toolName : string) : Prop :=
  In toolName (map name ToolResolver.getToolDefinitions).

Ltac show_issues :=
  cbv beta iota zeta delta
    [shown Zod.makeIssue Zod.INVALID Zod.OK Zod.checked Zod.issues Zod.status Zod.output
     map concat Zod.path Zod.message app JS.join fst snd Zod.number_check Zod.string_check].

(* ===================================================================== *)
(** ** Sample inputs *)
(* ===================================================================== *)

(** An object literal. *)
Definition obj (l : list (string * value)) : value := VObject (list_to_map l).

(** A runtime at 10:00 that knows two time zones. *)
Definition sample_runtime : Runtime :=
  {| Date_getHours := 10;
     Date_toISOString := "2024-01-15T09:00:00.000Z";
     supportedTimeZone := fun tz => String.eqb tz "Europe/Madrid" || String.eqb tz "UTC";
     RangeError_message := fun tz => "Invalid time zone specified: " +:+ tz;
     formatDate := fun _ _ _ => "15/1/2024";
     ZodError_message := fun _ => "[]" |}.

(** An engine with the messages of V8. *)
Definition sample_engine : Engine :=
  {| TypeError_message := fun key v =>
       "Cannot destructure property '" +:+ key +:+ "' of 'args' as it is "
         +:+ Zod.getParsedType v +:+ ".";
     Date_format := fun _ _ _ => "15/1/2024" |}.

(* ===================================================================== *)
(** ** Properties of the model *)
(* ===================================================================== *)

Lemma strict_eq_zero (b : JS.number) :
  JS.strict_eq_number b JS.zero = true -> exists s, b = S754_zero s.
Proof.
  destruct b as [s | s | | s m e]; cbn; try discriminate.
  - eauto.
  - destruct s; discriminate.
  - destruct s; discriminate.
Qed.

(** *** Objects *)

Lemma get_insert_eq k v (m : gmap string value) : get k (VObject (<[k := v]> m)) = v.
Proof. unfold get. rewrite lookup_insert_eq. reflexivity. Qed.

Lemma get_insert_ne k k' v (m : gmap string value) :
  k <> k' -> get k' (VObject (<[k := v]> m)) = get k' (VObject m).
Proof. intros H. unfold get. rewrite lookup_insert_ne by exact H. reflexivity. Qed.

Section ZodFacts.
Import Zod.

Lemma parse_object_eq shape p o :
    _parse (ZodObject shape) p (VObject o) =
      let pairs := map (fun kt : string * ZodType =>
                     (fst kt, _parse (snd kt) (p ++ [fst kt]) (get (fst kt) (VObject o)))) shape in
      let '(st, final) := mergeObjectSync o pairs valid ∅ in
      {| status := st;
         output := match st with aborted => VUndefined | _ => VObject final end;
         issues := concat (map (fun kr : string * ParseReturn => issues (snd kr)) pairs) |}.
Proof. reflexivity. Qed.

Lemma parse_refinement_eq t check msg sub p d :
    _parse (ZodEffects t (refinement check msg sub)) p d =
      let inner := _parse t p d in
      match status inner with
      | aborted => INVALID (issues inner)
      | _ => if check (output inner) then inner
             else {| status := dirty; output := output inner;
                     issues := issues inner ++ [makeIssue None p custom msg sub] |}
      end.
Proof. reflexivity. Qed.

Lemma merge3 o k1 r1 k2 r2 k3 r3 :
    mergeObjectSync o [(k1, r1); (k2, r2); (k3, r3)] valid ∅ =
      if is_aborted r1 || is_aborted r2 || is_aborted r3 then (aborted, ∅)
      else (if is_dirty r1 || is_dirty r2 || is_dirty r3 then dirty else valid,
            assign o (assign o (assign o ∅ k1 (output r1)) k2 (output r2)) k3 (output r3)).
Proof.
    unfold is_aborted, is_dirty. cbn [mergeObjectSync].
    destruct (status r1), (status r2), (status r3); reflexivity.
Qed.

Lemma merge2 o k1 r1 k2 r2 :
    mergeObjectSync o [(k1, r1); (k2, r2)] valid ∅ =
      if is_aborted r1 || is_aborted r2 then (aborted, ∅)
      else (if is_dirty r1 || is_dirty r2 then dirty else valid,
            assign o (assign o ∅ k1 (output r1)) k2 (output r2)).
Proof.
    unfold is_aborted, is_dirty. cbn [mergeObjectSync].
    destruct (status r1), (status r2); reflexivity.
Qed.

Lemma formattedErrors_shown errors :
    formattedErrors errors = Spec.enumerate (map shown errors).
Proof. unfold formattedErrors, Spec.enumerate. rewrite map_map. reflexivity. Qed.

  (** The enum field of the calculator. *)
Lemma operacion_field values em msg p v :
    (forall d s, em d s = msg) ->
    let r := _parse (ZodEnum values (Some em)) [p] v in
    if match v with VString s => existsb (String.eqb s) values | _ => false end
    then r = OK v
    else status r = aborted /\ map shown (issues r) = [(p, msg)].
Proof.
    intros Hem r. subst r.
    destruct v as [ | | b | x | s | l | o']; cbn [_parse];
      try (split; [reflexivity | show_issues; rewrite Hem; reflexivity]).
    destruct (existsb (String.eqb s) values); [reflexivity |].
    split; [reflexivity | show_issues; rewrite Hem; reflexivity].
Qed.

Lemma number_field p msg v :
    let r := _parse (ZodNumber [ck_finite (Some msg)]) [p] v in
    map shown (issues r) = Spec.number_violations p msg v
    /\ (if Spec.number_typed v then output r = v /\ status r <> aborted
          /\ (status r = valid <-> Spec.number_violations p msg v = [])
        else status r = aborted).
Proof.
    intros r; subst r. unfold Spec.number_violations.
    destruct v as [ | | b | x | s | l | o']; try (split; reflexivity).
    destruct x as [s | s | | s m e]; cbn; repeat split; intros; congruence.
Qed.

Lemma refined3 (o : gmap string value) (check : value -> bool) msg sub p
      k1 (r1 : ParseReturn) k2 (r2 : ParseReturn) k3 (r3 : ParseReturn) :
    let iss := issues r1 ++ issues r2 ++ issues r3 in
    let final :=
      assign o (assign o (assign o ∅ k1 (output r1)) k2 (output r2)) k3 (output r3) in
    let inner :=
      (let '(st, final) := mergeObjectSync o [(k1, r1); (k2, r2); (k3, r3)] valid ∅ in
       {| status := st;
          output := match st with aborted => VUndefined | _ => VObject final end;
          issues := concat [issues r1; issues r2; issues r3] |}) in
    match status inner with
    | aborted => INVALID (issues inner)
    | _ => if check (output inner) then inner
           else {| status := dirty; output := output inner;
                   issues := issues inner ++ [makeIssue None p custom msg sub] |}
    end =
    if is_aborted r1 || is_aborted r2 || is_aborted r3 then INVALID iss
    else if check (VObject final)
         then {| status := if is_dirty r1 || is_dirty r2 || is_dirty r3 then dirty else valid;
                 output := VObject final; issues := iss |}
         else {| status := dirty; output := VObject final;
                 issues := iss ++ [makeIssue None p custom msg sub] |}.
Proof.
    intros iss final inner. subst inner. rewrite merge3. fold final.
    cbn [concat]. rewrite app_nil_r. fold iss.
    destruct (is_aborted r1 || is_aborted r2 || is_aborted r3); [reflexivity|].
    cbn [status output issues].
    destruct (is_dirty r1 || is_dirty r2 || is_dirty r3); reflexivity.
Qed.

Lemma parse_refined_object3 (o : gmap string value) (check : value -> bool) msg sub p
      k1 t1 k2 t2 k3 t3 :
    let r1 := _parse t1 (p ++ [k1]) (get k1 (VObject o)) in
    let r2 := _parse t2 (p ++ [k2]) (get k2 (VObject o)) in
    let r3 := _parse t3 (p ++ [k3]) (get k3 (VObject o)) in
    let iss := issues r1 ++ issues r2 ++ issues r3 in
    let final :=
      assign o (assign o (assign o ∅ k1 (output r1)) k2 (output r2)) k3 (output r3) in
    _parse (ZodEffects (ZodObject [(k1, t1); (k2, t2); (k3, t3)])
              (refinement check msg sub)) p (VObject o) =
    if is_aborted r1 || is_aborted r2 || is_aborted r3 then INVALID iss
    else if check (VObject final)
         then {| status := if is_dirty r1 || is_dirty r2 || is_dirty r3 then dirty else valid;
                 output := VObject final; issues := iss |}
         else {| status := dirty; output := VObject final;
                 issues := iss ++ [makeIssue None p custom msg sub] |}.
Proof.
    intros r1 r2 r3 iss final.
    rewrite parse_refinement_eq, parse_object_eq.
    cbn [map fst snd]. fold r1 r2 r3.
    apply (refined3 o check msg sub p k1 r1 k2 r2 k3 r3).
Qed.

Lemma parse_error_cases (r : ParseReturn) (vs : list Spec.Violation) :
    status r <> valid -> map shown (issues r) = vs -> vs <> [] ->
    exists errors,
      match status r with
      | valid => Parsed (output r)
      | _ => match issues r with [] => NoIssues | iss => ZodError iss end
      end = ZodError errors /\ map shown errors = vs.
Proof.
    intros Hs Hi Hv. exists (issues r). split; [|exact Hi].
    destruct (status r); [congruence| |];
      (destruct (issues r); [cbn in Hi; congruence | reflexivity]).
Qed.

Lemma calculator_parse o :
    let args := VObject o in
    let vs := Spec.calculator_violations args in
    (vs = [] /\
       parse CalculatorResolver.CalculatorInputSchema args =
         Parsed (VObject (<["b" := get "b" args]> (<["a" := get "a" args]>
                            (<["operacion" := get "operacion" args]> ∅)))))
    \/ (vs <> [] /\ exists errors,
           parse CalculatorResolver.CalculatorInputSchema args = ZodError errors
           /\ map shown errors = vs).
Proof.
    intros args vs. subst vs args.
    unfold parse, CalculatorResolver.CalculatorInputSchema, z.refine, z.object, z.enum,
      z.finite, z.number.
    rewrite parse_refined_object3.
    cbn [app].
    pose proof (operacion_field ["suma"; "resta"; "multiplicacion"; "division"]
      (fun _ _ => "La operación debe ser una de: suma, resta, multiplicacion, division")
      "La operación debe ser una de: suma, resta, multiplicacion, division"
      "operacion" (get "operacion" (VObject o)) (fun _ _ => eq_refl)) as H1.
    pose proof (number_field "a" "El primer número debe ser un número válido" (get "a" (VObject o))) as [Ha1 Ha2].
    pose proof (number_field "b" "El segundo número debe ser un número válido" (get "b" (VObject o))) as [Hb1 Hb2].
    cbv zeta in H1, Ha1, Ha2, Hb1, Hb2.
    set (r1 := _parse (ZodEnum _ _) _ _) in *.
    set (r2 := _parse (ZodNumber _) ["a"] _) in *.
    set (r3 := _parse (ZodNumber _) ["b"] _) in *.
    unfold Spec.calculator_violations, Spec.operacion_violations, Spec.cross_field_violations.
    fold (Spec.operacion_typed (get "operacion" (VObject o))) in H1.
    rewrite <- Ha1, <- Hb1.
    destruct (Spec.operacion_typed (get "operacion" (VObject o))) eqn:T1.
    2:{ destruct H1 as [S1 I1]. right.
        assert (is_aborted r1 = true) as -> by (unfold is_aborted; rewrite S1; reflexivity).
        cbn [orb andb app]. split; [discriminate|].
        apply parse_error_cases; [discriminate | | discriminate].
        cbn [issues INVALID]. rewrite !map_app, I1, !app_nil_r. reflexivity. }
    clearbody r1. subst r1.
    change (is_aborted (OK ?v)) with false. change (is_dirty (OK ?v)) with false.
    change (issues (OK ?v)) with (@nil ZodIssue). change (output (OK ?v)) with v.
    cbn [orb andb app].
    destruct (Spec.number_typed (get "a" (VObject o))) eqn:T2.
    2:{ right.
        assert (is_aborted r2 = true) as -> by (unfold is_aborted; rewrite Ha2; reflexivity).
        cbn [orb andb app].
        assert (map shown (issues r2) <> []) as N2.
        { rewrite Ha1. unfold Spec.number_violations.
          rewrite T2. destruct (get "a" (VObject o)); discriminate. }
        assert (map shown (issues r2) ++ map shown (issues r3) ++ [] <> []) as N.
        { intros E. apply app_eq_nil in E as [E _]. congruence. }
        split; [exact N|].
        apply parse_error_cases; [discriminate | | exact N].
        cbn [issues INVALID]. rewrite !map_app, !app_nil_r. reflexivity. }
    destruct (Spec.number_typed (get "b" (VObject o))) eqn:T3.
    2:{ right.
        assert (is_aborted r3 = true) as -> by (unfold is_aborted; rewrite Hb2; reflexivity).
        rewrite orb_true_r.
        cbn [orb andb app].
        assert (map shown (issues r3) <> []) as N3.
        { rewrite Hb1. unfold Spec.number_violations.
          rewrite T3. destruct (get "b" (VObject o)); discriminate. }
        assert (map shown (issues r2) ++ map shown (issues r3) ++ [] <> []) as N.
        { intros E. apply app_eq_nil in E as [_ E]. apply app_eq_nil in E as [E _]. congruence. }
        split; [exact N|].
        apply parse_error_cases; [discriminate | | exact N].
        cbn [issues INVALID]. rewrite !map_app, !app_nil_r. reflexivity. }
    destruct Ha2 as (O2 & A2 & V2). destruct Hb2 as (O3 & A3 & V3).
    assert (is_aborted r2 = false) as -> by (unfold is_aborted; destruct (status r2); congruence).
    assert (is_aborted r3 = false) as -> by (unfold is_aborted; destruct (status r3); congruence).
    rewrite O2, O3. cbn [orb andb].
    destruct (get "operacion" (VObject o)) as [ | | | | s | | ] eqn:G1; try discriminate T1.
    destruct (get "a" (VObject o)) as [ | | | xa | | | ] eqn:G2; try discriminate T2.
    destruct (get "b" (VObject o)) as [ | | | xb | | | ] eqn:G3; try discriminate T3.
    cbn [assign].
    rewrite !get_insert_eq.
    rewrite !(get_insert_ne "b" "operacion") by discriminate.
    rewrite !(get_insert_ne "a" "operacion") by discriminate.
    rewrite !get_insert_eq.
    assert (forall r vs, status r <> aborted -> map shown (issues r) = vs ->
              (status r = valid <-> vs = []) ->
              (is_dirty r = true /\ vs <> []) \/ (is_dirty r = false /\ status r = valid /\ issues r = [])) as D.
    { intros r vs A I V. unfold is_dirty. destruct (status r) eqn:S.
      - right. split; [reflexivity|]. split; [reflexivity|].
        destruct V as [V _]. specialize (V eq_refl). subst vs.
        destruct (issues r); [reflexivity | discriminate].
      - left. split; [reflexivity|]. intros E. apply V in E. discriminate.
      - congruence. }
    destruct (strict_eq (VString s) (VString "division") && strict_eq (VNumber xb) (VNumber JS.zero)) eqn:C;
      cbv beta iota.
    { right. split.
      { intros E. apply app_eq_nil in E as [_ E]. apply app_eq_nil in E as [_ E]. discriminate. }
      apply parse_error_cases.
      - discriminate.
      - cbn [issues]. rewrite !map_app. rewrite <- app_assoc. reflexivity.
      - intros E. apply app_eq_nil in E as [_ E]. apply app_eq_nil in E as [_ E]. discriminate. }
    destruct (D r2 _ A2 eq_refl) as [[D2 N2] | (D2 & S2 & I2)].
    { rewrite Ha1. exact V2. }
    { right. rewrite D2. cbn [orb]. 
      assert (map shown (issues r2) ++ map shown (issues r3) ++ [] <> []) as N.
      { intros E. apply app_eq_nil in E as [E _]. congruence. }
      split; [exact N|].
      apply parse_error_cases; [discriminate | | exact N].
      cbn [issues]. rewrite !map_app, !app_nil_r. reflexivity. }
    destruct (D r3 _ A3 eq_refl) as [[D3 N3] | (D3 & S3 & I3)].
    { rewrite Hb1. exact V3. }
    { right. rewrite D3, orb_true_r.
      assert (map shown (issues r2) ++ map shown (issues r3) ++ [] <> []) as N.
      { intros E. apply app_eq_nil in E as [_ E]. apply app_eq_nil in E as [E _]. congruence. }
      split; [exact N|].
      apply parse_error_cases; [discriminate | | exact N].
      cbn [issues]. rewrite !map_app, !app_nil_r. reflexivity. }
    left. rewrite D2, D3, I2, I3. cbn [orb map app status output]. split; reflexivity.
Qed.
Lemma parse_object2 (o : gmap string value) p k1 t1 k2 t2 :
  let r1 := _parse t1 (p ++ [k1]) (get k1 (VObject o)) in
  let r2 := _parse t2 (p ++ [k2]) (get k2 (VObject o)) in
  _parse (ZodObject [(k1, t1); (k2, t2)]) p (VObject o) =
  if is_aborted r1 || is_aborted r2 then INVALID (issues r1 ++ issues r2)
  else {| status := if is_dirty r1 || is_dirty r2 then dirty else valid;
          output := VObject (assign o (assign o ∅ k1 (output r1)) k2 (output r2));
          issues := issues r1 ++ issues r2 |}.
Proof.
  intros r1 r2. rewrite parse_object_eq. cbn [map fst snd]. fold r1 r2.
  cbv zeta. rewrite merge2. cbn [concat]. rewrite app_nil_r.
  destruct (is_aborted r1 || is_aborted r2); [reflexivity|].
  destruct (is_dirty r1 || is_dirty r2); reflexivity.
Qed.

Lemma assign_defined (o final : gmap string value) k v :
  v <> VUndefined -> assign o final k v = <[k := v]> final.
Proof. intros H. destruct v; try reflexivity. congruence. Qed.

Lemma outcome_of_error (r : ParseReturn) (vs : list Spec.Violation) :
  status r <> valid -> map shown (issues r) = vs -> vs <> [] ->
  exists errors, outcome_of r = ZodError errors /\ map shown errors = vs.
Proof.
  intros Hs Hi Hv. exists (issues r). split; [|exact Hi]. unfold outcome_of.
  destruct (status r); [congruence| |];
    (destruct (issues r); [cbn in Hi; congruence | reflexivity]).
Qed.

Lemma object2_summary (o : gmap string value) k1 t1 k2 t2 vs1 vs2 v1 v2 :
  field_summary (_parse t1 [k1] (get k1 (VObject o))) vs1 v1 ->
  field_summary (_parse t2 [k2] (get k2 (VObject o))) vs2 v2 ->
  (vs1 ++ vs2 = [] /\
     parse (ZodObject [(k1, t1); (k2, t2)]) (VObject o) =
       Parsed (VObject (<[k2 := v2]> (<[k1 := v1]> ∅))))
  \/ (vs1 ++ vs2 <> [] /\ exists errors,
         parse (ZodObject [(k1, t1); (k2, t2)]) (VObject o) = ZodError errors
         /\ map shown errors = vs1 ++ vs2).
Proof.
  intros [I1 S1] [I2 S2].
  change (parse ?t ?d) with (outcome_of (_parse t [] d)).
  rewrite parse_object2. cbn [app].
  set (r1 := _parse t1 [k1] _) in *. set (r2 := _parse t2 [k2] _) in *.
  clearbody r1 r2.
  unfold is_aborted, is_dirty.
  destruct S1 as [[A1 N1] | [(A1 & N1 & O1) | (A1 & N1 & D1)]];
    destruct S2 as [[A2 N2] | [(A2 & N2 & O2) | (A2 & N2 & D2)]];
    try rewrite A1; try rewrite A2; try subst r1; try subst r2;
    cbn [status issues map OK orb] in *;
    try (right; split;
         [ intros E; apply app_eq_nil in E as [E1 E2]; congruence
         | apply outcome_of_error;
           [ discriminate
           | cbn [issues INVALID OK]; rewrite map_app; cbn [map]; congruence
           | intros E; apply app_eq_nil in E as [E1 E2]; congruence ] ]).
  left. subst vs1 vs2. split; [reflexivity|].
  unfold outcome_of. cbn [status output OK].
  rewrite !assign_defined by assumption. reflexivity.
Qed.

Lemma nombre_field v :
  let r := _parse (ZodString [ck_min 1 (Some "El nombre no puede estar vacío");
                              ck_max 100 (Some "El nombre es demasiado largo")])
             ["nombre"] v in
  field_summary r (Spec.nombre_violations v) v.
Proof.
  intros r; subst r. unfold field_summary.
  destruct v as [ | | b | x | s | l | o'];
    try (split; [reflexivity | left; split; [reflexivity | discriminate]]).
  { destruct x; (split; [reflexivity | left; split; [reflexivity | discriminate]]). }
  cbn [_parse map concat string_check Spec.nombre_violations].
  destruct (JS.String_length s <? 1)%nat eqn:E1, (100 <? JS.String_length s)%nat eqn:E2;
    (split; [reflexivity |]);
    first [ right; right; split; [reflexivity | split; [reflexivity | discriminate]]
          | right; left; split; [reflexivity | split; [discriminate | reflexivity]] ].
Qed.

Lemma formal_field v :
  let r := _parse (ZodEffects (ZodDefault (ZodOptional ZodBoolean) (VBool false))
                     (preprocess (fun val =>
                        match val with
                        | VString s => VBool (String.eqb (JS.String_toLowerCase s) "true")
                        | _ => val
                        end)))
             ["formal"] v in
  field_summary r (Spec.formal_violations v) (VBool (Spec.lenient_boolean v)).
Proof.
  intros r; subst r. unfold field_summary.
  destruct v as [ | | b | x | s | l | o'];
    try (split; [reflexivity | right; right; split; [reflexivity | split; [reflexivity | discriminate]]]);
    try (split; [reflexivity | left; split; [reflexivity | discriminate]]).
  destruct x; (split; [reflexivity | left; split; [reflexivity | discriminate]]).
Qed.

Lemma greeting_parse o :
  let args := VObject o in
  let vs := Spec.greeting_violations args in
  (vs = [] /\
     parse GreetingResolver.GreetingInputSchema args =
       Parsed (VObject (<["formal" := VBool (Spec.lenient_boolean (get "formal" args))]>
                          (<["nombre" := get "nombre" args]> ∅))))
  \/ (vs <> [] /\ exists errors,
         parse GreetingResolver.GreetingInputSchema args = ZodError errors
         /\ map shown errors = vs).
Proof.
  intros args vs. subst vs args.
  unfold GreetingResolver.GreetingInputSchema, z.object, z.string, z.min, z.max,
    z.preprocess, z.default, z.optional, z.boolean.
  cbn [app].
  apply object2_summary.
  - apply nombre_field.
  - apply formal_field.
Qed.
Lemma formato_field v :
  field_summary
    (_parse (ZodDefault
               (ZodOptional
                  (ZodEnum ["corto"; "largo"; "hora"; "completo"; "iso"]
                     (Some (fun _ _ => "El formato debe ser uno de: corto, largo, hora, completo, iso"))))
               (VString "largo"))
       ["formato"] v)
    (Spec.formato_violations v) (Spec.or_default (VString "largo") v).
Proof.
  unfold field_summary.
  destruct v as [ | | b | x | s | l | o'];
    try (split; [reflexivity | right; right; split; [reflexivity | split; [reflexivity | discriminate]]]);
    try (split; [reflexivity | left; split; [reflexivity | discriminate]]).
  cbn [_parse Spec.formato_violations Spec.or_default].
  destruct (existsb (String.eqb s) ["corto"; "largo"; "hora"; "completo"; "iso"]).
  - split; [reflexivity | right; right; split; [reflexivity | split; [reflexivity | discriminate]]].
  - split; [reflexivity | left; split; [reflexivity | discriminate]].
Qed.

Lemma zona_horaria_field v :
  field_summary
    (_parse (ZodDefault (ZodOptional (ZodString [])) (VString "Europe/Madrid"))
       ["zona_horaria"] v)
    (Spec.zona_horaria_violations v) (Spec.or_default (VString "Europe/Madrid") v).
Proof.
  unfold field_summary.
  destruct v as [ | | b | x | s | l | o'];
    try (split; [reflexivity | right; right; split; [reflexivity | split; [reflexivity | discriminate]]]);
    try (split; [reflexivity | left; split; [reflexivity | discriminate]]).
  destruct x; (split; [reflexivity | left; split; [reflexivity | discriminate]]).
Qed.

Lemma datetime_parse o :
  let args := VObject o in
  let vs := Spec.datetime_violations args in
  (vs = [] /\
     parse DateTimeResolver.DateTimeInputSchema args =
       Parsed (VObject
                 (<["zona_horaria" := Spec.or_default (VString "Europe/Madrid") (get "zona_horaria" args)]>
                    (<["formato" := Spec.or_default (VString "largo") (get "formato" args)]> ∅))))
  \/ (vs <> [] /\ exists errors,
         parse DateTimeResolver.DateTimeInputSchema args = ZodError errors
         /\ map shown errors = vs).
Proof.
  intros args vs. subst vs args.
  unfold DateTimeResolver.DateTimeInputSchema, z.object, z.string, z.enum, z.default, z.optional.
  apply object2_summary.
  - apply formato_field.
  - apply zona_horaria_field.
Qed.
End ZodFacts.


(** *** Laws of the effect monad *)

Lemma bind_ret {A B} (a : A) (k : A -> M B) : bind (ret a) k = k a.
Proof. unfold bind, ret. destruct (k a). reflexivity. Qed.

Lemma bind_throw {A B} (e : thrown) (k : A -> M B) : bind (throw e) k = throw e.
Proof. reflexivity. Qed.

Lemma log_then {A} (c : call) (m : M A) : (log c ;; m) = (c :: calls m, outcome m).
Proof. destruct m. reflexivity. Qed.

Lemma try_throw {A} (e : thrown) (h : thrown -> M A) : (try throw e catch h) = h e.
Proof. unfold try_catch, throw. destruct (h e). reflexivity. Qed.

Lemma try_ret {A} (a : A) (h : thrown -> M A) : (try ret a catch h) = ret a.
Proof. reflexivity. Qed.

(** *** What a resolver does with the outcome of validation *)

Lemma calculator_accepts (o : gmap string value) :
  Spec.calculator_violations (VObject o) = [] ->
  CalculatorResolver.resolveAndExecute (VObject o) =
    (log (CallResolver "calcular") ;;
     try CalculatorUseCase.execute (CalculatorResolver.CalculatorInput_of (VObject o))
     catch CalculatorResolver.resolveAndExecute_catch).
Proof.
  intros Hv.
  destruct (calculator_parse o) as [[_ Hp] | [N _]]; [|congruence].
  unfold CalculatorResolver.resolveAndExecute, CalculatorResolver.validateInput, zod_parse.
  rewrite Hp, !log_then, bind_ret. unfold CalculatorResolver.CalculatorInput_of.
  rewrite !get_insert_eq.
  rewrite !(get_insert_ne "b" "operacion") by discriminate.
  rewrite !(get_insert_ne "b" "a") by discriminate.
  rewrite !(get_insert_ne "a" "operacion") by discriminate.
  rewrite !get_insert_eq.
  reflexivity.
Qed.


Lemma greeting_accepts (rt : Runtime) (o : gmap string value) :
  Spec.greeting_violations (VObject o) = [] ->
  GreetingResolver.resolveAndExecute rt (VObject o) =
    (log (CallResolver "saludo") ;;
     try GreetingUseCase.execute rt
           {| GreetingUseCase.nombre := as_string (get "nombre" (VObject o));
              GreetingUseCase.formal := Spec.lenient_boolean (get "formal" (VObject o)) |}
     catch GreetingResolver.resolveAndExecute_catch).
Proof.
  intros Hv.
  destruct (greeting_parse o) as [[_ Hp] | [N _]]; [|congruence].
  unfold GreetingResolver.resolveAndExecute, GreetingResolver.validateInput, zod_parse.
  rewrite Hp, !log_then, bind_ret. unfold GreetingResolver.GreetingInput_of.
  rewrite !get_insert_eq.
  rewrite !(get_insert_ne "formal" "nombre") by discriminate.
  rewrite !get_insert_eq.
  reflexivity.
Qed.


Lemma datetime_accepts (rt : Runtime) (o : gmap string value) :
  Spec.datetime_violations (VObject o) = [] ->
  DateTimeResolver.resolveAndExecute rt (VObject o) =
    (log (CallResolver "fecha_actual") ;;
     try DateTimeUseCase.execute rt
           {| DateTimeUseCase.formato :=
                as_string (Spec.or_default (VString "largo") (get "formato" (VObject o)));
              DateTimeUseCase.zona_horaria :=
                as_string (Spec.or_default (VString "Europe/Madrid")
                             (get "zona_horaria" (VObject o))) |}
     catch DateTimeResolver.resolveAndExecute_catch).
Proof.
  intros Hv.
  destruct (datetime_parse o) as [[_ Hp] | [N _]]; [|congruence].
  unfold DateTimeResolver.resolveAndExecute, DateTimeResolver.validateInput, zod_parse.
  rewrite Hp, !log_then, bind_ret. unfold DateTimeResolver.DateTimeInput_of.
  rewrite !get_insert_eq.
  rewrite !(get_insert_ne "zona_horaria" "formato") by discriminate.
  rewrite !get_insert_eq.
  reflexivity.
Qed.

Lemma division_by_zero_issue (o : gmap string value) (a b : JS.number) :
  o !! "operacion" = Some (VString "division") ->
  o !! "a" = Some (VNumber a) -> JS.Number_isFinite a = true ->
  o !! "b" = Some (VNumber b) -> JS.strict_eq_number b JS.zero = true ->
  Zod.parse CalculatorResolver.CalculatorInputSchema (VObject o) =
    Zod.ZodError [ {| Zod.issue := Zod.custom; Zod.path := ["b"];
                      Zod.message := "No se puede dividir por cero" |} ].
Proof.
  intros Hop Ha Hfa Hb Hb0.
  destruct (strict_eq_zero b Hb0) as [sb ->].
  unfold Zod.parse, CalculatorResolver.CalculatorInputSchema, z.refine, z.object, z.enum,
    z.finite, z.number.
  cbn [app]. rewrite parse_refined_object3. unfold get. rewrite Hop, Ha, Hb.
  cbn [default from_option id app].
  assert (forall p msg, Zod._parse (Zod.ZodNumber [Zod.ck_finite (Some msg)]) p (VNumber a)
                        = Zod.OK (VNumber a)) as Na.
  { intros. destruct a; try discriminate Hfa; reflexivity. }
  rewrite !Na.
  change (Zod._parse (Zod.ZodNumber ?c) ?p (VNumber (S754_zero sb)))
    with (Zod.OK (VNumber (S754_zero sb))).
  change (Zod._parse (Zod.ZodEnum ?vs ?em) ?p (VString "division"))
    with (Zod.OK (VString "division")).
  change (is_aborted (Zod.OK ?v)) with false. change (is_dirty (Zod.OK ?v)) with false.
  change (Zod.issues (Zod.OK ?v)) with (@nil Zod.ZodIssue).
  change (Zod.output (Zod.OK ?v)) with v.
  cbn [orb andb app Zod.assign].
  rewrite !lookup_insert_eq.
  rewrite !(lookup_insert_ne _ "b" "operacion") by discriminate.
  rewrite !(lookup_insert_ne _ "a" "operacion") by discriminate.
  rewrite !lookup_insert_eq.
  reflexivity.
Qed.

(** *** Strings *)

Lemma append_assoc (s t u : string) : (s +:+ t) +:+ u = s +:+ (t +:+ u).
Proof.
  induction s as [|c s IH]; [reflexivity|].
  change (String c ((s +:+ t) +:+ u) = String c (s +:+ (t +:+ u))). now rewrite IH.
Qed.

Lemma append_nil_r (s : string) : s +:+ "" = s.
Proof.
  induction s as [|c s IH]; [reflexivity|].
  change (String c (s +:+ "") = String c s). now rewrite IH.
Qed.

Lemma includes_middle (a s b : string) : JS.includes (a +:+ s +:+ b) s.
Proof. exists a, b. reflexivity. Qed.

Lemma includes_prefix (p t s : string) : JS.includes t s -> JS.includes (p +:+ t) s.
Proof. intros (a & b & ->). exists (p +:+ a), b. symmetry. apply append_assoc. Qed.

(** C1. Invoking [calcular] with [operacion = "division"], a finite [a]
    and [b = 0] fails with InvalidParams, the failure comes from the
    cross-field rule of the schema (a single [custom] issue at path [b]),
    and the use case is never called. *)
Theorem C1_division_by_zero_rejected_by_validation
    (rt : Runtime) (o : gmap string value) (a b : JS.number) :
  o !! "operacion" = Some (VString "division") ->
  o !! "a" = Some (VNumber a) -> JS.Number_isFinite a = true ->
  o !! "b" = Some (VNumber b) -> JS.strict_eq_number b JS.zero = true ->
  let run := ToolResolver.resolveAndExecute rt "calcular" (VObject o) in
  outcome run =
    inl (McpError InvalidParams
           "Errores de validación en herramienta 'calcular': b: No se puede dividir por cero")
  /\ Zod.parse CalculatorResolver.CalculatorInputSchema (VObject o) =
       Zod.ZodError [ {| Zod.issue := Zod.custom; Zod.path := ["b"];
                         Zod.message := "No se puede dividir por cero" |} ]
  /\ calls run = [CallResolver "calcular"]
  /\ ~ In (CallUseCase "calcular") (calls run).
Proof.
  intros Hop Ha Hfa Hb Hb0 run.
  pose proof (division_by_zero_issue o a b Hop Ha Hfa Hb Hb0) as Hp.
  assert (run = ([CallResolver "calcular"],
                 inl (McpError InvalidParams
                        "Errores de validación en herramienta 'calcular': b: No se puede dividir por cero")))
    as ->.
  { subst run. unfold ToolResolver.resolveAndExecute.
    change (String.eqb "calcular" "saludo") with false.
    change (String.eqb "calcular" "calcular") with true.
    cbv beta iota.
    unfold CalculatorResolver.resolveAndExecute, CalculatorResolver.validateInput, zod_parse.
    rewrite Hp. reflexivity. }
  repeat split; try assumption.
  cbn. intros [H | []]. discriminate.
Qed.

Lemma C1_witness :
  outcome (ToolResolver.resolveAndExecute sample_runtime "calcular"
             (obj [("operacion", VString "division"); ("a", VNumber (JS.ofZ 5));
                   ("b", VNumber JS.zero)])) =
    inl (McpError InvalidParams
           "Errores de validación en herramienta 'calcular': b: No se puede dividir por cero").
Proof.
  apply (C1_division_by_zero_rejected_by_validation sample_runtime
           (list_to_map [("operacion", VString "division"); ("a", VNumber (JS.ofZ 5));
                         ("b", VNumber JS.zero)])
           (JS.ofZ 5) JS.zero); vm_compute; reflexivity.
Defined.

(** C4. Dispatching a name that is not registered fails with
    MethodNotFound, the message contains every registered name, and no
    resolver or use case is called. *)
Theorem C4_unknown_operation (rt : Runtime) (toolName : string) (args : value) :
  ~ In toolName (map name ToolResolver.getToolDefinitions) ->
  let run := ToolResolver.resolveAndExecute rt toolName args in
  exists message,
    outcome run = inl (ThrownMcpError MethodNotFound message)
    /\ (forall d, In d ToolResolver.getToolDefinitions -> JS.includes message (name d))
    /\ calls run = [].
Proof.
  intros Hn run.
  assert (String.eqb toolName "saludo" = false) as E1.
  { apply String.eqb_neq. intros ->. apply Hn. cbn. auto. }
  assert (String.eqb toolName "calcular" = false) as E2.
  { apply String.eqb_neq. intros ->. apply Hn. cbn. auto. }
  assert (String.eqb toolName "fecha_actual" = false) as E3.
  { apply String.eqb_neq. intros ->. apply Hn. cbn. auto. }
  subst run. unfold ToolResolver.resolveAndExecute. rewrite E1, E2, E3.
  eexists. split; [reflexivity|]. split; [|reflexivity].
  intros d [<- | [<- | [<- | []]]]; cbn [name ToolResolver.getToolDefinitions
    GreetingResolver.getToolDefinition GreetingResolver.GREETING_TOOL_DEFINITION
    CalculatorResolver.getToolDefinition CalculatorResolver.CALCULATOR_TOOL_DEFINITION
    DateTimeResolver.getToolDefinition DateTimeResolver.DATETIME_TOOL_DEFINITION].
  - do 5 apply includes_prefix.
    apply (includes_middle ". Herramientas disponibles: " "saludo" ", calcular, fecha_actual").
  - do 5 apply includes_prefix.
    apply (includes_middle ". Herramientas disponibles: saludo, " "calcular" ", fecha_actual").
  - do 5 apply includes_prefix.
    apply (includes_middle ". Herramientas disponibles: saludo, calcular, " "fecha_actual" "").
Qed.

Lemma C4_witness :
  exists message,
    outcome (ToolResolver.resolveAndExecute sample_runtime "does-not-exist" (obj [])) =
      inl (ThrownMcpError MethodNotFound message)
    /\ (forall d, In d ToolResolver.getToolDefinitions -> JS.includes message (name d))
    /\ calls (ToolResolver.resolveAndExecute sample_runtime "does-not-exist" (obj [])) = [].
Proof.
  apply (C4_unknown_operation sample_runtime "does-not-exist" (obj [])).
  cbn. intros [H | [H | [H | []]]]; discriminate.
Defined.





Lemma datetime_unknown_zone (rt : Runtime) (formato tz : string) :
  supportedTimeZone rt tz = false ->
  String.eqb formato "iso" = false ->
  DateTimeUseCase.execute rt
    {| DateTimeUseCase.formato := formato; DateTimeUseCase.zona_horaria := tz |} =
    ([CallUseCase "fecha_actual"],
     inl (ThrownError ("Error al formatear la fecha: " +:+ RangeError_message rt tz))).
Proof.
  intros Hs Hi. unfold DateTimeUseCase.execute, Date_toLocale, DateTimeUseCase.options.
  cbn [DateTimeUseCase.formato DateTimeUseCase.zona_horaria timeZone].
  rewrite Hi, Hs.
  destruct (String.eqb formato "corto"), (String.eqb formato "hora"),
    (String.eqb formato "completo"); reflexivity.
Qed.








(** C6. Validating the greeting input applies the default and the
    lenient boolean: an absent [formal] validates to [false], a string is
    compared with ["true"] after lowering its case (so ["TRUE"] gives
    [true] and ["false"] gives [false]), a boolean is kept. *)
Theorem C6_formal_default_and_coercion (o : gmap string value) (nombre : string) :
  o !! "nombre" = Some (VString nombre) ->
  (1 <= JS.String_length nombre <= 100)%nat ->
  let validated (formal : bool) : M value :=
    ret (VObject (<["formal" := VBool formal]> (<["nombre" := VString nombre]> ∅))) in
  (o !! "formal" = None ->
     GreetingResolver.validateInput (VObject o) = validated false)
  /\ (forall s, o !! "formal" = Some (VString s) ->
        GreetingResolver.validateInput (VObject o) =
          validated (String.eqb (JS.String_toLowerCase s) "true"))
  /\ (forall b, o !! "formal" = Some (VBool b) ->
        GreetingResolver.validateInput (VObject o) = validated b)
  /\ String.eqb (JS.String_toLowerCase "TRUE") "true" = true
  /\ String.eqb (JS.String_toLowerCase "false") "true" = false.
Proof.
  intros Hn [Hlo Hhi] validated.
  assert (get "nombre" (VObject o) = VString nombre) as Gn.
  { unfold get. rewrite Hn. reflexivity. }
  assert (Spec.nombre_violations (VString nombre) = []) as Vn.
  { cbn [Spec.nombre_violations].
    destruct (Nat.ltb_spec (JS.String_length nombre) 1); [lia|].
    destruct (Nat.ltb_spec 100 (JS.String_length nombre)); [lia|]. reflexivity. }
  assert (forall v, get "formal" (VObject o) = v -> Spec.formal_violations v = [] ->
            GreetingResolver.validateInput (VObject o) =
              validated (Spec.lenient_boolean v)) as Hval.
  { intros v Gf Vf.
    destruct (greeting_parse o) as [[_ Hp] | [N _]].
    - unfold GreetingResolver.validateInput, zod_parse. rewrite Hp, Gn, Gf. reflexivity.
    - exfalso. apply N. unfold Spec.greeting_violations. rewrite Gn, Gf, Vn, Vf. reflexivity. }
  split; [|split; [|split; [|split]]].
  - intros Hf. apply (Hval VUndefined); [unfold get; rewrite Hf|]; reflexivity.
  - intros s Hf. apply (Hval (VString s)); [unfold get; rewrite Hf|]; reflexivity.
  - intros b Hf. apply (Hval (VBool b)); [unfold get; rewrite Hf|]; reflexivity.
  - reflexivity.
  - reflexivity.
Qed.

Lemma C6_witness :
  GreetingResolver.validateInput (obj [("nombre", VString "Ana"); ("formal", VString "TRUE")]) =
    ret (VObject (<["formal" := VBool true]> (<["nombre" := VString "Ana"]> ∅))).
Proof.
  refine (proj1 (proj2
    (C6_formal_default_and_coercion
       (list_to_map [("nombre", VString "Ana"); ("formal", VString "TRUE")]) "Ana" _ _))
    "TRUE" _).
  - vm_compute. reflexivity.
  - vm_compute. lia.
  - vm_compute. reflexivity.
Defined.

(** C8. For every hour between 0 and 23 the greeting use case picks the
    band by [h < 12], [12 <= h < 18] and [h >= 18], and within the band
    the formal flag picks one of exactly two templates. *)
Theorem C8_greeting_band_and_template (rt : Runtime) (input : GreetingUseCase.GreetingInput) :
  0 <= Date_getHours rt <= 23 ->
  exists band,
    (band = Spec.morning /\ Date_getHours rt < 12
     \/ band = Spec.afternoon /\ 12 <= Date_getHours rt < 18
     \/ band = Spec.evening /\ 18 <= Date_getHours rt)
    /\ GreetingUseCase.execute rt input =
         ([CallUseCase "saludo"],
          inr (text_result
                 (if GreetingUseCase.formal input
                  then Spec.formal_template band (GreetingUseCase.nombre input)
                  else Spec.informal_template band (GreetingUseCase.nombre input)))).
Proof.
  intros _. unfold GreetingUseCase.execute. rewrite log_then.
  destruct (Z.ltb_spec (Date_getHours rt) 12) as [H12 | H12];
    [| destruct (Z.ltb_spec (Date_getHours rt) 18) as [H18 | H18]].
  - exists Spec.morning. split; [left; split; [reflexivity | lia]|].
    destruct (GreetingUseCase.formal input); reflexivity.
  - exists Spec.afternoon. split; [right; left; split; [reflexivity | lia]|].
    destruct (GreetingUseCase.formal input); reflexivity.
  - exists Spec.evening. split; [right; right; split; [reflexivity | lia]|].
    destruct (GreetingUseCase.formal input); reflexivity.
Qed.

Lemma C8_witness :
  exists band,
    (band = Spec.morning /\ Date_getHours sample_runtime < 12
     \/ band = Spec.afternoon /\ 12 <= Date_getHours sample_runtime < 18
     \/ band = Spec.evening /\ 18 <= Date_getHours sample_runtime)
    /\ GreetingUseCase.execute sample_runtime
         {| GreetingUseCase.nombre := "Ana"; GreetingUseCase.formal := true |} =
         ([CallUseCase "saludo"],
          inr (text_result (Spec.formal_template band "Ana"))).
Proof.
  apply (C8_greeting_band_and_template sample_runtime
           {| GreetingUseCase.nombre := "Ana"; GreetingUseCase.formal := true |}).
  vm_compute. split; discriminate.
Defined.

(** C10 does not hold as the specification states it: with
    [formato = "iso"] the time zone is not ignored entirely, the text
    still names it when it is not the default one. *)
Lemma C10_counterexample_iso_echoes_time_zone :
  outcome (DateTimeUseCase.execute sample_runtime
             {| DateTimeUseCase.formato := "iso";
                DateTimeUseCase.zona_horaria := "Europe/Madrid" |}) =
    inr (text_result "La fecha actual es: 2024-01-15T09:00:00.000Z")
  /\ outcome (DateTimeUseCase.execute sample_runtime
                {| DateTimeUseCase.formato := "iso";
                   DateTimeUseCase.zona_horaria := "UTC" |}) =
       inr (text_result "La fecha actual es: 2024-01-15T09:00:00.000Z (Zona horaria: UTC)")
  /\ DateTimeUseCase.execute sample_runtime
       {| DateTimeUseCase.formato := "iso"; DateTimeUseCase.zona_horaria := "UTC" |}
     <> DateTimeUseCase.execute sample_runtime
          {| DateTimeUseCase.formato := "iso";
             DateTimeUseCase.zona_horaria := "Europe/Madrid" |}.
Proof.
  split; [vm_compute; reflexivity|]. split; [vm_compute; reflexivity|].
  vm_compute. discriminate.
Qed.

(** C10 (amended). With [formato = "iso"] the date use case formats the
    date by [toISOString], without the time zone, and never raises,
    whatever the time zone string; the time zone only appears in the
    suffix of the text when it is not ["Europe/Madrid"]. With any of
    [corto], [hora], [completo] and [largo] it consults the time zone and
    raises the formatting error exactly when the runtime does not know
    it. *)
Theorem C10_iso_formats_without_time_zone (rt : Runtime) (tz : string) :
  DateTimeUseCase.execute rt
    {| DateTimeUseCase.formato := "iso"; DateTimeUseCase.zona_horaria := tz |} =
    ([CallUseCase "fecha_actual"],
     inr (text_result
            ("La fecha actual es: " +:+ Date_toISOString rt
               +:+ (if String.eqb tz "Europe/Madrid" then ""
                    else " (Zona horaria: " +:+ tz +:+ ")"))))
  /\ (forall formato, In formato ["corto"; "hora"; "completo"; "largo"] ->
        if supportedTimeZone rt tz
        then exists t,
               outcome (DateTimeUseCase.execute rt
                          {| DateTimeUseCase.formato := formato;
                             DateTimeUseCase.zona_horaria := tz |}) = inr t
        else outcome (DateTimeUseCase.execute rt
                        {| DateTimeUseCase.formato := formato;
                           DateTimeUseCase.zona_horaria := tz |}) =
               inl (ThrownError ("Error al formatear la fecha: "
                                   +:+ RangeError_message rt tz))).
Proof.
  split.
  - unfold DateTimeUseCase.execute.
    cbn [DateTimeUseCase.formato DateTimeUseCase.zona_horaria].
    change (String.eqb "iso" "corto") with false.
    change (String.eqb "iso" "hora") with false.
    change (String.eqb "iso" "completo") with false.
    change (String.eqb "iso" "iso") with true.
    cbv beta iota. rewrite log_then, bind_ret. reflexivity.
  - intros formato Hin.
    destruct (supportedTimeZone rt tz) eqn:Hs.
    + unfold DateTimeUseCase.execute, Date_toLocale, DateTimeUseCase.options.
      cbn [DateTimeUseCase.formato DateTimeUseCase.zona_horaria timeZone].
      rewrite Hs, log_then.
      destruct Hin as [<- | [<- | [<- | [<- | []]]]]; eexists; reflexivity.
    + rewrite datetime_unknown_zone; [reflexivity | exact Hs |].
      destruct Hin as [<- | [<- | [<- | [<- | []]]]]; reflexivity.
Qed.

Lemma C10_witness :
  outcome (DateTimeUseCase.execute sample_runtime
             {| DateTimeUseCase.formato := "corto";
                DateTimeUseCase.zona_horaria := "Not/AZone" |}) =
    inl (ThrownError "Error al formatear la fecha: Invalid time zone specified: Not/AZone").
Proof.
  apply (proj2 (C10_iso_formats_without_time_zone sample_runtime "Not/AZone") "corto").
  cbn. auto.
Defined.

Section Stripping.
Import Zod.







End Stripping.



(** * Number formatting *)

Section NumberFacts.
Import JS.

Lemma has_point_app (s t : string) : has_point (s +:+ t) = has_point s || has_point t.
Proof.
  induction s as [|c s IH]; [reflexivity|].
  change (has_point (String c (s +:+ t)) = has_point (String c s) || has_point t).
  cbn [has_point]. rewrite IH. now rewrite orb_assoc.
Qed.

Lemma all_digits_app (s t : string) : all_digits (s +:+ t) = all_digits s && all_digits t.
Proof.
  induction s as [|c s IH]; [reflexivity|].
  change (all_digits (String c (s +:+ t)) = all_digits (String c s) && all_digits t).
  cbn [all_digits]. rewrite IH. now rewrite andb_assoc.
Qed.

Lemma digit_not_point (c : ascii) : is_digit c = true -> Ascii.eqb c "." = false.
Proof.
  intros H. apply Ascii.eqb_neq. intros ->. discriminate H.
Qed.

Lemma all_digits_no_point (s : string) : all_digits s = true -> has_point s = false.
Proof.
  induction s as [|c s IH]; [reflexivity|]. cbn [all_digits has_point].
  intros H. apply andb_true_iff in H as [Hc Hs].
  now rewrite (digit_not_point c Hc), IH.
Qed.

Lemma all_digits_zeros (n : nat) : all_digits (zeros n) = true.
Proof. induction n as [|n IH]; [reflexivity|]. cbn [zeros all_digits]. now rewrite IH. Qed.

Lemma all_digits_uint (d : Decimal.uint) : all_digits (NilEmpty.string_of_uint d) = true.
Proof. induction d; cbn [NilEmpty.string_of_uint all_digits]; try rewrite IHd; reflexivity. Qed.

Lemma all_digits_string_of_Z (z : Z) : all_digits (string_of_Z z) = true.
Proof.
  unfold string_of_Z, NilZero.string_of_uint.
  destruct (N.to_uint (Z.to_N z)) eqn:E; try reflexivity; rewrite <- E; apply all_digits_uint.
Qed.

Lemma ndigits_fuel_bounds (fuel : nat) : forall z j,
  1 <= j -> z < 10 ^ j -> 1 <= ndigits_fuel fuel z <= j.
Proof.
  induction fuel as [|f IH]; intros z j Hj Hz; cbn [ndigits_fuel]; [lia|].
  destruct (Z.ltb_spec z 10) as [H | H]; [lia|].
  assert (2 <= j) as Hj2.
  { destruct (Z.eq_dec j 1) as [-> | ]; [change (10 ^ 1) with 10 in Hz; lia | lia]. }
  assert (z / 10 < 10 ^ (j - 1)) as Hq.
  { apply Z.div_lt_upper_bound; [lia|].
    replace (10 * 10 ^ (j - 1)) with (10 ^ j); [exact Hz|].
    replace j with (1 + (j - 1)) at 1 by lia. rewrite Z.pow_add_r by lia. reflexivity. }
  specialize (IH (z / 10) (j - 1) ltac:(lia) Hq). lia.
Qed.

Lemma unit_num_pos e : 0 < unit_num e.
Proof. unfold unit_num. destruct (Z.leb_spec 0 (e - 2)); [apply Z.pow_pos_nonneg; lia | lia]. Qed.

Lemma unit_den_pos e : 0 < unit_den e.
Proof. unfold unit_den. destruct (Z.leb_spec 0 (e - 2)); [lia | apply Z.pow_pos_nonneg; lia]. Qed.

Lemma magnitude_den_pos m e : 0 < snd (magnitude m e).
Proof.
  unfold magnitude. destruct (Z.leb_spec 0 e); cbn [snd]; [lia | apply Z.pow_pos_nonneg; lia].
Qed.

Lemma magnitude_num_pos m e : 0 < fst (magnitude m e).
Proof.
  unfold magnitude. destruct (Z.leb_spec 0 e); cbn [fst]; [|lia].
  apply Z.mul_pos_pos; [lia | apply Z.pow_pos_nonneg; lia].
Qed.

(** The value in quarter units is the magnitude. *)
Lemma units_magnitude m e :
  m_val m * unit_num e * snd (magnitude m e) = fst (magnitude m e) * unit_den e.
Proof.
  unfold m_val, unit_num, unit_den, magnitude.
  destruct (Z.leb_spec 0 (e - 2)) as [H2 | H2].
  - destruct (Z.leb_spec 0 e) as [H0 | H0]; [|lia]. cbn [fst snd].
    replace e with (2 + (e - 2)) at 2 by lia. rewrite Z.pow_add_r by lia.
    change (2 ^ 2) with 4. ring.
  - destruct (Z.leb_spec 0 e) as [H0 | H0]; cbn [fst snd].
    + assert (2 ^ 2 = 2 ^ e * 2 ^ (2 - e)) as E.
      { rewrite <- Z.pow_add_r by lia. f_equal. lia. }
      change (2 ^ 2) with 4 in E. nia.
    + replace (2 - e) with (2 + - e) by lia. rewrite Z.pow_add_r by lia.
      change (2 ^ 2) with 4. ring.
Qed.

Section IntegerValue.
Variables (m : positive) (e : Z).
Hypothesis Hint : fst (magnitude m e) mod snd (magnitude m e) = 0.
Hypothesis Hlt : fst (magnitude m e) < 10 ^ 21 * snd (magnitude m e).

Let V := fst (magnitude m e) / snd (magnitude m e).

Lemma integer_value : fst (magnitude m e) = V * snd (magnitude m e).
Proof.
  unfold V. pose proof (magnitude_den_pos m e).
  rewrite Z.mul_comm. apply Z.div_exact; [lia | exact Hint].
Qed.

Lemma integer_value_bounds : 1 <= V < 10 ^ 21.
Proof.
  pose proof (magnitude_den_pos m e). pose proof (magnitude_num_pos m e).
  pose proof integer_value. split; nia.
Qed.

Lemma units_integer : m_val m * unit_num e = V * unit_den e.
Proof.
  pose proof (units_magnitude m e) as U. rewrite integer_value in U.
  pose proof (magnitude_den_pos m e). nia.
Qed.

Lemma n_val_integer : n_val m e = ndigits V.
Proof.
  unfold n_val, decimal_exponent. rewrite units_integer.
  pose proof (unit_den_pos e). pose proof integer_value_bounds.
  destruct (Z.leb_spec (unit_den e) (V * unit_den e)) as [L | L]; [|nia].
  rewrite Z.div_mul by lia. reflexivity.
Qed.

Lemma n_val_bounds : 1 <= n_val m e <= 21.
Proof.
  rewrite n_val_integer. unfold ndigits.
  apply ndigits_fuel_bounds; [lia | apply integer_value_bounds].
Qed.

Lemma m_lo_lt m' e' : m_lo m' e' < m_val m'.
Proof. unfold m_lo. destruct (half_gap_below m' e'); lia. Qed.

Lemma in_interval_value : in_interval m e (m_val m * unit_num e) (unit_num e) = true.
Proof.
  unfold in_interval. pose proof (unit_num_pos e). pose proof (m_lo_lt m e).
  unfold m_hi.
  destruct (Z.even (Z.pos m)); apply andb_true_iff; split;
    first [apply Z.leb_le | apply Z.ltb_lt]; nia.
Qed.

Lemma candidate_at_n_val : candidate m e (n_val m e) <> None.
Proof.
  unfold candidate. rewrite Z.sub_diag. cbn [Z.opp Z.max].
  change (10 ^ 0) with 1. rewrite !Z.mul_1_r.
  assert (round_half_even (m_val m * unit_num e) (unit_den e) = V) as R.
  { unfold round_half_even. rewrite units_integer.
    pose proof (unit_den_pos e).
    rewrite Z.mod_mul, Z.div_mul by lia.
    destruct (Z.compare_spec (2 * 0) (unit_den e)); [lia | reflexivity | lia]. }
  rewrite R, <- units_integer, in_interval_value. discriminate.
Qed.



End IntegerValue.

End NumberFacts.

Section FixedFacts.
Import JS.

Lemma length_append (s t : string) :
  String.length (s +:+ t) = (String.length s + String.length t)%nat.
Proof.
  induction s as [|c s IH]; [reflexivity|].
  change (S (String.length (s +:+ t)) = S (String.length s + String.length t)).
  now rewrite IH.
Qed.

Lemma length_zeros (n : nat) : String.length (zeros n) = n.
Proof. induction n as [|n IH]; [reflexivity|]. cbn [zeros String.length]. now rewrite IH. Qed.

Lemma substring_all (s : string) : substring 0 (String.length s) s = s.
Proof. induction s as [|c s IH]; [reflexivity|]. cbn [String.length substring]. now rewrite IH. Qed.

Lemma split_at_spec (s : string) : forall n a b,
  (n <= String.length s)%nat -> split_at n s = (a, b) ->
  a +:+ b = s /\ String.length a = n /\ String.length b = (String.length s - n)%nat.
Proof.
  unfold split_at. induction s as [|c s IH]; intros n a b Hn [= <- <-].
  - destruct n; [|cbn in Hn; lia]. repeat split.
  - destruct n as [|n].
    + cbn [substring String.length Nat.sub]. rewrite substring_all. repeat split.
    + cbn [String.length] in Hn.
      destruct (IH n _ _ ltac:(lia) eq_refl) as (E & La & Lb).
      cbn [substring String.length Nat.sub].
      split; [|split].
      * change (String c (substring 0 n s +:+ substring n (String.length s - n) s)
                = String c s). now rewrite E.
      * now rewrite La.
      * exact Lb.
Qed.

Lemma fixed6_digits_spec (n : Z) :
  exists a b,
    a +:+ b = fixed6_padded n /\ String.length b = 6%nat
    /\ all_digits a = true /\ all_digits b = true
    /\ fixed6_digits n = a +:+ "." +:+ b.
Proof.
  unfold fixed6_digits.
  assert (7 <= String.length (fixed6_padded n))%nat as L.
  { unfold fixed6_padded. cbv zeta. rewrite length_append, length_zeros.
    lia. }
  assert (all_digits (fixed6_padded n) = true) as D.
  { unfold fixed6_padded. cbv zeta.
    now rewrite all_digits_app, all_digits_zeros, all_digits_string_of_Z. }
  destruct (split_at (String.length (fixed6_padded n) - 6) (fixed6_padded n)) as [a b] eqn:E.
  destruct (split_at_spec (fixed6_padded n) (String.length (fixed6_padded n) - 6) a b)
    as (Eab & La & Lb); [lia | exact E |].
  exists a, b. rewrite <- Eab, all_digits_app in D. apply andb_true_iff in D as [Da Db].
  repeat split; try assumption. lia.
Qed.

Lemma has_point_not_all_zeros (s : string) : has_point s = true -> all_zeros s = false.
Proof.
  induction s as [|c s IH]; [discriminate|]. cbn [has_point]. intros H.
  destruct (Ascii.eqb_spec c ".") as [-> | Hc].
  - destruct s; reflexivity.
  - cbn [orb] in H. specialize (IH H). cbn [all_zeros]. rewrite IH.
    destruct s; [discriminate H | apply andb_false_r].
Qed.

Lemma match_dot_zeros_other (c : ascii) (s : string) :
  Ascii.eqb c "." = false -> match_dot_zeros (String c s) = all_zeros (String c s).
Proof.
  intros H. unfold match_dot_zeros.
  destruct c as [[|] [|] [|] [|] [|] [|] [|] [|]]; try reflexivity. discriminate H.
Qed.

Lemma replace_before_point (x b : string) :
  has_point x = false ->
  replace_dot_zeros (x +:+ "." +:+ b) = x +:+ replace_dot_zeros ("." +:+ b).
Proof.
  induction x as [|c x IH]; [reflexivity|]. cbn [has_point]. intros H.
  apply orb_false_iff in H as [Hc Hx].
  change (String c x +:+ "." +:+ b) with (String c (x +:+ "." +:+ b)).
  cbn [replace_dot_zeros].
  rewrite (match_dot_zeros_other c _ Hc), has_point_not_all_zeros.
  - rewrite (IH Hx). reflexivity.
  - cbn [has_point]. rewrite Hc, has_point_app. cbn [orb has_point].
    rewrite orb_true_r. reflexivity.
Qed.

Lemma strip_all_zeros (b : string) :
  all_zeros b = true -> Spec.strip_trailing_zeros b = "".
Proof.
  induction b as [|c b IH]; [reflexivity|]. cbn [all_zeros Spec.strip_trailing_zeros].
  destruct b as [|c' b'].
  - intros ->. reflexivity.
  - intros H. apply andb_true_iff in H as [Hc Hb]. rewrite (IH Hb), Hc. reflexivity.
Qed.

Lemma strip_empty (b : string) :
  Spec.strip_trailing_zeros b = "" -> b = "" \/ all_zeros b = true.
Proof.
  induction b as [|c b IH]; [auto|]. cbn [Spec.strip_trailing_zeros]. right.
  destruct (Spec.strip_trailing_zeros b) eqn:E; [|discriminate].
  destruct (Ascii.eqb c "0") eqn:Hc; [|discriminate].
  cbn [all_zeros]. destruct (IH eq_refl) as [-> | Hb]; [exact Hc|].
  rewrite Hc, Hb. destruct b; reflexivity.
Qed.

Lemma replace_digits (b : string) :
  all_digits b = true -> replace_dot_zeros b = Spec.strip_trailing_zeros b.
Proof.
  induction b as [|c b IH]; [reflexivity|]. cbn [all_digits]. intros H.
  apply andb_true_iff in H as [Hc Hb]. cbn [replace_dot_zeros].
  rewrite (match_dot_zeros_other c b (digit_not_point c Hc)).
  destruct (all_zeros (String c b)) eqn:Z.
  - now rewrite (strip_all_zeros _ Z).
  - rewrite (IH Hb). cbn [Spec.strip_trailing_zeros].
    destruct (Spec.strip_trailing_zeros b) eqn:E; [|reflexivity].
    destruct (Ascii.eqb c "0") eqn:C0; [|reflexivity].
    exfalso. cbn [all_zeros] in Z. rewrite C0 in Z.
    destruct (strip_empty b E) as [-> | Hz]; [discriminate Z|].
    rewrite Hz in Z. destruct b; discriminate Z.
Qed.

Lemma replace_fraction (b : string) :
  all_digits b = true -> b <> "" ->
  replace_dot_zeros ("." +:+ b) = Spec.fraction b.
Proof.
  intros D N. change ("." +:+ b) with (String "." b). cbn [replace_dot_zeros].
  change (match_dot_zeros (String "." b)) with (all_zeros b).
  unfold Spec.fraction.
  destruct (all_zeros b) eqn:Z.
  - now rewrite (strip_all_zeros _ Z).
  - rewrite (replace_digits b D).
    destruct (Spec.strip_trailing_zeros b) eqn:E; [|reflexivity].
    destruct (strip_empty b E); congruence.
Qed.

(** A non-integer below [10^21]: six decimals, trailing zeros stripped. *)
Lemma formatear_fraction (s : bool) (m : positive) (e : Z) :
  Number_isInteger (S754_finite s m e) = false ->
  below_1e21 (S754_finite s m e) = true ->
  exists a b,
    a +:+ b = fixed6_padded (fixed6_scaled (fst (magnitude m e)) (snd (magnitude m e)))
    /\ String.length b = 6%nat
    /\ CalculatorUseCase.formatear (S754_finite s m e) =
         (if s then "-" else "") +:+ a +:+ Spec.fraction b.
Proof.
  intros Hi Hb. unfold CalculatorUseCase.formatear. rewrite Hi.
  unfold Number_toFixed6. cbn [below_1e21] in Hb.
  destruct (magnitude m e) as [num den] eqn:M. cbn [fst snd].
  destruct (Z.leb_spec (10 ^ 21 * den) num) as [L | L].
  { apply Z.ltb_lt in Hb. lia. }
  destruct (fixed6_digits_spec (fixed6_scaled num den)) as (a & b & Eab & Lb & Da & Db & ->).
  exists a, b. split; [exact Eab|]. split; [exact Lb|].
  rewrite <- append_assoc, replace_before_point.
  - rewrite replace_fraction; [now rewrite append_assoc | exact Db |].
    intros ->. discriminate Lb.
  - rewrite has_point_app, (all_digits_no_point a Da). now destruct s.
Qed.


End FixedFacts.

Lemma execute_operation (a b : JS.number) :
  CalculatorUseCase.execute
    {| CalculatorUseCase.operacion := "suma"; CalculatorUseCase.a := a; CalculatorUseCase.b := b |} =
    ([CallUseCase "calcular"],
     inr (text_result ("Suma: " +:+ JS.Number_toString a +:+ " + " +:+ JS.Number_toString b
                         +:+ " = " +:+ CalculatorUseCase.formatear (JS.add a b))))
  /\ CalculatorUseCase.execute
       {| CalculatorUseCase.operacion := "resta"; CalculatorUseCase.a := a; CalculatorUseCase.b := b |} =
       ([CallUseCase "calcular"],
        inr (text_result ("Resta: " +:+ JS.Number_toString a +:+ " - " +:+ JS.Number_toString b
                            +:+ " = " +:+ CalculatorUseCase.formatear (JS.sub a b))))
  /\ CalculatorUseCase.execute
       {| CalculatorUseCase.operacion := "multiplicacion"; CalculatorUseCase.a := a;
          CalculatorUseCase.b := b |} =
       ([CallUseCase "calcular"],
        inr (text_result ("Multiplicación: " +:+ JS.Number_toString a +:+ " × "
                            +:+ JS.Number_toString b
                            +:+ " = " +:+ CalculatorUseCase.formatear (JS.mul a b))))
  /\ CalculatorUseCase.execute
       {| CalculatorUseCase.operacion := "division"; CalculatorUseCase.a := a;
          CalculatorUseCase.b := b |} =
       ([CallUseCase "calcular"],
        inr (text_result ("División: " +:+ JS.Number_toString a +:+ " ÷ "
                            +:+ JS.Number_toString b
                            +:+ " = " +:+ CalculatorUseCase.formatear (JS.div a b)))).
Proof.
  repeat split; unfold CalculatorUseCase.execute;
    cbn [CalculatorUseCase.operacion CalculatorUseCase.a CalculatorUseCase.b];
    rewrite log_then; reflexivity.
Qed.




(* ===================================================================== *)
(** ** Further properties of the program *)
(* ===================================================================== *)

(** * Validation of any argument value *)

Lemma registered_cases (toolName : string) :
  registered toolName ->
  toolName = "saludo" \/ toolName = "calcular" \/ toolName = "fecha_actual".
Proof. intros [H | [H | [H | []]]]; auto. Qed.

Lemma non_object_parse (t : Zod.ZodType) (args : value) :
  (forall o, args <> VObject o) ->
  (exists shape, t = Zod.ZodObject shape)
  \/ (exists shape check msg sub,
        t = Zod.ZodEffects (Zod.ZodObject shape) (Zod.refinement check msg sub)) ->
  exists errors,
    Zod.parse t args = Zod.ZodError errors
    /\ map shown errors = Spec.mistyped "" "object" args.
Proof.
  intros Hn [[shape ->] | (shape & check & msg & sub & ->)];
    destruct args as [ | | b | x | s | l | o]; try (now destruct (Hn o));
    try (eexists; split; reflexivity);
    destruct x; eexists; split; reflexivity.
Qed.

Lemma object_or_not (args : value) :
  {o | args = VObject o} + {forall o, args <> VObject o}.
Proof. destruct args; try (right; discriminate). left. eauto. Qed.

Lemma root_violations_non_object (violations : value -> list Spec.Violation) (args : value) :
  (forall o, args <> VObject o) ->
  root_violations violations args = Spec.mistyped "" "object" args
  /\ Spec.mistyped "" "object" args <> [].
Proof. intros Hn. destruct args; try (split; [reflexivity | discriminate]). now destruct (Hn o). Qed.

Section Validation.
Variables (schema : Zod.ZodType) (violations : value -> list Spec.Violation)
          (validated : value -> value).
Hypothesis schema_shape :
  (exists shape, schema = Zod.ZodObject shape)
  \/ (exists shape check msg sub,
        schema = Zod.ZodEffects (Zod.ZodObject shape) (Zod.refinement check msg sub)).
Hypothesis schema_objects : forall o : gmap string value,
  (violations (VObject o) = [] /\ Zod.parse schema (VObject o) = Zod.Parsed (validated (VObject o)))
  \/ (violations (VObject o) <> [] /\ exists errors,
        Zod.parse schema (VObject o) = Zod.ZodError errors
        /\ map shown errors = violations (VObject o)).

Lemma validation_of_any (args : value) :
  let vs := root_violations violations args in
  (vs = [] /\ zod_parse schema args = ret (validated args))
  \/ (vs <> [] /\ exists errors,
        zod_parse schema args = throw (ThrownZodError errors)
        /\ map shown errors = vs).
Proof.
  intros vs. unfold zod_parse.
  destruct (object_or_not args) as [[o ->] | Hn].
  - destruct (schema_objects o) as [[E Hp] | (N & errors & Hp & Hs)]; rewrite Hp.
    + left. split; [exact E | reflexivity].
    + right. split; [exact N|]. exists errors. split; [reflexivity | exact Hs].
  - destruct (non_object_parse schema args Hn schema_shape) as (errors & Hp & Hs).
    destruct (root_violations_non_object violations args Hn) as [E N].
    right. subst vs. rewrite E, Hp. split; [exact N|].
    exists errors. split; [reflexivity | exact Hs].
Qed.
End Validation.

Lemma greeting_validation (args : value) :
  let vs := root_violations Spec.greeting_violations args in
  (vs = [] /\ GreetingResolver.validateInput args = ret (greeting_validated args))
  \/ (vs <> [] /\ exists errors,
        GreetingResolver.validateInput args = throw (ThrownZodError errors)
        /\ map shown errors = vs).
Proof.
  apply (validation_of_any GreetingResolver.GreetingInputSchema).
  - left. eexists. reflexivity.
  - exact greeting_parse.
Qed.

Lemma calculator_validation (args : value) :
  let vs := root_violations Spec.calculator_violations args in
  (vs = [] /\ CalculatorResolver.validateInput args = ret (calculator_validated args))
  \/ (vs <> [] /\ exists errors,
        CalculatorResolver.validateInput args = throw (ThrownZodError errors)
        /\ map shown errors = vs).
Proof.
  apply (validation_of_any CalculatorResolver.CalculatorInputSchema).
  - right. do 4 eexists. reflexivity.
  - exact calculator_parse.
Qed.

Lemma datetime_validation (args : value) :
  let vs := root_violations Spec.datetime_violations args in
  (vs = [] /\ DateTimeResolver.validateInput args = ret (datetime_validated args))
  \/ (vs <> [] /\ exists errors,
        DateTimeResolver.validateInput args = throw (ThrownZodError errors)
        /\ map shown errors = vs).
Proof.
  apply (validation_of_any DateTimeResolver.DateTimeInputSchema).
  - left. eexists. reflexivity.
  - exact datetime_parse.
Qed.

Lemma tool_validation (toolName : string) (args : value) :
  registered toolName ->
  let vs := violations_of toolName args in
  (vs = [] /\ ToolResolver.validateInput toolName args = ret (validated_of toolName args))
  \/ (vs <> [] /\ exists errors,
        ToolResolver.validateInput toolName args = throw (ThrownZodError errors)
        /\ map shown errors = vs).
Proof.
  intros H. destruct (registered_cases toolName H) as [-> | [-> | ->]].
  - exact (greeting_validation args).
  - exact (calculator_validation args).
  - exact (datetime_validation args).
Qed.

Lemma nil_or_not {A} (l : list A) : l = nil \/ l <> nil.
Proof. destruct l; [left; reflexivity | right; discriminate]. Qed.

(** * What an invocation does *)

Lemma root_violations_nil (violations : value -> list Spec.Violation) (args : value) :
  root_violations violations args = [] ->
  exists o, args = VObject o /\ violations (VObject o) = [].
Proof. destruct args; try discriminate. intros H. eauto. Qed.

Lemma greeting_use_case (rt : Runtime) (input : GreetingUseCase.GreetingInput) :
  GreetingUseCase.execute rt input =
    ([CallUseCase "saludo"],
     inr (text_result (greeting_text (Date_getHours rt) (GreetingUseCase.formal input)
                         (GreetingUseCase.nombre input)))).
Proof.
  unfold GreetingUseCase.execute, greeting_text, Spec.band_of. rewrite log_then.
  destruct (Date_getHours rt <? 12); [|destruct (Date_getHours rt <? 18)];
    destruct (GreetingUseCase.formal input); reflexivity.
Qed.

Lemma calculator_use_case (op : string) (a b : JS.number) f sym desc :
  In (op, (f, sym, desc)) operations ->
  CalculatorUseCase.execute
    {| CalculatorUseCase.operacion := op; CalculatorUseCase.a := a; CalculatorUseCase.b := b |} =
    ([CallUseCase "calcular"],
     inr (text_result (desc +:+ ": " +:+ JS.Number_toString a +:+ " " +:+ sym +:+ " "
                         +:+ JS.Number_toString b +:+ " = "
                         +:+ CalculatorUseCase.formatear (f a b)))).
Proof.
  intros [H | [H | [H | [H | []]]]]; injection H as <- <- <- <-;
    unfold CalculatorUseCase.execute;
    cbn [CalculatorUseCase.operacion CalculatorUseCase.a CalculatorUseCase.b];
    rewrite log_then; reflexivity.
Qed.

Lemma operacion_typed_operation (v : value) :
  Spec.operacion_typed v = true ->
  exists op f sym desc, v = VString op /\ In (op, (f, sym, desc)) operations.
Proof.
  destruct v as [ | | | | s | | ]; try discriminate. cbn [Spec.operacion_typed existsb].
  destruct (String.eqb_spec s "suma") as [-> | _];
    [intros _; exists "suma", JS.add, "+", "Suma"; split; [reflexivity | cbn; auto]|].
  destruct (String.eqb_spec s "resta") as [-> | _];
    [intros _; exists "resta", JS.sub, "-", "Resta"; split; [reflexivity | cbn; auto]|].
  destruct (String.eqb_spec s "multiplicacion") as [-> | _];
    [intros _; exists "multiplicacion", JS.mul, "×", "Multiplicación";
     split; [reflexivity | cbn; auto]|].
  destruct (String.eqb_spec s "division") as [-> | _];
    [intros _; exists "division", JS.div, "÷", "División"; split; [reflexivity | cbn; tauto]|].
  discriminate.
Qed.

Lemma calculator_violations_nil (args : value) :
  Spec.calculator_violations args = [] ->
  Spec.operacion_typed (get "operacion" args) = true
  /\ (exists a, get "a" args = VNumber a /\ JS.Number_isFinite a = true)
  /\ (exists b, get "b" args = VNumber b /\ JS.Number_isFinite b = true)
  /\ (strict_eq (get "operacion" args) (VString "division")
      && strict_eq (get "b" args) (VNumber JS.zero) = false).
Proof.
  unfold Spec.calculator_violations, Spec.operacion_violations, Spec.number_violations,
    Spec.cross_field_violations.
  intros H.
  destruct (Spec.operacion_typed (get "operacion" args)); [|discriminate H].
  cbn [app] in H.
  destruct (get "a" args) as [ | | | a | | | ]; try discriminate H.
  cbn [Spec.number_typed as_number] in H.
  destruct (JS.Number_isNaN a) eqn:Na; cbn [negb] in H; [discriminate H|].
  destruct (JS.Number_isFinite a) eqn:Fa; [|discriminate H].
  cbn [app] in H.
  destruct (get "b" args) as [ | | | b | | | ]; try discriminate H.
  cbn [Spec.number_typed as_number] in H.
  destruct (JS.Number_isNaN b) eqn:Nb; cbn [negb] in H; [discriminate H|].
  destruct (JS.Number_isFinite b) eqn:Fb; [|discriminate H].
  cbn [app andb] in H.
  split; [reflexivity|]. split; [eauto|]. split; [eauto|].
  destruct (strict_eq (get "operacion" args) (VString "division")
            && strict_eq (VNumber b) (VNumber JS.zero)); [discriminate H | reflexivity].
Qed.

Lemma calculator_run (rt : Runtime) (args : value) :
  root_violations Spec.calculator_violations args = [] ->
  exists op f sym desc,
    get "operacion" args = VString op /\ In (op, (f, sym, desc)) operations
    /\ ToolResolver.resolveAndExecute rt "calcular" args =
         ([CallResolver "calcular"; CallUseCase "calcular"],
          inr (text_result
                 (desc +:+ ": " +:+ JS.Number_toString (as_number (get "a" args))
                    +:+ " " +:+ sym +:+ " "
                    +:+ JS.Number_toString (as_number (get "b" args)) +:+ " = "
                    +:+ CalculatorUseCase.formatear
                          (f (as_number (get "a" args)) (as_number (get "b" args)))))).
Proof.
  intros H. destruct (root_violations_nil _ _ H) as (o & -> & Hv).
  destruct (calculator_violations_nil _ Hv) as (Ho & _).
  destruct (operacion_typed_operation _ Ho) as (op & f & sym & desc & Eo & Hin).
  exists op, f, sym, desc. split; [exact Eo|]. split; [exact Hin|].
  unfold ToolResolver.resolveAndExecute.
  change (String.eqb "calcular" "saludo") with false.
  change (String.eqb "calcular" "calcular") with true.
  cbv beta iota.
  rewrite (calculator_accepts o Hv). unfold CalculatorResolver.CalculatorInput_of.
  rewrite Eo. cbn [as_string].
  rewrite (calculator_use_case op _ _ f sym desc Hin). reflexivity.
Qed.

Lemma greeting_run (rt : Runtime) (args : value) :
  root_violations Spec.greeting_violations args = [] ->
  ToolResolver.resolveAndExecute rt "saludo" args =
    ([CallResolver "saludo"; CallUseCase "saludo"],
     inr (text_result (greeting_text (Date_getHours rt)
                         (Spec.lenient_boolean (get "formal" args))
                         (as_string (get "nombre" args))))).
Proof.
  intros H. destruct (root_violations_nil _ _ H) as (o & -> & Hv).
  unfold ToolResolver.resolveAndExecute.
  change (String.eqb "saludo" "saludo") with true. cbv beta iota.
  rewrite (greeting_accepts rt o Hv), greeting_use_case. reflexivity.
Qed.

Lemma resolver_rejects (rt : Runtime) (toolName : string) (args : value) :
  registered toolName ->
  violations_of toolName args <> [] ->
  ToolResolver.resolveAndExecute rt toolName args =
    ([CallResolver toolName],
     inl (McpError InvalidParams
            ("Errores de validación en herramienta '" +:+ toolName +:+ "': "
               +:+ Spec.enumerate (violations_of toolName args)))).
Proof.
  intros Hr Hv.
  destruct (tool_validation toolName args Hr) as [[E _] | (_ & errors & Hp & Hs)];
    [congruence|].
  rewrite <- Hs, <- formattedErrors_shown.
  destruct (registered_cases toolName Hr) as [-> | [-> | ->]];
    unfold ToolResolver.validateInput in Hp; unfold ToolResolver.resolveAndExecute.
  - change (String.eqb "saludo" "saludo") with true in *. cbv beta iota in *.
    unfold GreetingResolver.resolveAndExecute. rewrite Hp. reflexivity.
  - change (String.eqb "calcular" "saludo") with false in *.
    change (String.eqb "calcular" "calcular") with true in *. cbv beta iota in *.
    unfold CalculatorResolver.resolveAndExecute. rewrite Hp. reflexivity.
  - change (String.eqb "fecha_actual" "saludo") with false in *.
    change (String.eqb "fecha_actual" "calcular") with false in *.
    change (String.eqb "fecha_actual" "fecha_actual") with true in *. cbv beta iota in *.
    unfold DateTimeResolver.resolveAndExecute. rewrite Hp. reflexivity.
Qed.

Lemma datetime_use_case_ok (rt : Runtime) (formato tz : string) :
  String.eqb formato "iso" || supportedTimeZone rt tz = true ->
  exists fecha,
    DateTimeUseCase.execute rt
      {| DateTimeUseCase.formato := formato; DateTimeUseCase.zona_horaria := tz |} =
      ([CallUseCase "fecha_actual"],
       inr (text_result ("La fecha actual es: " +:+ fecha +:+ zone_suffix tz)))
    /\ (formato = "iso" -> fecha = Date_toISOString rt).
Proof.
  unfold DateTimeUseCase.execute, Date_toLocale, DateTimeUseCase.options, zone_suffix.
  cbn [DateTimeUseCase.formato DateTimeUseCase.zona_horaria timeZone].
  rewrite log_then.
  destruct (String.eqb_spec formato "iso") as [-> | Hi].
  - intros _. eexists. split; [reflexivity|]. reflexivity.
  - cbn [orb]. intros ->.
    destruct (String.eqb formato "corto"), (String.eqb formato "hora"),
      (String.eqb formato "completo");
      (eexists; split; [reflexivity | intros E; now destruct (Hi E)]).
Qed.

Lemma datetime_run (rt : Runtime) (args : value) :
  root_violations Spec.datetime_violations args = [] ->
  let formato := as_string (Spec.or_default (VString "largo") (get "formato" args)) in
  let tz := as_string (Spec.or_default (VString "Europe/Madrid") (get "zona_horaria" args)) in
  (String.eqb formato "iso" || supportedTimeZone rt tz = true ->
     exists fecha,
       ToolResolver.resolveAndExecute rt "fecha_actual" args =
         ([CallResolver "fecha_actual"; CallUseCase "fecha_actual"],
          inr (text_result ("La fecha actual es: " +:+ fecha +:+ zone_suffix tz)))
       /\ (formato = "iso" -> fecha = Date_toISOString rt))
  /\ (String.eqb formato "iso" || supportedTimeZone rt tz = false ->
        ToolResolver.resolveAndExecute rt "fecha_actual" args =
          ([CallResolver "fecha_actual"; CallUseCase "fecha_actual"],
           inl (McpError InternalError
                  ("Error interno en herramienta 'fecha_actual': Error al formatear la fecha: "
                     +:+ RangeError_message rt tz)))).
Proof.
  intros H formato tz. destruct (root_violations_nil _ _ H) as (o & -> & Hv).
  unfold ToolResolver.resolveAndExecute.
  change (String.eqb "fecha_actual" "saludo") with false.
  change (String.eqb "fecha_actual" "calcular") with false.
  change (String.eqb "fecha_actual" "fecha_actual") with true.
  cbv beta iota. rewrite (datetime_accepts rt o Hv). fold formato tz. split.
  - intros Hok. destruct (datetime_use_case_ok rt formato tz Hok) as (fecha & -> & Hiso).
    exists fecha. split; [reflexivity | exact Hiso].
  - intros Hko. apply orb_false_iff in Hko as [Hi Hs].
    rewrite (datetime_unknown_zone rt formato tz Hs Hi). reflexivity.
Qed.



(** X2. Whatever the arguments, an invocation of [saludo] either returns
    the greeting of the current hour for the validated name and
    formality, after one call of the use case, or fails with
    InvalidParams listing the violations, without calling the use case.
    It never fails in another way. *)
Theorem X2_saludo_returns_or_rejects (rt : Runtime) (args : value) :
  let run := ToolResolver.resolveAndExecute rt "saludo" args in
  let vs := root_violations Spec.greeting_violations args in
  (vs = [] ->
     run = ([CallResolver "saludo"; CallUseCase "saludo"],
            inr (text_result (greeting_text (Date_getHours rt)
                                (Spec.lenient_boolean (get "formal" args))
                                (as_string (get "nombre" args))))))
  /\ (vs <> [] ->
        run = ([CallResolver "saludo"],
               inl (McpError InvalidParams
                      ("Errores de validación en herramienta 'saludo': "
                         +:+ Spec.enumerate vs))))
  /\ match outcome run with
     | inr _ => vs = []
     | inl (ThrownMcpError InvalidParams _) => vs <> []
     | inl _ => False
     end.
Proof.
  intros run vs.
  assert (vs <> [] ->
          run = ([CallResolver "saludo"],
                 inl (McpError InvalidParams
                        ("Errores de validación en herramienta 'saludo': "
                           +:+ Spec.enumerate vs)))) as Hrej.
  { intros N. apply (resolver_rejects rt "saludo" args); [cbn; auto | exact N]. }
  split; [exact (greeting_run rt args)|]. split; [exact Hrej|].
  destruct (nil_or_not vs) as [E | N].
  - pose proof (greeting_run rt args E) as Hrun. fold run in Hrun. rewrite Hrun. exact E.
  - rewrite (Hrej N). exact N.
Qed.

Lemma X2_witness :
  ToolResolver.resolveAndExecute sample_runtime "saludo"
    (obj [("nombre", VString "Ana"); ("formal", VString "True")]) =
    ([CallResolver "saludo"; CallUseCase "saludo"],
     inr (text_result
            "Buenos días, Ana. Es un placer saludarle. Espero que tenga un excelente día.")).
Proof.
  apply (proj1 (X2_saludo_returns_or_rejects sample_runtime
           (obj [("nombre", VString "Ana"); ("formal", VString "True")]))).
  vm_compute. reflexivity.
Defined.

(** X3. Whatever the arguments, an invocation of [fecha_actual] ends in
    one of three ways. Arguments that break a constraint fail with
    InvalidParams and the use case is not called. Valid arguments whose
    format is [iso], or whose time zone (the default one when absent) the
    runtime knows, return the date followed by the time zone suffix.
    Valid arguments with another format and a time zone the runtime does
    not know fail with InternalError, carrying the runtime's message. *)
Theorem X3_fecha_actual_outcomes (rt : Runtime) (args : value) :
  let run := ToolResolver.resolveAndExecute rt "fecha_actual" args in
  let vs := root_violations Spec.datetime_violations args in
  let formato := as_string (Spec.or_default (VString "largo") (get "formato" args)) in
  let tz := as_string (Spec.or_default (VString "Europe/Madrid") (get "zona_horaria" args)) in
  (vs <> [] ->
     run = ([CallResolver "fecha_actual"],
            inl (McpError InvalidParams
                   ("Errores de validación en herramienta 'fecha_actual': "
                      +:+ Spec.enumerate vs))))
  /\ (vs = [] -> String.eqb formato "iso" || supportedTimeZone rt tz = true ->
        exists fecha,
          run = ([CallResolver "fecha_actual"; CallUseCase "fecha_actual"],
                 inr (text_result ("La fecha actual es: " +:+ fecha +:+ zone_suffix tz)))
          /\ (formato = "iso" -> fecha = Date_toISOString rt))
  /\ (vs = [] -> String.eqb formato "iso" || supportedTimeZone rt tz = false ->
        run = ([CallResolver "fecha_actual"; CallUseCase "fecha_actual"],
               inl (McpError InternalError
                      ("Error interno en herramienta 'fecha_actual': Error al formatear la fecha: "
                         +:+ RangeError_message rt tz)))).
Proof.
  intros run vs formato tz. split; [|split].
  - intros N. apply (resolver_rejects rt "fecha_actual" args); [cbn; auto | exact N].
  - intros E. exact (proj1 (datetime_run rt args E)).
  - intros E. exact (proj2 (datetime_run rt args E)).
Qed.

Lemma X3_witness :
  ToolResolver.resolveAndExecute sample_runtime "fecha_actual"
    (obj [("zona_horaria", VString "Mars/Olympus")]) =
    ([CallResolver "fecha_actual"; CallUseCase "fecha_actual"],
     inl (McpError InternalError
            "Error interno en herramienta 'fecha_actual': Error al formatear la fecha: Invalid time zone specified: Mars/Olympus")).
Proof.
  apply (proj2 (proj2 (X3_fecha_actual_outcomes sample_runtime
           (obj [("zona_horaria", VString "Mars/Olympus")])))).
  - vm_compute. reflexivity.
  - vm_compute. reflexivity.
Defined.

Lemma registered_dec (toolName : string) : registered toolName \/ ~ registered toolName.
Proof.
  unfold registered. cbn.
  destruct (String.eqb_spec "saludo" toolName); [auto|].
  destruct (String.eqb_spec "calcular" toolName); [auto|].
  destruct (String.eqb_spec "fecha_actual" toolName); [auto|].
  right. intros [H | [H | [H | []]]]; contradiction.
Qed.

Lemma unregistered_eqb (toolName : string) :
  ~ registered toolName ->
  String.eqb toolName "saludo" = false /\ String.eqb toolName "calcular" = false
  /\ String.eqb toolName "fecha_actual" = false.
Proof.
  intros Hn. repeat split; apply String.eqb_neq; intros ->; apply Hn; cbn; auto.
Qed.

Lemma unregistered_run (rt : Runtime) (toolName : string) (args : value) :
  ~ registered toolName ->
  ToolResolver.resolveAndExecute rt toolName args =
    ([], inl (McpError MethodNotFound
                ("Herramienta desconocida: " +:+ toolName
                   +:+ ". Herramientas disponibles: saludo, calcular, fecha_actual"))).
Proof.
  intros Hn. destruct (unregistered_eqb toolName Hn) as (E1 & E2 & E3).
  unfold ToolResolver.resolveAndExecute. rewrite E1, E2, E3. reflexivity.
Qed.

(** X4. The arguments of a registered tool must be an object. Any other
    value, a missing one included, fails with InvalidParams and a single
    violation at the empty path, before the use case is called. So a
    request that leaves [arguments] out fails for every tool, also for
    [fecha_actual], whose fields all have defaults. *)
Theorem X4_arguments_must_be_an_object (rt : Runtime) (toolName : string) :
  registered toolName ->
  (forall args, (forall o, args <> VObject o) ->
     ToolResolver.resolveAndExecute rt toolName args =
       ([CallResolver toolName],
        inl (McpError InvalidParams
               ("Errores de validación en herramienta '" +:+ toolName +:+ "': : "
                  +:+ match args with
                      | VUndefined => "Required"
                      | _ => "Expected object, received " +:+ Zod.getParsedType args
                      end))))
  /\ Server.callTool rt
       {| Server.params := {| Server.name := toolName; Server.arguments := None |} |} =
       ([CallResolver toolName],
        inl (McpError InvalidParams
               ("Errores de validación en herramienta '" +:+ toolName +:+ "': : Required"))).
Proof.
  intros Hr.
  assert (forall args, (forall o, args <> VObject o) ->
     ToolResolver.resolveAndExecute rt toolName args =
       ([CallResolver toolName],
        inl (McpError InvalidParams
               ("Errores de validación en herramienta '" +:+ toolName +:+ "': : "
                  +:+ match args with
                      | VUndefined => "Required"
                      | _ => "Expected object, received " +:+ Zod.getParsedType args
                      end)))) as H.
  { intros args Hn.
    assert (violations_of toolName args = Spec.mistyped "" "object" args) as E.
    { unfold violations_of.
      destruct (registered_cases toolName Hr) as [-> | [-> | ->]]; cbn [String.eqb Ascii.eqb Bool.eqb];
        apply (root_violations_non_object _ args Hn). }
    rewrite (resolver_rejects rt toolName args Hr).
    - rewrite E. destruct args; reflexivity.
    - rewrite E. apply (root_violations_non_object Spec.greeting_violations args Hn). }
  split; [exact H|].
  unfold Server.callTool. cbn [Server.params Server.name Server.arguments from_option].
  rewrite (H VUndefined) by discriminate. reflexivity.
Qed.

Lemma X4_witness :
  Server.callTool sample_runtime
    {| Server.params := {| Server.name := "fecha_actual"; Server.arguments := None |} |} =
    ([CallResolver "fecha_actual"],
     inl (McpError InvalidParams
            "Errores de validación en herramienta 'fecha_actual': : Required")).
Proof.
  refine (proj2 (X4_arguments_must_be_an_object sample_runtime "fecha_actual" _)).
  vm_compute. auto.
Defined.

Lemma try_mcp {A} (l : list call) code message (h : thrown -> M A) :
  (forall c m, h (ThrownMcpError c m) = throw (ThrownMcpError c m)) ->
  (try ((l, inl (ThrownMcpError code message)) : M A) catch h)
  = (l, inl (ThrownMcpError code message)).
Proof. intros Hh. unfold try_catch. rewrite Hh. cbn. now rewrite app_nil_r. Qed.

Lemma tool_outcomes (rt : Runtime) (toolName : string) (args : value) :
  exists l r,
    ToolResolver.resolveAndExecute rt toolName args = (l, r)
    /\ match r with
       | inr _ => registered toolName /\ violations_of toolName args = []
       | inl (ThrownMcpError MethodNotFound _) => ~ registered toolName
       | inl (ThrownMcpError InvalidParams _) =>
           registered toolName /\ violations_of toolName args <> []
       | inl (ThrownMcpError InternalError _) =>
           toolName = "fecha_actual" /\ violations_of toolName args = []
       | inl _ => False
       end.
Proof.
  destruct (registered_dec toolName) as [Hreg | Hn].
  - destruct (nil_or_not (violations_of toolName args)) as [E | N].
    + destruct (registered_cases toolName Hreg) as [-> | [-> | ->]].
      * rewrite (greeting_run rt args E). do 2 eexists. split; [reflexivity|].
        split; [exact Hreg | exact E].
      * destruct (calculator_run rt args E) as (op & f & sym & desc & _ & _ & ->).
        do 2 eexists. split; [reflexivity|]. split; [exact Hreg | exact E].
      * destruct (String.eqb
                    (as_string (Spec.or_default (VString "largo") (get "formato" args)))
                    "iso"
                  || supportedTimeZone rt
                       (as_string (Spec.or_default (VString "Europe/Madrid")
                                     (get "zona_horaria" args)))) eqn:Hok.
        -- destruct (proj1 (datetime_run rt args E) Hok) as (fecha & -> & _).
           do 2 eexists. split; [reflexivity|]. split; [exact Hreg | exact E].
        -- rewrite (proj2 (datetime_run rt args E) Hok).
           do 2 eexists. split; [reflexivity|]. split; [reflexivity | exact E].
    + rewrite (resolver_rejects rt toolName args Hreg N).
      do 2 eexists. split; [reflexivity|]. split; [exact Hreg | exact N].
  - rewrite (unregistered_run rt toolName args Hn).
    do 2 eexists. split; [reflexivity|]. exact Hn.
Qed.

(** X5. The request handler of the server adds nothing to the
    orchestrator: it returns or fails exactly as
    [ToolResolver.resolveAndExecute] does on the name and the arguments
    of the request, so its own InvalidParams wrapping is never used. What
    leaves the server is a result or an McpError, and the code tells why:
    MethodNotFound exactly for a name that is not registered,
    InvalidParams exactly for arguments that break a constraint, and
    InternalError only for [fecha_actual] with valid arguments. *)
Theorem X5_server_outcomes (rt : Runtime) (request : Server.CallToolRequest) :
  let toolName := Server.name (Server.params request) in
  let args := from_option VObject VUndefined (Server.arguments (Server.params request)) in
  Server.callTool rt request = ToolResolver.resolveAndExecute rt toolName args
  /\ match outcome (Server.callTool rt request) with
     | inr _ => registered toolName /\ violations_of toolName args = []
     | inl (ThrownMcpError MethodNotFound _) => ~ registered toolName
     | inl (ThrownMcpError InvalidParams _) =>
         registered toolName /\ violations_of toolName args <> []
     | inl (ThrownMcpError InternalError _) =>
         toolName = "fecha_actual" /\ violations_of toolName args = []
     | inl _ => False
     end.
Proof.
  intros toolName args.
  destruct (tool_outcomes rt toolName args) as (l & r & Hrun & Hr).
  assert (Server.callTool rt request = (l, r)) as Hc.
  { unfold Server.callTool. fold toolName args. rewrite Hrun.
    destruct r as [[errors | code message | message] | t]; try contradiction.
    - apply try_mcp. reflexivity.
    - reflexivity. }
  rewrite Hc, Hrun. split; [reflexivity | exact Hr].
Qed.

(** * Validating twice *)

Lemma greeting_validated_gets (args : value) :
  get "nombre" (greeting_validated args) = get "nombre" args
  /\ get "formal" (greeting_validated args) = VBool (Spec.lenient_boolean (get "formal" args)).
Proof.
  unfold greeting_validated. split.
  - rewrite get_insert_ne by discriminate. apply get_insert_eq.
  - apply get_insert_eq.
Qed.

Lemma calculator_validated_gets (args : value) :
  get "operacion" (calculator_validated args) = get "operacion" args
  /\ get "a" (calculator_validated args) = get "a" args
  /\ get "b" (calculator_validated args) = get "b" args.
Proof.
  unfold calculator_validated. split; [|split].
  - rewrite !get_insert_ne by discriminate. apply get_insert_eq.
  - rewrite get_insert_ne by discriminate. apply get_insert_eq.
  - apply get_insert_eq.
Qed.

Lemma datetime_validated_gets (args : value) :
  get "formato" (datetime_validated args)
    = Spec.or_default (VString "largo") (get "formato" args)
  /\ get "zona_horaria" (datetime_validated args)
     = Spec.or_default (VString "Europe/Madrid") (get "zona_horaria" args).
Proof.
  unfold datetime_validated. split.
  - rewrite get_insert_ne by discriminate. apply get_insert_eq.
  - apply get_insert_eq.
Qed.

Lemma or_default_twice (d v : value) :
  d <> VUndefined -> Spec.or_default d (Spec.or_default d v) = Spec.or_default d v.
Proof. intros H. destruct v; try reflexivity. destruct d; reflexivity || congruence. Qed.

Lemma validated_again (toolName : string) (args : value) :
  registered toolName ->
  violations_of toolName args = [] ->
  violations_of toolName (validated_of toolName args) = []
  /\ validated_of toolName (validated_of toolName args) = validated_of toolName args.
Proof.
  intros Hr Hv. unfold violations_of, validated_of in *.
  destruct (registered_cases toolName Hr) as [-> | [-> | ->]];
    cbn [String.eqb Ascii.eqb Bool.eqb] in *;
    destruct (root_violations_nil _ _ Hv) as (o & -> & Hv').
  - destruct (greeting_validated_gets (VObject o)) as [Gn Gf].
    split.
    + unfold greeting_validated at 1. cbn [root_violations].
      fold (greeting_validated (VObject o)).
      unfold Spec.greeting_violations in *. rewrite Gn, Gf.
      apply app_eq_nil in Hv' as [-> _]. reflexivity.
    + unfold greeting_validated at 1. rewrite Gn, Gf. reflexivity.
  - destruct (calculator_validated_gets (VObject o)) as (Go & Ga & Gb).
    split.
    + unfold calculator_validated at 1. cbn [root_violations].
      fold (calculator_validated (VObject o)).
      unfold Spec.calculator_violations in *. rewrite Go, Ga, Gb. exact Hv'.
    + unfold calculator_validated at 1. rewrite Go, Ga, Gb. reflexivity.
  - destruct (datetime_validated_gets (VObject o)) as [Gf Gz].
    split.
    + unfold datetime_validated at 1. cbn [root_violations].
      fold (datetime_validated (VObject o)).
      unfold Spec.datetime_violations in *. rewrite Gf, Gz.
      apply app_eq_nil in Hv' as [Hf Hz].
      destruct (get "formato" (VObject o)); try discriminate Hf;
        destruct (get "zona_horaria" (VObject o)); try discriminate Hz;
        try reflexivity; cbn [Spec.or_default]; rewrite ?Hf; reflexivity.
    + unfold datetime_validated at 1. rewrite Gf, Gz, !or_default_twice by discriminate. reflexivity.
Qed.

(** X6. Validation is idempotent: whatever [validateInput] returns for a
    tool validates again, to itself. Defaults and the coercion of
    [formal] are applied once and leave an object the schema accepts
    unchanged. *)
Theorem X6_validation_is_idempotent (toolName : string) (args v : value) :
  ToolResolver.validateInput toolName args = ret v ->
  ToolResolver.validateInput toolName v = ret v.
Proof.
  intros H. destruct (registered_dec toolName) as [Hr | Hn].
  - destruct (tool_validation toolName args Hr) as [[E Hp] | (_ & errors & Hp & _)];
      rewrite Hp in H; [|discriminate H].
    injection H as <-.
    destruct (validated_again toolName args Hr E) as [E' Hfix].
    destruct (tool_validation toolName (validated_of toolName args) Hr)
      as [[_ Hp'] | (N & _)]; [|contradiction].
    rewrite Hp', Hfix. reflexivity.
  - destruct (unregistered_eqb toolName Hn) as (E1 & E2 & E3).
    unfold ToolResolver.validateInput in H. rewrite E1, E2, E3 in H. discriminate H.
Qed.

Lemma X6_witness :
  ToolResolver.validateInput "fecha_actual"
    (obj [("zona_horaria", VString "Europe/Madrid"); ("formato", VString "largo")]) =
    ret (obj [("zona_horaria", VString "Europe/Madrid"); ("formato", VString "largo")]).
Proof.
  apply (X6_validation_is_idempotent "fecha_actual" (obj [])). vm_compute. reflexivity.
Defined.

(** X7. [ToolResolver.validateInput] is a faithful dry run of
    [resolveAndExecute]. For a registered tool it either returns the
    validated object or throws a ZodError with at least one issue; when
    it throws, the invocation fails with InvalidParams and the text of
    exactly those issues; when it returns, the invocation calls the
    resolver and then the use case, each once. *)
Theorem X7_validateInput_is_a_dry_run (rt : Runtime) (toolName : string) (args : value) :
  registered toolName ->
  ((exists v, ToolResolver.validateInput toolName args = ret v)
   \/ (exists errors, errors <> []
         /\ ToolResolver.validateInput toolName args = throw (ThrownZodError errors)))
  /\ (forall errors,
        ToolResolver.validateInput toolName args = throw (ThrownZodError errors) ->
        ToolResolver.resolveAndExecute rt toolName args =
          ([CallResolver toolName],
           inl (McpError InvalidParams
                  ("Errores de validación en herramienta '" +:+ toolName +:+ "': "
                     +:+ formattedErrors errors))))
  /\ (forall v,
        ToolResolver.validateInput toolName args = ret v ->
        calls (ToolResolver.resolveAndExecute rt toolName args) =
          [CallResolver toolName; CallUseCase toolName]).
Proof.
  intros Hr.
  destruct (tool_validation toolName args Hr) as [[E Hp] | (N & errors & Hp & Hs)].
  - split; [left; eauto|]. split; [intros errors H; rewrite Hp in H; discriminate H|].
    intros v _. destruct (tool_outcomes rt toolName args) as (l & r & Hrun & Hcase).
    destruct (registered_cases toolName Hr) as [-> | [-> | ->]].
    + rewrite (greeting_run rt args E). reflexivity.
    + destruct (calculator_run rt args E) as (op & f & sym & desc & _ & _ & ->). reflexivity.
    + destruct (String.eqb
                  (as_string (Spec.or_default (VString "largo") (get "formato" args)))
                  "iso"
                || supportedTimeZone rt
                     (as_string (Spec.or_default (VString "Europe/Madrid")
                                   (get "zona_horaria" args)))) eqn:Hok.
      * destruct (proj1 (datetime_run rt args E) Hok) as (fecha & -> & _). reflexivity.
      * rewrite (proj2 (datetime_run rt args E) Hok). reflexivity.
  - split.
    + right. exists errors. split; [|exact Hp]. intros ->. apply N. rewrite <- Hs. reflexivity.
    + split; [|intros v H; rewrite Hp in H; discriminate H].
      intros errors' H. rewrite Hp in H. injection H as <-.
      rewrite (resolver_rejects rt toolName args Hr N), <- Hs, <- formattedErrors_shown.
      reflexivity.
Qed.

Lemma X7_witness :
  calls (ToolResolver.resolveAndExecute sample_runtime "calcular"
           (obj [("operacion", VString "division"); ("a", VNumber (JS.ofZ 10));
                 ("b", VNumber (JS.ofZ 4))])) =
    [CallResolver "calcular"; CallUseCase "calcular"].
Proof.
  refine (proj2 (proj2 (X7_validateInput_is_a_dry_run sample_runtime "calcular"
            (obj [("operacion", VString "division"); ("a", VNumber (JS.ofZ 10));
                  ("b", VNumber (JS.ofZ 4))]) _))
            (obj [("b", VNumber (JS.ofZ 4)); ("a", VNumber (JS.ofZ 10));
                  ("operacion", VString "division")]) _).
  - vm_compute. auto.
  - vm_compute. reflexivity.
Defined.

(** X10. The three dispatchers of the orchestrator agree on the tool
    names. [getToolInfo] returns the advertised definition that carries
    the name, and [null] exactly for a name that is not advertised; the
    advertised names are distinct; and for such a name [validateInput]
    throws a plain Error naming it, where [resolveAndExecute] fails with
    MethodNotFound. *)
Theorem X10_tool_lookup (rt : Runtime) (toolName : string) :
  (forall d, ToolResolver.getToolInfo toolName = Some d <->
             In d ToolResolver.getToolDefinitions /\ name d = toolName)
  /\ (ToolResolver.getToolInfo toolName = None <-> ~ registered toolName)
  /\ NoDup (map name ToolResolver.getToolDefinitions)
  /\ (forall args,
        ~ registered toolName ->
        ToolResolver.validateInput toolName args =
          throw (ThrownError ("Herramienta desconocida: " +:+ toolName))
        /\ ToolResolver.resolveAndExecute rt toolName args =
             throw (McpError MethodNotFound
                      ("Herramienta desconocida: " +:+ toolName
                         +:+ ". Herramientas disponibles: saludo, calcular, fecha_actual"))).
Proof.
  split; [|split; [|split]].
  - intros d. unfold ToolResolver.getToolInfo. split.
    + destruct (String.eqb_spec toolName "saludo") as [-> | _];
        [intros [= <-]; split; [cbn; auto | reflexivity]|].
      destruct (String.eqb_spec toolName "calcular") as [-> | _];
        [intros [= <-]; split; [cbn; auto | reflexivity]|].
      destruct (String.eqb_spec toolName "fecha_actual") as [-> | _];
        [intros [= <-]; split; [cbn; auto | reflexivity]|].
      discriminate.
    + intros [[<- | [<- | [<- | []]]] <-]; reflexivity.
  - unfold ToolResolver.getToolInfo. split.
    + intros H Hr. destruct (registered_cases toolName Hr) as [-> | [-> | ->]]; discriminate H.
    + intros Hn. destruct (unregistered_eqb toolName Hn) as (-> & -> & ->). reflexivity.
  - cbn. repeat (apply NoDup_cons_2; [rewrite ?elem_of_cons, ?elem_of_nil; intuition discriminate|]).
    apply NoDup_nil_2.
  - intros args Hn. split; [|exact (unregistered_run rt toolName args Hn)].
    destruct (unregistered_eqb toolName Hn) as (E1 & E2 & E3).
    unfold ToolResolver.validateInput. rewrite E1, E2, E3. reflexivity.
Qed.

Lemma X10_witness :
  ToolResolver.validateInput "Saludo" (obj []) =
    throw (ThrownError "Herramienta desconocida: Saludo").
Proof.
  refine (proj1 (proj2 (proj2 (proj2 (X10_tool_lookup sample_runtime "Saludo"))) (obj []) _)).
  vm_compute. intros [H | [H | [H | []]]]; discriminate H.
Defined.

(** * The advertised descriptors against the schemas *)

Lemma definition_cases (d : ToolDefinition) :
  In d ToolResolver.getToolDefinitions ->
  d = GreetingResolver.GREETING_TOOL_DEFINITION
  \/ d = CalculatorResolver.CALCULATOR_TOOL_DEFINITION
  \/ d = DateTimeResolver.DATETIME_TOOL_DEFINITION.
Proof. intros [H | [H | [H | []]]]; auto. Qed.

Lemma definition_registered (d : ToolDefinition) :
  In d ToolResolver.getToolDefinitions -> registered (name d).
Proof. intros H. apply in_map. exact H. Qed.

Lemma greeting_violations_nil (args : value) :
  Spec.greeting_violations args = [] ->
  (exists s, get "nombre" args = VString s /\ (1 <= JS.String_length s <= 100)%nat)
  /\ (get "formal" args = VUndefined
      \/ (exists b, get "formal" args = VBool b) \/ (exists s, get "formal" args = VString s)).
Proof.
  unfold Spec.greeting_violations. intros H. apply app_eq_nil in H as [Hn Hf]. split.
  - destruct (get "nombre" args) as [ | | | | s | | ]; try discriminate Hn.
    exists s. split; [reflexivity|]. cbn [Spec.nombre_violations] in Hn.
    destruct (Nat.ltb_spec (JS.String_length s) 1); [discriminate Hn|].
    destruct (Nat.ltb_spec 100 (JS.String_length s)); [discriminate Hn|]. lia.
  - destruct (get "formal" args) as [ | | b | x | s | | ]; try discriminate Hf; eauto.
Qed.

Lemma datetime_violations_nil (args : value) :
  Spec.datetime_violations args = [] ->
  (exists s, Spec.or_default (VString "largo") (get "formato" args) = VString s
             /\ In s ["corto"; "largo"; "hora"; "completo"; "iso"])
  /\ (exists s, Spec.or_default (VString "Europe/Madrid") (get "zona_horaria" args) = VString s).
Proof.
  unfold Spec.datetime_violations. intros H. apply app_eq_nil in H as [Hf Hz]. split.
  - destruct (get "formato" args) as [ | | | | s | | ]; try discriminate Hf.
    + exists "largo". split; [reflexivity | cbn; auto].
    + exists s. split; [reflexivity|]. cbn [Spec.formato_violations] in Hf.
      destruct (existsb (String.eqb s) ["corto"; "largo"; "hora"; "completo"; "iso"]) eqn:E;
        [|discriminate Hf].
      apply existsb_exists in E as (x & Hin & Hx). apply String.eqb_eq in Hx as ->. exact Hin.
  - destruct (get "zona_horaria" args) as [ | | | x | s | | ]; try discriminate Hz; eauto.
Qed.

(** X9. What validation returns conforms to the advertised input schema
    of the tool. For every advertised property, the validated value has
    the advertised type, is one of the advertised [enum] values, has a
    length within the advertised [minLength] and [maxLength], is finite
    when it is a number, and is the advertised [default] when the
    property was absent from the arguments. *)
Theorem X9_output_conforms_to_descriptor (d : ToolDefinition) (args v : value) :
  In d ToolResolver.getToolDefinitions ->
  ToolResolver.validateInput (name d) args = ret v ->
  forall k ps, In (k, ps) (properties (inputSchema d)) ->
    typeof (get k v) = prop_type ps
    /\ (forall vals, prop_enum ps = Some vals -> exists s, get k v = VString s /\ In s vals)
    /\ (forall n, prop_minLength ps = Some n ->
          (n <= JS.String_length (as_string (get k v)))%nat)
    /\ (forall n, prop_maxLength ps = Some n ->
          (JS.String_length (as_string (get k v)) <= n)%nat)
    /\ (prop_type ps = "number" -> JS.Number_isFinite (as_number (get k v)) = true)
    /\ (forall dv, prop_default ps = Some dv -> get k args = VUndefined -> get k v = dv).
Proof.
  intros Hd Hv k ps Hk.
  destruct (tool_validation (name d) args (definition_registered d Hd))
    as [[E Hp] | (_ & errors & Hp & _)]; rewrite Hp in Hv; [|discriminate Hv].
  injection Hv as <-. unfold violations_of, validated_of in *.
  destruct (definition_cases d Hd) as [-> | [-> | ->]];
    cbn [name GreetingResolver.GREETING_TOOL_DEFINITION
           CalculatorResolver.CALCULATOR_TOOL_DEFINITION
           DateTimeResolver.DATETIME_TOOL_DEFINITION
           String.eqb Ascii.eqb Bool.eqb] in *;
    destruct (root_violations_nil _ _ E) as (o & -> & E').
  - destruct (greeting_validated_gets (VObject o)) as [Gn Gf].
    destruct (greeting_violations_nil _ E') as ((s & Hs & Hlen) & Hformal).
    cbn [inputSchema properties] in Hk.
    destruct Hk as [[= <- <-] | [[= <- <-] | []]]; cbn [prop_type prop_enum prop_minLength
      prop_maxLength prop_default].
    + rewrite Gn, Hs. cbn [typeof as_string].
      repeat split; try discriminate; intros n [= <-]; lia.
    + rewrite Gf. cbn [typeof].
      repeat split; try discriminate. intros dv [= <-] ->. reflexivity.
  - destruct (calculator_validated_gets (VObject o)) as (Go & Ga & Gb).
    destruct (calculator_violations_nil _ E') as (Hop & (a & Ha & Fa) & (b & Hb & Fb) & _).
    destruct (operacion_typed_operation _ Hop) as (op & f & sym & desc & Eo & Hin).
    cbn [inputSchema properties] in Hk.
    destruct Hk as [[= <- <-] | [[= <- <-] | [[= <- <-] | []]]];
      cbn [prop_type prop_enum prop_minLength prop_maxLength prop_default no_prop].
    + rewrite Go, Eo. cbn [typeof].
      repeat split; try discriminate. intros vals [= <-]. exists op. split; [reflexivity|].
      destruct Hin as [H | [H | [H | [H | []]]]]; injection H as <- _ _ _; cbn; tauto.
    + rewrite Ga, Ha. cbn [typeof as_number]. repeat split; try discriminate. intros _. exact Fa.
    + rewrite Gb, Hb. cbn [typeof as_number]. repeat split; try discriminate. intros _. exact Fb.
  - destruct (datetime_validated_gets (VObject o)) as [Gf Gz].
    destruct (datetime_violations_nil _ E') as ((s & Hs & Hin) & (tz & Htz)).
    cbn [inputSchema properties] in Hk.
    destruct Hk as [[= <- <-] | [[= <- <-] | []]];
      cbn [prop_type prop_enum prop_minLength prop_maxLength prop_default].
    + rewrite Gf. repeat split; try discriminate.
      * rewrite Hs. reflexivity.
      * intros vals [= <-]. exists s. split; [exact Hs | exact Hin].
      * intros dv [= <-] ->. reflexivity.
    + rewrite Gz. repeat split; try discriminate.
      * rewrite Htz. reflexivity.
      * intros dv [= <-] ->. reflexivity.
Qed.

Lemma X9_witness :
  get "formato" (obj [("zona_horaria", VString "UTC"); ("formato", VString "largo")])
  = VString "largo".
Proof.
  refine (proj2 (proj2 (proj2 (proj2 (proj2
    (X9_output_conforms_to_descriptor DateTimeResolver.DATETIME_TOOL_DEFINITION
       (obj [("zona_horaria", VString "UTC")])
       (obj [("zona_horaria", VString "UTC"); ("formato", VString "largo")])
       _ _ "formato"
       {| prop_type := "string";
          prop_enum := Some ["corto"; "largo"; "hora"; "completo"; "iso"];
          prop_default := Some (VString "largo");
          prop_minLength := None; prop_maxLength := None |} _)))))
    (VString "largo") _ _).
  - vm_compute. auto.
  - vm_compute. reflexivity.
  - vm_compute. auto.
  - reflexivity.
  - vm_compute. reflexivity.
Defined.

Lemma get_delete_eq k (o : gmap string value) : get k (VObject (delete k o)) = VUndefined.
Proof. unfold get. rewrite lookup_delete_eq. reflexivity. Qed.

Lemma get_delete_ne k k' (o : gmap string value) :
  k <> k' -> get k' (VObject (delete k o)) = get k' (VObject o).
Proof. intros H. unfold get. rewrite lookup_delete_ne by exact H. reflexivity. Qed.

Lemma get_missing k (o : gmap string value) : o !! k = None -> get k (VObject o) = VUndefined.
Proof. intros H. unfold get. rewrite H. reflexivity. Qed.

(** X8. The [required] list of each advertised descriptor is the one the
    schema enforces. An object that lacks a required key is rejected,
    with an issue reported under that key; and a declared key that is not
    required can be removed from an object that validates without making
    it invalid. *)
Theorem X8_required_keys_are_enforced (d : ToolDefinition) (o : gmap string value)
    (k : string) :
  In d ToolResolver.getToolDefinitions ->
  (In k (required (inputSchema d)) -> o !! k = None ->
     exists errors e,
       ToolResolver.validateInput (name d) (VObject o) = throw (ThrownZodError errors)
       /\ In e errors /\ JS.join "." (Zod.path e) = k)
  /\ (In k (declared d) -> ~ In k (required (inputSchema d)) ->
      forall v, ToolResolver.validateInput (name d) (VObject o) = ret v ->
      exists v', ToolResolver.validateInput (name d) (VObject (delete k o)) = ret v').
Proof.
  intros Hd. split.
  - intros Hk Ho. apply get_missing in Ho.
    assert (exists msg, In (k, msg) (violations_of (name d) (VObject o))) as (msg & Hin).
    { unfold violations_of.
      destruct (definition_cases d Hd) as [-> | [-> | ->]];
        cbn [name GreetingResolver.GREETING_TOOL_DEFINITION
               CalculatorResolver.CALCULATOR_TOOL_DEFINITION
               DateTimeResolver.DATETIME_TOOL_DEFINITION inputSchema required
               String.eqb Ascii.eqb Bool.eqb root_violations] in *.
      - destruct Hk as [<- | []]. unfold Spec.greeting_violations. rewrite Ho.
        eexists. apply in_or_app. left. cbn. left. reflexivity.
      - unfold Spec.calculator_violations.
        destruct Hk as [<- | [<- | [<- | []]]]; rewrite Ho; eexists.
        + apply in_or_app. left. cbn. left. reflexivity.
        + apply in_or_app. right. apply in_or_app. left. cbn. left. reflexivity.
        + apply in_or_app. right. apply in_or_app. right. apply in_or_app. left.
          cbn. left. reflexivity.
      - destruct Hk. }
    destruct (tool_validation (name d) (VObject o) (definition_registered d Hd))
      as [[E _] | (_ & errors & Hp & Hs)].
    + rewrite E in Hin. destruct Hin.
    + rewrite <- Hs in Hin. apply in_map_iff in Hin as (e & He & Hin).
      exists errors, e. split; [exact Hp|]. split; [exact Hin|].
      unfold shown in He. now injection He.
  - intros Hk Hn v Hv.
    destruct (tool_validation (name d) (VObject o) (definition_registered d Hd))
      as [[E _] | (_ & errors & Hp & _)]; [|rewrite Hp in Hv; discriminate Hv].
    destruct (tool_validation (name d) (VObject (delete k o)) (definition_registered d Hd))
      as [[_ Hp] | (N & _)]; [eauto|].
    exfalso. apply N. clear N Hv. unfold violations_of, declared in *.
    destruct (definition_cases d Hd) as [-> | [-> | ->]];
      cbn [name GreetingResolver.GREETING_TOOL_DEFINITION
             CalculatorResolver.CALCULATOR_TOOL_DEFINITION
             DateTimeResolver.DATETIME_TOOL_DEFINITION inputSchema required properties
             map fst String.eqb Ascii.eqb Bool.eqb root_violations] in *.
    + destruct Hk as [<- | [<- | []]]; [exfalso; apply Hn; left; reflexivity|].
      unfold Spec.greeting_violations in *.
      rewrite get_delete_eq, get_delete_ne by discriminate.
      apply app_eq_nil in E as [-> _]. reflexivity.
    + exfalso. apply Hn. exact Hk.
    + unfold Spec.datetime_violations in *. apply app_eq_nil in E as [Ef Ez].
      destruct Hk as [<- | [<- | []]].
      * rewrite get_delete_eq, get_delete_ne by discriminate. rewrite Ez. reflexivity.
      * rewrite get_delete_eq, get_delete_ne by discriminate. rewrite Ef. reflexivity.
Qed.

Lemma X8_witness :
  exists errors e,
    ToolResolver.validateInput "calcular"
      (obj [("operacion", VString "suma"); ("a", VNumber (JS.ofZ 1))]) =
      throw (ThrownZodError errors)
    /\ In e errors /\ JS.join "." (Zod.path e) = "b".
Proof.
  refine (proj1 (X8_required_keys_are_enforced CalculatorResolver.CALCULATOR_TOOL_DEFINITION
            (list_to_map [("operacion", VString "suma"); ("a", VNumber (JS.ofZ 1))]) "b" _)
            _ _).
  - vm_compute. auto.
  - vm_compute. auto.
  - vm_compute. reflexivity.
Defined.

(** X11. Called directly with a format outside the five of the schema,
    the date use case takes the default branch of its [switch]: it
    behaves as it does for [largo], and never rejects the format. *)
Theorem X11_unknown_formato_is_largo (rt : Runtime) (formato tz : string) :
  ~ In formato ["corto"; "hora"; "completo"; "iso"] ->
  DateTimeUseCase.execute rt
    {| DateTimeUseCase.formato := formato; DateTimeUseCase.zona_horaria := tz |} =
  DateTimeUseCase.execute rt
    {| DateTimeUseCase.formato := "largo"; DateTimeUseCase.zona_horaria := tz |}.
Proof.
  intros Hn. unfold DateTimeUseCase.execute.
  cbn [DateTimeUseCase.formato DateTimeUseCase.zona_horaria].
  assert (String.eqb formato "corto" = false) as ->
    by (apply String.eqb_neq; intros ->; apply Hn; cbn; auto).
  assert (String.eqb formato "hora" = false) as ->
    by (apply String.eqb_neq; intros ->; apply Hn; cbn; auto).
  assert (String.eqb formato "completo" = false) as ->
    by (apply String.eqb_neq; intros ->; apply Hn; cbn; auto).
  assert (String.eqb formato "iso" = false) as ->
    by (apply String.eqb_neq; intros ->; apply Hn; cbn; tauto).
  reflexivity.
Qed.

Lemma X11_witness :
  DateTimeUseCase.execute sample_runtime
    {| DateTimeUseCase.formato := "ISO"; DateTimeUseCase.zona_horaria := "UTC" |} =
  DateTimeUseCase.execute sample_runtime
    {| DateTimeUseCase.formato := "largo"; DateTimeUseCase.zona_horaria := "UTC" |}.
Proof.
  apply (X11_unknown_formato_is_largo sample_runtime "ISO" "UTC").
  simpl. intros [H | [H | [H | [H | []]]]]; discriminate H.
Defined.

(** X12. What each schema accepts, exactly. [saludo] is accepted when
    [nombre] is a string of 1 to 100 UTF-16 units and [formal] is absent,
    a boolean or a string. [calcular] is accepted when [operacion] is one
    of the four names, [a] and [b] are finite numbers, and the operation
    is not a division by zero. [fecha_actual] is accepted when [formato]
    is absent or one of the five names and [zona_horaria] is absent or a
    string, whatever the string. *)
Theorem X12_what_validation_accepts (o : gmap string value) :
  let args := VObject o in
  ((exists v, GreetingResolver.validateInput args = ret v) <->
     (exists s, get "nombre" args = VString s /\ (1 <= JS.String_length s <= 100)%nat)
     /\ (get "formal" args = VUndefined \/ (exists b, get "formal" args = VBool b)
         \/ (exists s, get "formal" args = VString s)))
  /\ ((exists v, CalculatorResolver.validateInput args = ret v) <->
        (exists op f sym desc a b,
            get "operacion" args = VString op /\ In (op, (f, sym, desc)) operations
            /\ get "a" args = VNumber a /\ JS.Number_isFinite a = true
            /\ get "b" args = VNumber b /\ JS.Number_isFinite b = true
            /\ ~ (op = "division" /\ JS.strict_eq_number b JS.zero = true)))
  /\ ((exists v, DateTimeResolver.validateInput args = ret v) <->
        (get "formato" args = VUndefined
         \/ exists s, get "formato" args = VString s
                      /\ In s ["corto"; "largo"; "hora"; "completo"; "iso"])
        /\ (get "zona_horaria" args = VUndefined
            \/ exists s, get "zona_horaria" args = VString s)).
Proof.
  intros args. split; [|split].
  - destruct (greeting_validation args) as [[E Hp] | (N & errors & Hp & _)]; rewrite Hp.
    + split; [intros _; exact (greeting_violations_nil _ E) | eauto].
    + split; [intros [v H]; discriminate H|].
      intros ((s & Hs & Hlen) & Hf). exfalso. apply N.
      cbn [root_violations args]. unfold Spec.greeting_violations. fold args. rewrite Hs.
      cbn [Spec.nombre_violations].
      destruct (Nat.ltb_spec (JS.String_length s) 1); [lia|].
      destruct (Nat.ltb_spec 100 (JS.String_length s)); [lia|].
      destruct Hf as [-> | [[b ->] | [s' ->]]]; reflexivity.
  - destruct (calculator_validation args) as [[E Hp] | (N & errors & Hp & _)]; rewrite Hp.
    + split; [intros _ | eauto].
      destruct (calculator_violations_nil _ E) as (Hop & (a & Ha & Fa) & (b & Hb & Fb) & Hz).
      destruct (operacion_typed_operation _ Hop) as (op & f & sym & desc & Eo & Hin).
      exists op, f, sym, desc, a, b. repeat split; try assumption.
      intros [-> Hb0]. rewrite Eo, Hb in Hz. cbn in Hz. rewrite Hb0 in Hz. discriminate Hz.
    + split; [intros [v H]; discriminate H|].
      intros (op & f & sym & desc & a & b & Eo & Hin & Ha & Fa & Hb & Fb & Hz).
      exfalso. apply N. cbn [root_violations args].
      unfold Spec.calculator_violations, Spec.operacion_violations, Spec.number_violations,
        Spec.cross_field_violations. fold args. rewrite Eo, Ha, Hb.
      cbn [Spec.number_typed as_number]. rewrite Fa, Fb.
      assert (JS.Number_isNaN a = false) as -> by (destruct a; try reflexivity; discriminate Fa).
      assert (JS.Number_isNaN b = false) as -> by (destruct b; try reflexivity; discriminate Fb).
      assert (Spec.operacion_typed (VString op) = true) as ->.
      { destruct Hin as [H | [H | [H | [H | []]]]]; injection H as <- _ _ _; reflexivity. }
      cbn [negb app andb strict_eq].
      destruct (String.eqb_spec op "division") as [-> | _]; [|reflexivity].
      destruct (JS.strict_eq_number b JS.zero) eqn:Hb0; [|reflexivity].
      exfalso. apply Hz. split; reflexivity.
  - destruct (datetime_validation args) as [[E Hp] | (N & errors & Hp & _)]; rewrite Hp.
    + split; [intros _ | eauto].
      cbn [root_violations args] in E. unfold Spec.datetime_violations in E. fold args in E.
      apply app_eq_nil in E as [Hf Hz]. split.
      * destruct (get "formato" args) as [ | | | | s | | ]; try discriminate Hf; [auto|].
        right. exists s. split; [reflexivity|]. cbn [Spec.formato_violations] in Hf.
        destruct (existsb (String.eqb s) ["corto"; "largo"; "hora"; "completo"; "iso"]) eqn:Ex;
          [|discriminate Hf].
        apply existsb_exists in Ex as (x & Hin & Hx). apply String.eqb_eq in Hx as ->. exact Hin.
      * destruct (get "zona_horaria" args) as [ | | | | s | | ]; try discriminate Hz; eauto.
    + split; [intros [v H]; discriminate H|].
      intros [Hf Hz]. exfalso. apply N. cbn [root_violations args].
      unfold Spec.datetime_violations. fold args.
      assert (Spec.formato_violations (get "formato" args) = []) as ->.
      { destruct Hf as [-> | (s & -> & Hin)]; [reflexivity|]. cbn [Spec.formato_violations].
        destruct Hin as [<- | [<- | [<- | [<- | [<- | []]]]]]; reflexivity. }
      destruct Hz as [-> | [s ->]]; reflexivity.
Qed.

(** * The arithmetic of validated operands *)

Section Rounding.
Variables (prec emax : Z).

Lemma shr_1_nonneg (mrs : shr_record) : 0 <= shr_m mrs -> 0 <= shr_m (shr_1 mrs).
Proof.
  destruct mrs as [m r s]. cbn [shr_m]. intros H.
  destruct m as [ | p | p]; [| destruct p | lia]; cbn; lia.
Qed.

Lemma iter_shr_1_nonneg (p : positive) (mrs : shr_record) :
  0 <= shr_m mrs -> 0 <= shr_m (SpecFloat.iter_pos shr_1 p mrs).
Proof.
  revert mrs. induction p as [p IH | p IH | ]; intros mrs H; cbn [SpecFloat.iter_pos].
  - apply IH, IH, shr_1_nonneg, H.
  - apply IH, IH, H.
  - apply shr_1_nonneg, H.
Qed.

Lemma shr_fexp_nonneg (m e : Z) (l : location) :
  0 <= m -> 0 <= shr_m (fst (shr_fexp prec emax m e l)).
Proof.
  intros H. unfold shr_fexp, shr.
  assert (0 <= shr_m (shr_record_of_loc m l)) as H'.
  { destruct l as [ | []]; exact H. }
  destruct (fexp prec emax (Zdigits2 m + e) - e); cbn [fst]; try exact H'.
  apply iter_shr_1_nonneg, H'.
Qed.

Lemma round_nearest_even_nonneg (m : Z) (l : location) :
  0 <= m -> 0 <= round_nearest_even m l.
Proof.
  intros H. destruct l as [ | []]; cbn [round_nearest_even]; try lia.
  destruct (Z.even m); lia.
Qed.

Lemma binary_round_aux_not_nan (sx : bool) (mx ex : Z) (lx : location) :
  0 <= mx -> binary_round_aux prec emax sx mx ex lx <> S754_nan.
Proof.
  intros H. unfold binary_round_aux.
  pose proof (shr_fexp_nonneg mx ex lx H) as H1.
  destruct (shr_fexp prec emax mx ex lx) as [mrs' e']. cbn [fst] in H1.
  pose proof (shr_fexp_nonneg (round_nearest_even (shr_m mrs') (loc_of_shr_record mrs'))
                e' loc_Exact (round_nearest_even_nonneg _ _ H1)) as H2.
  destruct (shr_fexp prec emax
              (round_nearest_even (shr_m mrs') (loc_of_shr_record mrs')) e' loc_Exact)
    as [mrs'' e'']. cbn [fst] in H2.
  destruct (shr_m mrs'') as [ | m | m]; [discriminate | | lia].
  destruct (e'' <=? emax - prec); discriminate.
Qed.

Lemma binary_normalize_not_nan (m e : Z) (szero : bool) :
  binary_normalize prec emax m e szero <> S754_nan.
Proof.
  unfold binary_normalize, binary_round.
  destruct m as [ | p | p]; [discriminate | |];
    destruct (shl_align p e (fexp prec emax (Z.pos (digits2_pos p) + e))) as [mz ez];
    apply binary_round_aux_not_nan; lia.
Qed.

Lemma div_core_nonneg (m1 m2 : positive) (e1 e2 : Z) :
  0 <= fst (fst (SFdiv_core_binary prec emax (Zpos m1) e1 (Zpos m2) e2)).
Proof.
  unfold SFdiv_core_binary.
  set (s := e1 - e2 - _).
  set (m' := match s with Z0 => Zpos m1 | Zpos _ => Z.shiftl (Zpos m1) s | Zneg _ => 0 end).
  assert (0 <= m') as Hm.
  { subst m'. destruct s; try lia. apply Z.shiftl_nonneg. lia. }
  pose proof (Z.div_pos m' (Zpos m2) Hm ltac:(lia)) as Hq.
  unfold Z.div in Hq. destruct (Z.div_eucl m' (Zpos m2)) as [q r]. exact Hq.
Qed.
End Rounding.

Lemma finite_operation_not_nan (a b : JS.number) :
  JS.Number_isFinite a = true -> JS.Number_isFinite b = true ->
  JS.Number_isNaN (JS.add a b) = false
  /\ JS.Number_isNaN (JS.sub a b) = false
  /\ JS.Number_isNaN (JS.mul a b) = false
  /\ (JS.strict_eq_number b JS.zero = false -> JS.Number_isNaN (JS.div a b) = false).
Proof.
  assert (forall x, x <> S754_nan -> JS.Number_isNaN x = false) as Hn.
  { intros [] H; try reflexivity. congruence. }
  intros Fa Fb.
  destruct a as [sa | sa | | sa ma ea]; try discriminate Fa;
    destruct b as [sb | sb | | sb mb eb]; try discriminate Fb;
    (split; [|split; [|split]]);
    try (intros Hz; try discriminate Hz);
    try (destruct sa, sb; reflexivity); try reflexivity.
  - apply Hn, binary_normalize_not_nan.
  - apply Hn, binary_normalize_not_nan.
  - apply Hn, binary_round_aux_not_nan. lia.
  - apply Hn. unfold JS.div, SFdiv.
    pose proof (div_core_nonneg JS.prec JS.emax ma mb ea eb) as Hq.
    destruct (SFdiv_core_binary JS.prec JS.emax (Z.pos ma) ea (Z.pos mb) eb) as [[mz ez] lz].
    apply binary_round_aux_not_nan. exact Hq.
Qed.

(** X13. For arguments that validate, the number the calculator
    computes is never NaN: operands are finite, and the only quotient of
    finite operands that is NaN, zero by zero, is excluded by the
    divide-by-zero rule. *)
Theorem X13_result_is_never_NaN (args : value) (op : string)
    (f : JS.number -> JS.number -> JS.number) (sym desc : string) :
  root_violations Spec.calculator_violations args = [] ->
  get "operacion" args = VString op ->
  In (op, (f, sym, desc)) operations ->
  JS.Number_isNaN (f (as_number (get "a" args)) (as_number (get "b" args))) = false.
Proof.
  intros Hv Eo Hin. destruct (root_violations_nil _ _ Hv) as (o & -> & Hv').
  destruct (calculator_violations_nil _ Hv') as (_ & (a & Ha & Fa) & (b & Hb & Fb) & Hz).
  rewrite Ha, Hb, Eo in *. cbn [as_number].
  destruct (finite_operation_not_nan a b Fa Fb) as (Hadd & Hsub & Hmul & Hdiv).
  destruct Hin as [H | [H | [H | [H | []]]]]; injection H as <- <- _ _; try assumption.
  apply Hdiv. exact Hz.
Qed.

Lemma X13_witness :
  JS.Number_isNaN (JS.div (JS.ofZ 0) (JS.ofZ 5)) = false.
Proof.
  apply (X13_result_is_never_NaN
           (obj [("operacion", VString "division"); ("a", VNumber (JS.ofZ 0));
                 ("b", VNumber (JS.ofZ 5))])
           "division" JS.div "÷" "División").
  - vm_compute. reflexivity.
  - vm_compute. reflexivity.
  - cbn. tauto.
Defined.

Lemma seven_digits_split (a b : string) :
  a +:+ b = "0000000" -> String.length b = 6%nat -> a = "0" /\ b = "000000".
Proof.
  intros E L. apply (f_equal String.length) in E as E'. rewrite length_append, L in E'.
  destruct a as [ | c [ | c' a]]; cbn in E'; try lia.
  change (String c b = "0000000") in E. injection E as -> ->. split; reflexivity.
Qed.

(** X14. A result that is not zero but smaller than half a millionth in
    magnitude rounds to zero at six decimals, and the point and the zeros
    are stripped: it prints as [0], and as [-0] when it is negative. *)
Theorem X14_tiny_results_print_zero (s : bool) (m : positive) (e : Z) :
  2 * fst (JS.magnitude m e) * 10 ^ 6 < snd (JS.magnitude m e) ->
  CalculatorUseCase.formatear (S754_finite s m e) = if s then "-0" else "0".
Proof.
  intros H.
  pose proof (magnitude_num_pos m e) as Hn. pose proof (magnitude_den_pos m e) as Hd.
  destruct (formatear_fraction s m e) as (a & b & Eab & Lb & ->).
  - cbn [JS.Number_isInteger]. destruct (JS.magnitude m e) as [num den]. cbn [fst snd] in *.
    apply Z.eqb_neq. rewrite Z.mod_small by lia. lia.
  - cbn [JS.below_1e21]. destruct (JS.magnitude m e) as [num den]. cbn [fst snd] in *.
    apply Z.ltb_lt. nia.
  - assert (JS.fixed6_scaled (fst (JS.magnitude m e)) (snd (JS.magnitude m e)) = 0) as Z0.
    { unfold JS.fixed6_scaled. apply Z.div_small. lia. }
    rewrite Z0 in Eab. change (JS.fixed6_padded 0) with "0000000" in Eab.
    destruct (seven_digits_split a b Eab Lb) as [-> ->]. destruct s; reflexivity.
Qed.

Lemma X14_witness :
  CalculatorUseCase.formatear (JS.sub JS.zero (JS.ofDecimal 1 (-7))) = "-0".
Proof.
  apply (X14_tiny_results_print_zero true 7555786372591432%positive (-76)).
  vm_compute. reflexivity.
Defined.

(** * The single-file version *)

Lemma manejarSaludo_plain (eng : Engine) (args : value) :
  plain_outcome (Tools.manejarSaludo eng args).
Proof.
  unfold Tools.manejarSaludo, Tools.destructure.
  destruct args; try (split; [reflexivity | exact I]); rewrite bind_ret;
    match goal with |- plain_outcome (if ?c then _ else _) => destruct c end;
    split; try reflexivity; exact I.
Qed.

Lemma manejarCalcular_plain (eng : Engine) (args : value) :
  plain_outcome (Tools.manejarCalcular eng args).
Proof.
  assert (forall v, plain_outcome
            (let operacion := get "operacion" v in
             let a := get "a" v in
             let b := get "b" v in
             if negb (String.eqb (typeof a) "number") || negb (String.eqb (typeof b) "number")
             then throw (ThrownError "Los números deben ser valores numéricos")
             else
               let a := as_number a in
               let b := as_number b in
               let* r :=
                 (if strict_eq operacion (VString "suma") then ret (JS.add a b, "+")
                  else if strict_eq operacion (VString "resta") then ret (JS.sub a b, "-")
                  else if strict_eq operacion (VString "multiplicacion")
                       then ret (JS.mul a b, "×")
                  else if strict_eq operacion (VString "division") then
                    (if JS.strict_eq_number b JS.zero
                     then throw (ThrownError "No se puede dividir por cero")
                     else ret (JS.div a b, "÷"))
                  else throw (ThrownError "Operación no válida")) in
               let '(resultado, simbolo) := r in
               ret (text_result
                      (JS.Number_toString a +:+ " " +:+ simbolo +:+ " "
                         +:+ JS.Number_toString b
                         +:+ " = " +:+ JS.Number_toString resultado)))) as H.
  { intros v. cbv zeta.
    destruct (negb (String.eqb (typeof (get "a" v)) "number")
              || negb (String.eqb (typeof (get "b" v)) "number"));
      [split; [reflexivity | exact I]|].
    destruct (strict_eq (get "operacion" v) (VString "suma"));
      [rewrite bind_ret; split; [reflexivity | exact I]|].
    destruct (strict_eq (get "operacion" v) (VString "resta"));
      [rewrite bind_ret; split; [reflexivity | exact I]|].
    destruct (strict_eq (get "operacion" v) (VString "multiplicacion"));
      [rewrite bind_ret; split; [reflexivity | exact I]|].
    destruct (strict_eq (get "operacion" v) (VString "division"));
      [|split; [reflexivity | exact I]].
    destruct (JS.strict_eq_number (as_number (get "b" v)) JS.zero);
      [split; [reflexivity | exact I] | rewrite bind_ret; split; [reflexivity | exact I]]. }
  unfold Tools.manejarCalcular, Tools.destructure.
  destruct args; try (split; [reflexivity | exact I]); rewrite bind_ret; apply H.
Qed.

Lemma manejarFechaActual_plain (eng : Engine) (args : value) :
  plain_outcome (Tools.manejarFechaActual eng args).
Proof.
  unfold Tools.manejarFechaActual, Tools.destructure.
  destruct args; try (split; [reflexivity | exact I]); rewrite bind_ret;
    split; try reflexivity; exact I.
Qed.

Lemma legacy_wrap (rt : Runtime) (m : M ToolResult) :
  plain_outcome m ->
  (try m catch LegacyServer.callTool_catch rt) =
    match outcome m with
    | inr t => ret t
    | inl error =>
        throw (McpError InvalidParams ("MCP error -32602: " +:+ message_of rt error))
    end.
Proof.
  destruct m as [l [[errors | code message | message] | t]]; intros [Hl Ho];
    cbn in Hl, Ho; subst l; try contradiction; reflexivity.
Qed.

(** X15. What leaves the server of the single-file version is a result
    or an McpError. A name that is not one of the three fails with
    MethodNotFound and a message that names it, without the list of
    tools. Every error a handler throws becomes InvalidParams, and its
    message carries the [MCP error -32602: ] prefix twice, once written by
    the handler of the request and once added by the McpError
    constructor. *)
Theorem X15_legacy_server_outcomes (rt : Runtime) (eng : Engine)
    (request : Server.CallToolRequest) :
  let toolName := Server.name (Server.params request) in
  let run := LegacyServer.callTool rt eng request in
  calls run = []
  /\ match outcome run with
     | inr _ => registered toolName
     | inl (ThrownMcpError MethodNotFound message) =>
         ~ registered toolName
         /\ message = "MCP error -32601: Herramienta desconocida: " +:+ toolName
     | inl (ThrownMcpError InvalidParams message) =>
         registered toolName
         /\ exists reason, message = "MCP error -32602: MCP error -32602: " +:+ reason
     | inl _ => False
     end.
Proof.
  intros toolName run. subst run. unfold LegacyServer.callTool. fold toolName.
  set (args := from_option VObject VUndefined (Server.arguments (Server.params request))).
  assert (forall m, plain_outcome m -> registered toolName ->
            let run := try m catch LegacyServer.callTool_catch rt in
            calls run = []
            /\ match outcome run with
               | inr _ => registered toolName
               | inl (ThrownMcpError MethodNotFound message) =>
                   ~ registered toolName
                   /\ message = "MCP error -32601: Herramienta desconocida: " +:+ toolName
               | inl (ThrownMcpError InvalidParams message) =>
                   registered toolName
                   /\ exists reason,
                        message = "MCP error -32602: MCP error -32602: " +:+ reason
               | inl _ => False
               end) as H.
  { intros m Hm Hr. cbv zeta. rewrite (legacy_wrap rt m Hm).
    destruct (outcome m) as [error | t]; (split; [reflexivity|]); [|exact Hr].
    split; [exact Hr|]. eexists. reflexivity. }
  destruct (String.eqb_spec toolName "saludo") as [E | N1];
    [apply H; [apply manejarSaludo_plain | rewrite E; cbn; auto]|].
  destruct (String.eqb_spec toolName "calcular") as [E | N2];
    [apply H; [apply manejarCalcular_plain | rewrite E; cbn; auto]|].
  destruct (String.eqb_spec toolName "fecha_actual") as [E | N3];
    [apply H; [apply manejarFechaActual_plain | rewrite E; cbn; auto]|].
  split; [reflexivity|]. cbn. split; [|reflexivity].
  intros [E | [E | [E | []]]]; congruence.
Qed.



(** X17. The single-file handler guards the division itself: with
    [operacion = "division"] and a divisor equal to zero it throws
    [No se puede dividir por cero], whatever number the dividend is, and
    its server reports it as InvalidParams. Operands that are not numbers
    are reported first, before the operation is looked at. *)
Theorem X17_legacy_zero_guard (rt : Runtime) (eng : Engine) (o : gmap string value)
    (a b : JS.number) :
  get "a" (VObject o) = VNumber a -> get "b" (VObject o) = VNumber b ->
  get "operacion" (VObject o) = VString "division" ->
  JS.strict_eq_number b JS.zero = true ->
  Tools.manejarCalcular eng (VObject o) = throw (ThrownError "No se puede dividir por cero")
  /\ LegacyServer.callTool rt eng
       {| Server.params := {| Server.name := "calcular"; Server.arguments := Some o |} |} =
     throw (McpError InvalidParams "MCP error -32602: No se puede dividir por cero").
Proof.
  intros Ha Hb Ho Hz.
  assert (Tools.manejarCalcular eng (VObject o)
          = throw (ThrownError "No se puede dividir por cero")) as E.
  { unfold Tools.manejarCalcular, Tools.destructure. rewrite bind_ret.
    rewrite Ha, Hb, Ho. cbn [typeof String.eqb Ascii.eqb Bool.eqb negb orb as_number strict_eq].
    rewrite Hz. reflexivity. }
  split; [exact E|].
  unfold LegacyServer.callTool.
  cbn [Server.params Server.name Server.arguments from_option String.eqb Ascii.eqb Bool.eqb].
  rewrite E. reflexivity.
Qed.

Lemma X17_witness :
  LegacyServer.callTool sample_runtime sample_engine
    {| Server.params :=
         {| Server.name := "calcular";
            Server.arguments :=
              Some (list_to_map [("operacion", VString "division");
                                 ("a", VNumber (JS.ofZ 5)); ("b", VNumber JS.zero)]) |} |} =
    throw (McpError InvalidParams "MCP error -32602: No se puede dividir por cero").
Proof.
  refine (proj2 (X17_legacy_zero_guard sample_runtime sample_engine
            (list_to_map [("operacion", VString "division");
                          ("a", VNumber (JS.ofZ 5)); ("b", VNumber JS.zero)])
            (JS.ofZ 5) JS.zero _ _ _ _)); vm_compute; reflexivity.
Defined.

(** X18. The single-file greeting accepts exactly a [nombre] that is a
    string and is not empty, of any length, and throws a plain Error
    otherwise. There is one pair of templates, whatever the hour, and the
    formal one is chosen by the truthiness of [formal]: every string that
    is not empty selects it, ["false"] included. *)
Theorem X18_legacy_greeting (eng : Engine) (o : gmap string value) :
  let args := VObject o in
  (forall s, get "nombre" args = VString s -> s <> "" ->
     Tools.manejarSaludo eng args =
       ret (text_result
              (if ToBoolean (get_default "formal" (VBool false) args)
               then "Buenos días, Sr./Sra. " +:+ s +:+ ". Es un placer saludarle."
               else "¡Hola " +:+ s +:+ "! ¿Cómo estás?")))
  /\ ((forall s, get "nombre" args = VString s -> s = "") ->
        Tools.manejarSaludo eng args =
          throw (ThrownError "El nombre es requerido y debe ser una cadena"))
  /\ (forall s, get "formal" args = VString s -> s <> "" ->
        ToBoolean (get_default "formal" (VBool false) args) = true).
Proof.
  intros args. subst args. split; [|split].
  - intros s Hs Hne. unfold Tools.manejarSaludo, Tools.destructure. rewrite bind_ret.
    rewrite Hs. cbn [ToBoolean typeof as_string].
    destruct (String.eqb_spec s "") as [-> | _]; [contradiction|]. reflexivity.
  - intros Hn. unfold Tools.manejarSaludo, Tools.destructure. rewrite bind_ret.
    destruct (get "nombre" (VObject o)) as [ | | b | x | s | l | o']; try reflexivity.
    + destruct b; reflexivity.
    + destruct x; reflexivity.
    + rewrite (Hn s eq_refl). reflexivity.
  - intros s Hs Hne. unfold get_default. rewrite Hs. cbn [ToBoolean].
    destruct (String.eqb_spec s "") as [-> | _]; [contradiction | reflexivity].
Qed.

Lemma X18_witness :
  Tools.manejarSaludo sample_engine
    (obj [("nombre", VString "Ana"); ("formal", VString "false")]) =
    ret (text_result "Buenos días, Sr./Sra. Ana. Es un placer saludarle.").
Proof.
  unfold obj. etransitivity.
  - apply (proj1 (X18_legacy_greeting sample_engine
                    (list_to_map [("nombre", VString "Ana"); ("formal", VString "false")]))
             "Ana").
    + vm_compute. reflexivity.
    + discriminate.
  - vm_compute. reflexivity.
Defined.

Lemma replace_after_minus (x : string) :
  JS.replace_dot_zeros (String "-" x) = String "-" (JS.replace_dot_zeros x).
Proof.
  cbn [JS.replace_dot_zeros].
  assert (JS.match_dot_zeros (String "-" x) = false) as ->; [|reflexivity].
  destruct x; reflexivity.
Qed.

(** X19. The sign of a result is printed apart from its magnitude: a
    negative result that is not zero prints as a minus sign followed by
    what its absolute value prints, whatever its size, while negative
    zero prints as [0], without a sign. *)
Theorem X19_sign_is_printed_apart (m : positive) (e : Z) :
  CalculatorUseCase.formatear (S754_finite true m e)
    = "-" +:+ CalculatorUseCase.formatear (S754_finite false m e)
  /\ CalculatorUseCase.formatear (S754_zero true) = "0".
Proof.
  split; [|reflexivity].
  unfold CalculatorUseCase.formatear.
  change (JS.Number_isInteger (S754_finite true m e))
    with (JS.Number_isInteger (S754_finite false m e)).
  destruct (JS.Number_isInteger (S754_finite false m e)); [reflexivity|].
  unfold JS.Number_toFixed6. destruct (JS.magnitude m e) as [num den].
  change ("-" +:+ ?x) with (String "-" x).
  change ("" +:+ ?x) with x.
  apply replace_after_minus.
Qed.

(** * Decimal numerals *)

Section Numerals.
Import JS.

Lemma string_of_revapp (d d' : Decimal.uint) :
  NilEmpty.string_of_uint (Decimal.revapp d d')
  = NilEmpty.string_of_uint (Decimal.revapp d Decimal.Nil) +:+ NilEmpty.string_of_uint d'.
Proof.
  revert d'. induction d; intros d'; cbn [Decimal.revapp]; [reflexivity|..];
    rewrite IHd; symmetry; rewrite IHd, append_assoc; reflexivity.
Qed.

Lemma string_of_pos (p : positive) :
  string_of_Z (Zpos p) = NilEmpty.string_of_uint (Pos.to_uint p).
Proof.
  unfold string_of_Z, NilZero.string_of_uint. cbn [Z.to_N N.to_uint].
  pose proof (DecimalPos.Unsigned.to_uint_nonnil p) as H.
  destruct (Pos.to_uint p); [contradiction | reflexivity..].
Qed.

Lemma string_of_tenfold (z : Z) : 1 <= z -> string_of_Z (10 * z) = string_of_Z z +:+ "0".
Proof.
  intros H. destruct z as [ | p | p]; try lia.
  change (10 * Z.pos p) with (Z.pos (10 * p)). rewrite !string_of_pos.
  unfold Pos.to_uint.
  pose proof (DecimalPos.Unsigned.to_ldec_tenfold p) as T.
  change (Pos.to_little_uint (10 * p) = Decimal.D0 (Pos.to_little_uint p)) in T.
  rewrite T. unfold Decimal.rev. cbn [Decimal.revapp].
  apply string_of_revapp.
Qed.

Lemma zeros_snoc (n : nat) : zeros (S n) = zeros n +:+ "0".
Proof.
  induction n as [|n IH]; [reflexivity|].
  change (String "0" (zeros (S n)) = String "0" (zeros n +:+ "0")). now rewrite IH.
Qed.

Lemma string_of_power (s : Z) (j : nat) :
  1 <= s -> string_of_Z (s * 10 ^ Z.of_nat j) = string_of_Z s +:+ zeros j.
Proof.
  intros H. induction j as [|j IH].
  - rewrite Z.mul_1_r. symmetry. apply append_nil_r.
  - rewrite Nat2Z.inj_succ, Z.pow_succ_r by lia.
    replace (s * (10 * 10 ^ Z.of_nat j)) with (10 * (s * 10 ^ Z.of_nat j)) by ring.
    rewrite string_of_tenfold by nia. rewrite IH, zeros_snoc, append_assoc. reflexivity.
Qed.
End Numerals.

(** * Printing a double that holds an integer exactly *)

Section ExactInteger.
Import JS.
Variables (m : positive) (e V : Z).
Hypothesis He : e <= 0.
Hypothesis HV : Zpos m = V * 2 ^ (- e).
Hypothesis Hlt : V < 10 ^ 21.

Lemma exact_magnitude :
  fst (magnitude m e) = V * snd (magnitude m e) /\ 0 < snd (magnitude m e).
Proof.
  unfold magnitude. destruct (Z.leb_spec 0 e) as [H | H]; cbn [fst snd].
  - assert (e = 0) as -> by lia. change (- 0) with 0 in HV. change (2 ^ 0) with 1 in *. lia.
  - split; [exact HV | apply Z.pow_pos_nonneg; lia].
Qed.

Lemma exact_positive : 1 <= V.
Proof.
  assert (0 < 2 ^ (- e)) by (apply Z.pow_pos_nonneg; lia). nia.
Qed.

Lemma exact_is_integer : fst (magnitude m e) mod snd (magnitude m e) = 0.
Proof. destruct exact_magnitude as [-> H]. apply Z.mod_mul. lia. Qed.

Lemma exact_below : fst (magnitude m e) < 10 ^ 21 * snd (magnitude m e).
Proof. destruct exact_magnitude as [-> H]. nia. Qed.

Lemma exact_quotient : fst (magnitude m e) / snd (magnitude m e) = V.
Proof. destruct exact_magnitude as [-> H]. apply Z.div_mul. lia. Qed.

Lemma exact_units : unit_num e = 1 /\ unit_den e = 2 ^ (2 - e) /\ 4 <= unit_den e
                    /\ m_val m = V * unit_den e.
Proof.
  pose proof (units_integer m e exact_is_integer) as U. rewrite exact_quotient in U.
  unfold unit_num, unit_den in *. destruct (Z.leb_spec 0 (e - 2)); [lia|].
  split; [reflexivity|]. split; [reflexivity|]. split; [|lia].
  change 4 with (2 ^ 2). apply Z.pow_le_mono_r; lia.
Qed.

Lemma in_interval_weak (w a' : Z) :
  in_interval m e w a' = true -> m_lo m e * a' <= w <= m_hi m * a'.
Proof.
  unfold in_interval. destruct (Z.even (Z.pos m)); intros H;
    apply andb_true_iff in H as [H1 H2].
  - apply Z.leb_le in H1. apply Z.leb_le in H2. lia.
  - apply Z.ltb_lt in H1. apply Z.ltb_lt in H2. lia.
Qed.

Lemma candidate_exact (k : Z) (d : digits) :
  1 <= k <= n_val m e -> candidate m e k = Some d -> render d = string_of_Z V.
Proof.
  intros Hk. pose proof (n_val_bounds m e exact_is_integer exact_below) as Hn.
  destruct exact_units as (Un & Ud & Ud4 & Um). pose proof exact_positive as HV1.
  unfold candidate. cbv zeta.
  replace (Z.max (- (n_val m e - k)) 0) with 0 by lia.
  replace (Z.max (n_val m e - k) 0) with (n_val m e - k) by lia.
  rewrite Un. change (1 * 10 ^ 0) with 1. rewrite Z.mul_1_r.
  set (p := n_val m e - k). set (s := round_half_even (m_val m) (unit_den e * 10 ^ p)).
  destruct (in_interval m e (s * (unit_den e * 10 ^ p)) 1) eqn:I; [|discriminate].
  apply in_interval_weak in I.
  assert (m_val m - 2 <= m_lo m e) as Hlo by (unfold m_lo; destruct (half_gap_below m e); lia).
  unfold m_hi in I.
  assert (0 < 10 ^ p) as Hp by (apply Z.pow_pos_nonneg; lia).
  assert (s * 10 ^ p = V) as Hs by nia.
  assert (1 <= s) as Hs1 by nia.
  destruct (Z.eqb_spec s (10 ^ k)) as [E | E]; intros [= <-]; unfold render; cbn [dg_s dg_k dg_n].
  - assert (V = 10 ^ n_val m e) as HVn.
    { rewrite <- Hs, E, <- Z.pow_add_r by lia. f_equal. lia. }
    assert (n_val m e < 21) as Hn21.
    { destruct (Z.eq_dec (n_val m e) 21) as [E21 | ]; [|lia]. rewrite E21 in HVn. lia. }
    destruct (Z.leb_spec 1 (n_val m e + 1)); [|lia].
    destruct (Z.leb_spec (n_val m e + 1) 21); [|lia]. cbn [andb].
    rewrite <- string_of_power by lia. f_equal. rewrite Z2Nat.id by lia.
    rewrite HVn. replace (n_val m e + 1 - 1) with (n_val m e) by lia. lia.
  - destruct (Z.leb_spec k (n_val m e)); [|lia].
    destruct (Z.leb_spec (n_val m e) 21); [|lia]. cbn [andb].
    rewrite <- string_of_power by lia. f_equal. rewrite Z2Nat.id by lia. exact Hs.
Qed.

Lemma search_exact (fuel : nat) : forall k,
  1 <= k <= n_val m e -> n_val m e - k < Z.of_nat fuel ->
  render (search m e fuel k) = string_of_Z V.
Proof.
  induction fuel as [|f IH]; intros k Hk Hf; [lia|].
  cbn [search]. destruct (candidate m e k) as [d|] eqn:E.
  - exact (candidate_exact k d Hk E).
  - assert (k <> n_val m e) as Hne.
    { intros ->. exact (candidate_at_n_val m e exact_is_integer E). }
    apply IH; lia.
Qed.

Lemma toString_exact (s : bool) :
  Number_toString (S754_finite s m e) = (if s then "-" else "") +:+ string_of_Z V.
Proof.
  cbn [Number_toString]. f_equal. unfold shortest.
  pose proof (n_val_bounds m e exact_is_integer exact_below).
  apply search_exact; lia.
Qed.

Lemma formatear_exact (s : bool) :
  CalculatorUseCase.formatear (S754_finite s m e)
  = (if s then "-" else "") +:+ string_of_Z V.
Proof.
  unfold CalculatorUseCase.formatear. cbn [Number_isInteger].
  pose proof exact_is_integer as Hi. destruct (magnitude m e) as [num den]. cbn [fst snd] in Hi.
  rewrite Hi. cbn [Z.eqb]. apply toString_exact.
Qed.
End ExactInteger.

(** * Arithmetic on doubles that hold integers *)

Section BinaryDigits.

Lemma digits2_bounds (p : positive) :
  2 ^ (Z.pos (digits2_pos p) - 1) <= Z.pos p < 2 ^ Z.pos (digits2_pos p).
Proof.
  induction p as [p IH | p IH | ]; cbn [digits2_pos]; [| |cbn; lia];
    rewrite Pos2Z.inj_succ;
    replace (Z.succ (Z.pos (digits2_pos p)) - 1) with (Z.succ (Z.pos (digits2_pos p) - 1)) by lia;
    rewrite !Z.pow_succ_r by lia; lia.
Qed.

Lemma Zdigits2_unique (z d : Z) : 2 ^ (d - 1) <= z < 2 ^ d -> 1 <= d -> Zdigits2 z = d.
Proof.
  intros [Hlo Hhi] Hd.
  assert (0 < 2 ^ (d - 1)) by (apply Z.pow_pos_nonneg; lia).
  destruct z as [ | p | p]; try lia. cbn [Zdigits2].
  pose proof (digits2_bounds p) as [Plo Phi].
  set (d' := Z.pos (digits2_pos p)) in *.
  destruct (Z.lt_trichotomy d' d) as [L | [E | L]]; [|exact E|].
  - assert (2 ^ d' <= 2 ^ (d - 1)) by (apply Z.pow_le_mono_r; lia). lia.
  - assert (2 ^ d <= 2 ^ (d' - 1)) by (apply Z.pow_le_mono_r; lia). lia.
Qed.

Lemma Zdigits2_bounds (z : Z) : 1 <= z -> 2 ^ (Zdigits2 z - 1) <= z < 2 ^ Zdigits2 z.
Proof. destruct z as [ | p | p]; try lia. intros _. apply digits2_bounds. Qed.

Lemma Zdigits2_pos (z : Z) : 1 <= z -> 1 <= Zdigits2 z.
Proof. destruct z as [ | p | p]; try lia. intros _. cbn [Zdigits2]. lia. Qed.

Lemma Zdigits2_shift (z k : Z) : 1 <= z -> 0 <= k -> Zdigits2 (z * 2 ^ k) = Zdigits2 z + k.
Proof.
  intros Hz Hk. pose proof (Zdigits2_bounds z Hz) as [Hlo Hhi].
  pose proof (Zdigits2_pos z Hz).
  assert (0 < 2 ^ k) by (apply Z.pow_pos_nonneg; lia).
  apply Zdigits2_unique; [|lia].
  replace (Zdigits2 z + k - 1) with (Zdigits2 z - 1 + k) by lia.
  rewrite !Z.pow_add_r by lia. nia.
Qed.

Lemma Zdigits2_safe (z : Z) : 1 <= z < 2 ^ 53 -> 1 <= Zdigits2 z <= 53.
Proof.
  intros [Hz Hlt]. pose proof (Zdigits2_bounds z Hz) as [Hlo _].
  pose proof (Zdigits2_pos z Hz). split; [lia|].
  destruct (Z.le_gt_cases (Zdigits2 z) 53) as [L | L]; [exact L|].
  assert (2 ^ 53 <= 2 ^ (Zdigits2 z - 1)) by (apply Z.pow_le_mono_r; lia). lia.
Qed.

Lemma Zdigits2_mul (x y : Z) :
  1 <= x -> 1 <= y -> Zdigits2 x + Zdigits2 y - 1 <= Zdigits2 (x * y).
Proof.
  intros Hx Hy.
  pose proof (Zdigits2_bounds x Hx) as [Xlo _]. pose proof (Zdigits2_bounds y Hy) as [Ylo _].
  pose proof (Zdigits2_pos x Hx). pose proof (Zdigits2_pos y Hy).
  pose proof (Zdigits2_bounds (x * y) ltac:(nia)) as [_ Phi].
  destruct (Z.le_gt_cases (Zdigits2 x + Zdigits2 y - 1) (Zdigits2 (x * y))) as [L | L];
    [exact L|].
  assert (0 <= Zdigits2 (x * y)) by (pose proof (Zdigits2_pos (x * y) ltac:(nia)); lia).
  assert (2 ^ Zdigits2 (x * y) <= 2 ^ (Zdigits2 x - 1 + (Zdigits2 y - 1)))
    by (apply Z.pow_le_mono_r; lia).
  rewrite Z.pow_add_r in * by lia.
  assert (0 < 2 ^ (Zdigits2 x - 1)) by (apply Z.pow_pos_nonneg; lia).
  assert (0 < 2 ^ (Zdigits2 y - 1)) by (apply Z.pow_pos_nonneg; lia).
  nia.
Qed.

Lemma iter_xO (p n : positive) : Z.pos (Pos.iter xO p n) = Z.pos p * 2 ^ Z.pos n.
Proof.
  induction n as [ | n IH] using Pos.peano_ind.
  - cbn [Pos.iter]. lia.
  - rewrite Pos.iter_succ, Pos2Z.inj_xO, IH, Pos2Z.inj_succ, Z.pow_succ_r by lia. ring.
Qed.

Lemma iter_pos_iter {A} (f : A -> A) (n : positive) (x : A) :
  SpecFloat.iter_pos f n x = Pos.iter f x n.
Proof.
  revert x. induction n as [n IH | n IH | ]; intros x; cbn [SpecFloat.iter_pos Pos.iter].
  - rewrite !IH, <- !Pos.iter_swap. reflexivity.
  - rewrite !IH. reflexivity.
  - reflexivity.
Qed.

Lemma shr_1_even (z : Z) :
  1 <= z ->
  shr_1 {| shr_m := 2 * z; shr_r := false; shr_s := false |}
  = {| shr_m := z; shr_r := false; shr_s := false |}.
Proof. destruct z as [ | p | p]; try lia. reflexivity. Qed.

Lemma iter_shr_1_exact (n : positive) (z : Z) :
  1 <= z ->
  SpecFloat.iter_pos shr_1 n {| shr_m := z * 2 ^ Z.pos n; shr_r := false; shr_s := false |}
  = {| shr_m := z; shr_r := false; shr_s := false |}.
Proof.
  rewrite iter_pos_iter. revert z.
  induction n as [ | n IH] using Pos.peano_ind; intros z Hz.
  - cbn [Pos.iter]. replace (z * 2 ^ 1) with (2 * z) by lia. apply shr_1_even, Hz.
  - rewrite Pos.iter_succ, Pos2Z.inj_succ, Z.pow_succ_r by lia.
    replace (z * (2 * 2 ^ Z.pos n)) with (2 * z * 2 ^ Z.pos n) by ring.
    rewrite IH by lia. apply shr_1_even, Hz.
Qed.
End BinaryDigits.

Section ExactRounding.
Variables (V : Z).
Hypothesis HV : 1 <= V < 2 ^ 53.

Let c := Zdigits2 V - 53.

Lemma canonical_exponent : -52 <= c <= 0.
Proof. pose proof (Zdigits2_safe V HV). unfold c. lia. Qed.

Lemma canonical_mantissa_digits : Zdigits2 (V * 2 ^ (- c)) = 53.
Proof.
  pose proof canonical_exponent. rewrite Zdigits2_shift by lia. unfold c. lia.
Qed.

Lemma fexp_canonical : fexp JS.prec JS.emax (Zdigits2 V) = c.
Proof.
  pose proof canonical_exponent. unfold fexp, emin, JS.prec, JS.emax, c in *. lia.
Qed.

Lemma round_aux_exact (s : bool) (mz : positive) (e : Z) :
  e <= c -> Z.pos mz = V * 2 ^ (- e) ->
  binary_round_aux JS.prec JS.emax s (Z.pos mz) e loc_Exact = canonical s V.
Proof.
  intros He Hm. pose proof canonical_exponent as Hc.
  assert (0 < 2 ^ (- c)) as Hpc by (apply Z.pow_pos_nonneg; lia).
  assert (shr_fexp JS.prec JS.emax (Z.pos mz) e loc_Exact
          = ({| shr_m := V * 2 ^ (- c); shr_r := false; shr_s := false |}, c)) as E1.
  { unfold shr_fexp. rewrite Hm, Zdigits2_shift by lia.
    replace (Zdigits2 V + - e + e) with (Zdigits2 V) by lia. rewrite fexp_canonical.
    cbn [shr_record_of_loc]. unfold shr.
    destruct (c - e) as [ | n | n] eqn:En; [| |lia].
    - assert (e = c) as -> by lia. reflexivity.
    - f_equal; [|lia].
      replace (V * 2 ^ (- e)) with (V * 2 ^ (- c) * 2 ^ Z.pos n).
      + apply iter_shr_1_exact. nia.
      + rewrite <- Z.mul_assoc, <- Z.pow_add_r by lia. do 2 f_equal. lia. }
  assert (shr_fexp JS.prec JS.emax (V * 2 ^ (- c)) c loc_Exact
          = ({| shr_m := V * 2 ^ (- c); shr_r := false; shr_s := false |}, c)) as E2.
  { unfold shr_fexp. rewrite canonical_mantissa_digits.
    assert (fexp JS.prec JS.emax (53 + c) - c = 0) as ->.
    { unfold fexp, emin, JS.prec, JS.emax. lia. }
    reflexivity. }
  unfold binary_round_aux. rewrite E1. cbn [shr_m loc_of_shr_record round_nearest_even].
  rewrite E2. cbn [shr_m]. unfold canonical. fold c.
  replace (53 - Zdigits2 V) with (- c) by (unfold c; lia).
  destruct (V * 2 ^ (- c)) as [ | p | p] eqn:Ep; try nia.
  destruct (Z.leb_spec c (JS.emax - JS.prec)) as [L | L]; [reflexivity|].
  unfold JS.emax, JS.prec in L. lia.
Qed.

Lemma round_exact (s : bool) (mz : positive) (e : Z) :
  e <= 0 -> Z.pos mz = V * 2 ^ (- e) ->
  binary_round JS.prec JS.emax s mz e = canonical s V.
Proof.
  intros He Hm. pose proof canonical_exponent as Hc. unfold binary_round.
  assert (fexp JS.prec JS.emax (Z.pos (digits2_pos mz) + e) = c) as ->.
  { change (Z.pos (digits2_pos mz)) with (Zdigits2 (Z.pos mz)).
    rewrite Hm, Zdigits2_shift by lia.
    replace (Zdigits2 V + - e + e) with (Zdigits2 V) by lia. apply fexp_canonical. }
  unfold shl_align. destruct (c - e) as [ | n | n] eqn:En.
  - apply round_aux_exact; [lia | exact Hm].
  - apply round_aux_exact; [lia | exact Hm].
  - apply round_aux_exact; [lia|].
    rewrite iter_xO, Hm, <- Z.mul_assoc, <- Z.pow_add_r by lia. do 2 f_equal. lia.
Qed.
End ExactRounding.

Lemma normalize_exact (z e : Z) :
  e <= 0 -> z mod 2 ^ (- e) = 0 -> 1 <= Z.abs z / 2 ^ (- e) < 2 ^ 53 ->
  binary_normalize JS.prec JS.emax z e false
  = canonical (z <? 0) (Z.abs z / 2 ^ (- e)).
Proof.
  intros He Hmod HV.
  assert (0 < 2 ^ (- e)) as Hp by (apply Z.pow_pos_nonneg; lia).
  assert (Z.abs z = Z.abs z / 2 ^ (- e) * 2 ^ (- e)) as Hz.
  { rewrite Z.mul_comm. apply Z.div_exact; [lia|].
    destruct z as [ | p | p]; cbn [Z.abs]; try exact Hmod.
    change (Z.pos p) with (- Z.neg p). apply Z.mod_opp_l_z in Hmod; [|lia].
    cbn [Z.opp] in Hmod. exact Hmod. }
  unfold binary_normalize. destruct z as [ | p | p].
  - cbn in HV. rewrite Z.div_0_l in HV by lia. lia.
  - apply round_exact; [exact HV | exact He | exact Hz].
  - apply round_exact; [exact HV | exact He | exact Hz].
Qed.

Lemma ofZ_canonical (z : Z) :
  safe z -> JS.ofZ z = if z =? 0 then S754_zero false else canonical (z <? 0) (Z.abs z).
Proof.
  unfold safe. intros Hs. destruct (Z.eqb_spec z 0) as [-> | Hz]; [reflexivity|].
  unfold JS.ofZ. rewrite normalize_exact.
  - change (2 ^ (- 0)) with 1. rewrite Z.div_1_r. reflexivity.
  - lia.
  - change (2 ^ (- 0)) with 1. apply Z.mod_1_r.
  - change (2 ^ (- 0)) with 1. rewrite Z.div_1_r. lia.
Qed.

Lemma canonical_value (s : bool) (V : Z) :
  1 <= V < 2 ^ 53 ->
  exists m e, canonical s V = S754_finite s m e /\ e = Zdigits2 V - 53 /\ e <= 0
              /\ Z.pos m = V * 2 ^ (- e).
Proof.
  intros HV. pose proof (Zdigits2_safe V HV) as Hd.
  exists (Z.to_pos (V * 2 ^ (53 - Zdigits2 V))), (Zdigits2 V - 53).
  split; [reflexivity|]. split; [reflexivity|]. split; [lia|].
  replace (- (Zdigits2 V - 53)) with (53 - Zdigits2 V) by lia.
  assert (0 < 2 ^ (53 - Zdigits2 V)) by (apply Z.pow_pos_nonneg; lia).
  rewrite Z2Pos.id by nia. reflexivity.
Qed.

Lemma shl_align_value (m : positive) (e e' X : Z) :
  e' <= e -> e <= 0 -> Z.pos m = X * 2 ^ (- e) ->
  Z.pos (fst (shl_align m e e')) = X * 2 ^ (- e').
Proof.
  intros He' He Hm. unfold shl_align. destruct (e' - e) as [ | n | n] eqn:En; cbn [fst]; try lia.
  - assert (e' = e) as -> by lia. exact Hm.
  - rewrite iter_xO, Hm, <- Z.mul_assoc, <- Z.pow_add_r by lia. do 2 f_equal. lia.
Qed.

Lemma normalize_integer (W e : Z) :
  e <= 0 -> Z.abs W < 2 ^ 53 ->
  binary_normalize JS.prec JS.emax (W * 2 ^ (- e)) e false
  = if W =? 0 then S754_zero false else canonical (W <? 0) (Z.abs W).
Proof.
  intros He HW. assert (0 < 2 ^ (- e)) as Hp by (apply Z.pow_pos_nonneg; lia).
  destruct (Z.eqb_spec W 0) as [-> | Hn]; [reflexivity|].
  assert (Z.abs (W * 2 ^ (- e)) / 2 ^ (- e) = Z.abs W) as Ha.
  { rewrite Z.abs_mul, (Z.abs_eq (2 ^ (- e))) by lia. apply Z.div_mul. lia. }
  rewrite normalize_exact.
  - rewrite Ha. f_equal. destruct (Z.ltb_spec (W * 2 ^ (- e)) 0), (Z.ltb_spec W 0);
      try reflexivity; nia.
  - exact He.
  - apply Z.mod_mul. lia.
  - rewrite Ha. lia.
Qed.

Section IntegerArithmetic.
Variables (sx sy : bool) (mx my : positive) (ex ey X Y : Z).
Hypothesis Hex : ex <= 0.
Hypothesis Hey : ey <= 0.
Hypothesis Hmx : Z.pos mx = X * 2 ^ (- ex).
Hypothesis Hmy : Z.pos my = Y * 2 ^ (- ey).

Lemma add_integers :
  let W := cond_Zopp sx X + cond_Zopp sy Y in
  Z.abs W < 2 ^ 53 ->
  JS.add (S754_finite sx mx ex) (S754_finite sy my ey)
  = if W =? 0 then S754_zero false else canonical (W <? 0) (Z.abs W).
Proof.
  intros W HW. unfold JS.add, SFadd. cbv zeta.
  rewrite (shl_align_value mx ex (Z.min ex ey) X) by (lia || exact Hmx).
  rewrite (shl_align_value my ey (Z.min ex ey) Y) by (lia || exact Hmy).
  replace (cond_Zopp sx (X * 2 ^ (- Z.min ex ey)) + cond_Zopp sy (Y * 2 ^ (- Z.min ex ey)))
    with (W * 2 ^ (- Z.min ex ey)) by (subst W; destruct sx, sy; cbn [cond_Zopp]; ring).
  apply normalize_integer; [lia | exact HW].
Qed.

Lemma sub_integers :
  let W := cond_Zopp sx X - cond_Zopp sy Y in
  Z.abs W < 2 ^ 53 ->
  JS.sub (S754_finite sx mx ex) (S754_finite sy my ey)
  = if W =? 0 then S754_zero false else canonical (W <? 0) (Z.abs W).
Proof.
  intros W HW. unfold JS.sub, SFsub. cbv zeta.
  rewrite (shl_align_value mx ex (Z.min ex ey) X) by (lia || exact Hmx).
  rewrite (shl_align_value my ey (Z.min ex ey) Y) by (lia || exact Hmy).
  replace (cond_Zopp sx (X * 2 ^ (- Z.min ex ey)) - cond_Zopp sy (Y * 2 ^ (- Z.min ex ey)))
    with (W * 2 ^ (- Z.min ex ey)) by (subst W; destruct sx, sy; cbn [cond_Zopp]; ring).
  apply normalize_integer; [lia | exact HW].
Qed.

Lemma mul_integers :
  ex = Zdigits2 X - 53 -> ey = Zdigits2 Y - 53 -> X * Y < 2 ^ 53 ->
  JS.mul (S754_finite sx mx ex) (S754_finite sy my ey) = canonical (xorb sx sy) (X * Y).
Proof.
  intros Cx Cy Hlt.
  assert (0 < 2 ^ (- ex)) by (apply Z.pow_pos_nonneg; lia).
  assert (0 < 2 ^ (- ey)) by (apply Z.pow_pos_nonneg; lia).
  assert (1 <= X) by nia. assert (1 <= Y) by nia.
  unfold JS.mul, SFmul. apply round_aux_exact.
  - nia.
  - pose proof (Zdigits2_mul X Y ltac:(lia) ltac:(lia)). lia.
  - rewrite Pos2Z.inj_mul, Hmx, Hmy.
    replace (- (ex + ey)) with (- ex + - ey) by lia. rewrite Z.pow_add_r by lia. ring.
Qed.
End IntegerArithmetic.

Lemma formatear_canonical (s : bool) (V : Z) :
  1 <= V < 2 ^ 53 ->
  CalculatorUseCase.formatear (canonical s V) = (if s then "-" else "") +:+ JS.string_of_Z V
  /\ JS.Number_toString (canonical s V) = (if s then "-" else "") +:+ JS.string_of_Z V.
Proof.
  intros HV. destruct (canonical_value s V HV) as (m & e & -> & _ & He & Hm).
  assert (V < 10 ^ 21) as Hlt by lia.
  split; [apply (formatear_exact m e V He Hm Hlt) | apply (toString_exact m e V He Hm Hlt)].
Qed.

Lemma formatear_integer_value (W : Z) (r : JS.number) :
  Z.abs W < 2 ^ 53 ->
  r = (if W =? 0 then S754_zero false else canonical (W <? 0) (Z.abs W)) ->
  CalculatorUseCase.formatear r = decimal W /\ JS.Number_toString r = decimal W.
Proof.
  intros HW ->. unfold decimal. destruct (Z.eqb_spec W 0) as [-> | Hn]; [split; reflexivity|].
  apply formatear_canonical. lia.
Qed.

Lemma Zdigits2_mul_upper (x y : Z) :
  1 <= x -> 1 <= y -> Zdigits2 (x * y) <= Zdigits2 x + Zdigits2 y.
Proof.
  intros Hx Hy.
  pose proof (Zdigits2_bounds x Hx) as [_ Xhi]. pose proof (Zdigits2_bounds y Hy) as [_ Yhi].
  pose proof (Zdigits2_pos x Hx). pose proof (Zdigits2_pos y Hy).
  pose proof (Zdigits2_bounds (x * y) ltac:(nia)) as [Plo _].
  pose proof (Zdigits2_pos (x * y) ltac:(nia)).
  destruct (Z.le_gt_cases (Zdigits2 (x * y)) (Zdigits2 x + Zdigits2 y)) as [L | L];
    [exact L|].
  assert (2 ^ (Zdigits2 x + Zdigits2 y) <= 2 ^ (Zdigits2 (x * y) - 1))
    by (apply Z.pow_le_mono_r; lia).
  rewrite Z.pow_add_r in * by lia.
  assert (0 < 2 ^ Zdigits2 x) by (apply Z.pow_pos_nonneg; lia).
  assert (0 < 2 ^ Zdigits2 y) by (apply Z.pow_pos_nonneg; lia).
  nia.
Qed.

Section IntegerDivision.
Variables (sx sy : bool) (mx my : positive) (ex ey Q Y : Z).
Hypothesis HQ : 1 <= Q < 2 ^ 53.
Hypothesis HY : 1 <= Y < 2 ^ 53.
Hypothesis HX : Q * Y < 2 ^ 53.
Hypothesis Hex : ex = Zdigits2 (Q * Y) - 53.
Hypothesis Hey : ey = Zdigits2 Y - 53.
Hypothesis Hmx : Z.pos mx = Q * Y * 2 ^ (- ex).
Hypothesis Hmy : Z.pos my = Y * 2 ^ (- ey).

Lemma div_integers :
  JS.div (S754_finite sx mx ex) (S754_finite sy my ey) = canonical (xorb sx sy) Q.
Proof.
  pose proof (Zdigits2_safe (Q * Y) ltac:(nia)) as Dx.
  pose proof (Zdigits2_safe Y HY) as Dy.
  pose proof (Zdigits2_safe Q HQ) as Dq.
  pose proof (Zdigits2_mul_upper Q Y ltac:(lia) ltac:(lia)) as Dup.
  assert (0 < 2 ^ (- ey)) as Pey by (apply Z.pow_pos_nonneg; lia).
  set (e' := ex - ey - 53).
  assert (SFdiv_core_binary JS.prec JS.emax (Z.pos mx) ex (Z.pos my) ey
          = (Q * 2 ^ (- e'), e', loc_Exact)) as E.
  { unfold SFdiv_core_binary.
    assert (Zdigits2 (Z.pos mx) = 53) as ->.
    { rewrite Hmx, Zdigits2_shift by lia. lia. }
    assert (Zdigits2 (Z.pos my) = 53) as ->.
    { rewrite Hmy, Zdigits2_shift by lia. lia. }
    assert (Z.min (fexp JS.prec JS.emax (53 + ex - (53 + ey))) (ex - ey) = e') as ->.
    { unfold fexp, emin, JS.prec, JS.emax, e'. lia. }
    assert (ex - ey - e' = 53) as -> by (unfold e'; lia).
    rewrite Z.shiftl_mul_pow2 by lia.
    assert (Z.pos mx * 2 ^ 53 = Z.pos my * (Q * 2 ^ (- e')) + 0) as Hdiv.
    { rewrite Hmx, Hmy. unfold e'.
      replace (- (ex - ey - 53)) with (- ex + 53 - - ey) by lia.
      assert (2 ^ (- ex + 53) = 2 ^ (- ex + 53 - - ey) * 2 ^ (- ey)) as P.
      { rewrite <- Z.pow_add_r by lia. f_equal. lia. }
      rewrite Z.pow_add_r in P by lia. nia. }
    pose proof (Z.div_eucl_eq (Z.pos mx * 2 ^ 53) (Z.pos my) ltac:(lia)) as Heq.
    pose proof (Z.mod_pos_bound (Z.pos mx * 2 ^ 53) (Z.pos my) ltac:(lia)) as Hr.
    unfold Z.modulo in Hr.
    destruct (Z.div_eucl (Z.pos mx * 2 ^ 53) (Z.pos my)) as [q r].
    assert (q = Q * 2 ^ (- e') /\ r = 0) as [-> ->].
    { assert (Z.pos my * (q - Q * 2 ^ (- e')) + r = 0) as H0 by lia.
      assert (q - Q * 2 ^ (- e') = 0) by nia. lia. }
    unfold new_location, new_location_even, new_location_odd. cbn [Z.eqb].
    destruct (Z.even (Z.pos my)); reflexivity. }
  unfold JS.div, SFdiv. rewrite E.
  assert (0 < 2 ^ (- e')) as Pe by (apply Z.pow_pos_nonneg; unfold e'; lia).
  destruct (Q * 2 ^ (- e')) as [ | p | p] eqn:Ep; try nia.
  apply round_aux_exact; [exact HQ | unfold e'; lia | exact (eq_sym Ep)].
Qed.
End IntegerDivision.

Lemma cond_Zopp_abs (z : Z) : cond_Zopp (z <? 0) (Z.abs z) = z.
Proof. destruct (Z.ltb_spec z 0); cbn [cond_Zopp]; lia. Qed.

Lemma ofZ_value (z : Z) :
  safe z -> z <> 0 ->
  exists m e, JS.ofZ z = S754_finite (z <? 0) m e /\ e = Zdigits2 (Z.abs z) - 53 /\ e <= 0
              /\ Z.pos m = Z.abs z * 2 ^ (- e).
Proof.
  intros Hs Hz. rewrite (ofZ_canonical z Hs).
  destruct (Z.eqb_spec z 0); [contradiction|].
  apply canonical_value. unfold safe in Hs. lia.
Qed.

Lemma ofZ_zero : JS.ofZ 0 = S754_zero false.
Proof. reflexivity. Qed.

Lemma add_ofZ (x y : Z) :
  safe x -> safe y -> safe (x + y) ->
  CalculatorUseCase.formatear (JS.add (JS.ofZ x) (JS.ofZ y)) = decimal (x + y).
Proof.
  intros Hx Hy Hs.
  destruct (Z.eq_dec x 0) as [-> | Nx]; [|destruct (Z.eq_dec y 0) as [-> | Ny]].
  - rewrite ofZ_zero. cbn [Z.add].
    destruct (Z.eq_dec y 0) as [-> | Ny]; [reflexivity|].
    destruct (ofZ_value y Hy Ny) as (m & e & E & _).
    assert (JS.add (S754_zero false) (JS.ofZ y) = JS.ofZ y) as -> by (rewrite E; reflexivity).
    apply (formatear_integer_value y); [exact Hy | apply ofZ_canonical, Hy].
  - rewrite ofZ_zero, Z.add_0_r.
    destruct (ofZ_value x Hx Nx) as (m & e & E & _).
    assert (JS.add (JS.ofZ x) (S754_zero false) = JS.ofZ x) as -> by (rewrite E; reflexivity).
    apply (formatear_integer_value x); [exact Hx | apply ofZ_canonical, Hx].
  - destruct (ofZ_value x Hx Nx) as (mx & ex & -> & _ & Hex & Hmx).
    destruct (ofZ_value y Hy Ny) as (my & ey & -> & _ & Hey & Hmy).
    apply (formatear_integer_value (x + y)); [exact Hs|].
    rewrite (add_integers _ _ _ _ _ _ _ _ Hex Hey Hmx Hmy); rewrite !cond_Zopp_abs;
      [reflexivity | exact Hs].
Qed.

Lemma sub_ofZ (x y : Z) :
  safe x -> safe y -> safe (x - y) ->
  CalculatorUseCase.formatear (JS.sub (JS.ofZ x) (JS.ofZ y)) = decimal (x - y).
Proof.
  intros Hx Hy Hs.
  destruct (Z.eq_dec x 0) as [-> | Nx]; [|destruct (Z.eq_dec y 0) as [-> | Ny]].
  - rewrite ofZ_zero, Z.sub_0_l.
    destruct (Z.eq_dec y 0) as [-> | Ny]; [reflexivity|].
    destruct (ofZ_value y Hy Ny) as (m & e & E & _ & He & Hm). rewrite E.
    change (JS.sub (S754_zero false) (S754_finite (y <? 0) m e))
      with (S754_finite (negb (y <? 0)) m e).
    unfold decimal. rewrite Z.abs_opp.
    replace (- y <? 0) with (negb (y <? 0))
      by (destruct (Z.ltb_spec y 0), (Z.ltb_spec (- y) 0); try reflexivity; lia).
    apply (formatear_exact m e (Z.abs y) He Hm). unfold safe in Hy. lia.
  - rewrite ofZ_zero, Z.sub_0_r.
    destruct (ofZ_value x Hx Nx) as (m & e & E & _).
    assert (JS.sub (JS.ofZ x) (S754_zero false) = JS.ofZ x) as -> by (rewrite E; reflexivity).
    apply (formatear_integer_value x); [exact Hx | apply ofZ_canonical, Hx].
  - destruct (ofZ_value x Hx Nx) as (mx & ex & -> & _ & Hex & Hmx).
    destruct (ofZ_value y Hy Ny) as (my & ey & -> & _ & Hey & Hmy).
    apply (formatear_integer_value (x - y)); [exact Hs|].
    rewrite (sub_integers _ _ _ _ _ _ _ _ Hex Hey Hmx Hmy); rewrite !cond_Zopp_abs;
      [reflexivity | exact Hs].
Qed.

Lemma mul_ofZ (x y : Z) :
  safe x -> safe y -> safe (x * y) ->
  CalculatorUseCase.formatear (JS.mul (JS.ofZ x) (JS.ofZ y)) = decimal (x * y).
Proof.
  intros Hx Hy Hs.
  destruct (Z.eq_dec x 0) as [-> | Nx]; [|destruct (Z.eq_dec y 0) as [-> | Ny]].
  - rewrite ofZ_zero. cbn [Z.mul].
    destruct (Z.eq_dec y 0) as [-> | Ny]; [reflexivity|].
    destruct (ofZ_value y Hy Ny) as (m & e & -> & _). reflexivity.
  - rewrite ofZ_zero, Z.mul_0_r.
    destruct (ofZ_value x Hx Nx) as (m & e & -> & _). reflexivity.
  - destruct (ofZ_value x Hx Nx) as (mx & ex & -> & Cx & Hex & Hmx).
    destruct (ofZ_value y Hy Ny) as (my & ey & -> & Cy & Hey & Hmy).
    unfold safe in *.
    rewrite (mul_integers _ _ _ _ _ _ _ _ Hex Hey Hmx Hmy Cx Cy)
      by (rewrite <- Z.abs_mul; exact Hs).
    unfold decimal. rewrite Z.abs_mul.
    replace (x * y <? 0) with (xorb (x <? 0) (y <? 0))
      by (destruct (Z.ltb_spec x 0), (Z.ltb_spec y 0), (Z.ltb_spec (x * y) 0);
          try reflexivity; nia).
    apply formatear_canonical. nia.
Qed.

Lemma div_ofZ (x y q : Z) :
  safe x -> safe y -> y <> 0 -> x = q * y ->
  CalculatorUseCase.formatear (JS.div (JS.ofZ x) (JS.ofZ y)) = decimal q.
Proof.
  intros Hx Hy Ny Hq.
  destruct (ofZ_value y Hy Ny) as (my & ey & Ey & Cy & Hey & Hmy).
  destruct (Z.eq_dec x 0) as [-> | Nx].
  - assert (q = 0) as -> by nia. rewrite ofZ_zero, Ey. reflexivity.
  - destruct (ofZ_value x Hx Nx) as (mx & ex & Ex & Cx & Hex & Hmx).
    unfold safe in *.
    assert (Z.abs x = Z.abs q * Z.abs y) as Ha by (rewrite Hq; apply Z.abs_mul).
    assert (1 <= Z.abs q) by nia. assert (1 <= Z.abs y) by lia.
    rewrite Ex, Ey, Ha in *.
    rewrite (div_integers (x <? 0) (y <? 0) mx my ex ey (Z.abs q) (Z.abs y)) by (nia || assumption).
    unfold decimal.
    replace (q <? 0) with (xorb (x <? 0) (y <? 0))
      by (destruct (Z.ltb_spec x 0), (Z.ltb_spec y 0), (Z.ltb_spec q 0);
          try reflexivity; nia).
    apply formatear_canonical. nia.
Qed.

Lemma toString_ofZ (z : Z) : safe z -> JS.Number_toString (JS.ofZ z) = decimal z.
Proof.
  intros Hs. apply (formatear_integer_value z); [exact Hs | apply ofZ_canonical, Hs].
Qed.

(** X20. On integers that a double holds exactly, the calculator is
    exact. For integers [x] and [y] strictly between [-2^53] and [2^53],
    given as the operands, the text shows the decimal numerals of [x] and
    of [y], and for the sum, the difference and the product, whenever it
    is in the same range, and for the quotient, whenever [y] divides [x],
    the decimal numeral of the true result: no rounding, no decimal
    point, no exponent. *)
Theorem X20_safe_integers_are_exact (x y : Z) :
  safe x -> safe y ->
  (safe (x + y) ->
     CalculatorUseCase.execute
       {| CalculatorUseCase.operacion := "suma";
          CalculatorUseCase.a := JS.ofZ x; CalculatorUseCase.b := JS.ofZ y |} =
       ([CallUseCase "calcular"],
        inr (text_result ("Suma: " +:+ decimal x +:+ " + " +:+ decimal y
                            +:+ " = " +:+ decimal (x + y)))))
  /\ (safe (x - y) ->
        CalculatorUseCase.execute
          {| CalculatorUseCase.operacion := "resta";
             CalculatorUseCase.a := JS.ofZ x; CalculatorUseCase.b := JS.ofZ y |} =
          ([CallUseCase "calcular"],
           inr (text_result ("Resta: " +:+ decimal x +:+ " - " +:+ decimal y
                               +:+ " = " +:+ decimal (x - y)))))
  /\ (safe (x * y) ->
        CalculatorUseCase.execute
          {| CalculatorUseCase.operacion := "multiplicacion";
             CalculatorUseCase.a := JS.ofZ x; CalculatorUseCase.b := JS.ofZ y |} =
          ([CallUseCase "calcular"],
           inr (text_result ("Multiplicación: " +:+ decimal x +:+ " × " +:+ decimal y
                               +:+ " = " +:+ decimal (x * y)))))
  /\ (forall q, y <> 0 -> x = q * y ->
        CalculatorUseCase.execute
          {| CalculatorUseCase.operacion := "division";
             CalculatorUseCase.a := JS.ofZ x; CalculatorUseCase.b := JS.ofZ y |} =
          ([CallUseCase "calcular"],
           inr (text_result ("División: " +:+ decimal x +:+ " ÷ " +:+ decimal y
                               +:+ " = " +:+ decimal q)))).
Proof.
  intros Hx Hy.
  destruct (execute_operation (JS.ofZ x) (JS.ofZ y)) as (Ea & Es & Em & Ed).
  rewrite Ea, Es, Em, Ed, !(toString_ofZ x Hx), !(toString_ofZ y Hy).
  split; [|split; [|split]].
  - intros Hs. rewrite (add_ofZ x y Hx Hy Hs). reflexivity.
  - intros Hs. rewrite (sub_ofZ x y Hx Hy Hs). reflexivity.
  - intros Hs. rewrite (mul_ofZ x y Hx Hy Hs). reflexivity.
  - intros q Ny Hq. rewrite (div_ofZ x y q Hx Hy Ny Hq). reflexivity.
Qed.

Lemma X20_witness :
  CalculatorUseCase.execute
    {| CalculatorUseCase.operacion := "multiplicacion";
       CalculatorUseCase.a := JS.ofZ 999999; CalculatorUseCase.b := JS.ofZ 1000000 |} =
    ([CallUseCase "calcular"],
     inr (text_result ("Multiplicación: " +:+ decimal 999999 +:+ " × " +:+ decimal 1000000
                         +:+ " = " +:+ decimal (999999 * 1000000)))).
Proof.
  apply (proj1 (proj2 (proj2 (X20_safe_integers_are_exact 999999 1000000
                                ltac:(vm_compute; reflexivity)
                                ltac:(vm_compute; reflexivity)))));
    vm_compute; reflexivity.
Defined.

(** X21. The date handler of the single-file version never fails on
    arguments it can destructure: whatever the value of [formato], it
    returns a date, the long one unless [formato] is [corto] or [hora].
    Arguments that are missing cannot be destructured, so a request
    without [arguments] fails for each of the three tools, with
    InvalidParams and the message of the engine's TypeError. *)
Theorem X21_legacy_date_and_missing_arguments (rt : Runtime) (eng : Engine) :
  (forall args, args <> VUndefined -> args <> VNull ->
     exists fecha,
       Tools.manejarFechaActual eng args = ret (text_result ("La fecha actual es: " +:+ fecha))
       /\ (get "formato" args <> VString "corto" -> get "formato" args <> VString "hora" ->
           fecha = Date_format eng toLocaleDateString "es-ES"
                     [("weekday", "long"); ("year", "numeric"); ("month", "long");
                      ("day", "numeric")]))
  /\ (forall toolName key,
        In (toolName, key)
           [("saludo", "nombre"); ("calcular", "operacion"); ("fecha_actual", "formato")] ->
        LegacyServer.callTool rt eng
          {| Server.params := {| Server.name := toolName; Server.arguments := None |} |} =
          throw (McpError InvalidParams
                   ("MCP error -32602: " +:+ TypeError_message eng key VUndefined))).
Proof.
  split.
  - intros args Hu Hn. unfold Tools.manejarFechaActual, Tools.destructure.
    assert (match args with
            | VUndefined | VNull =>
                throw (ThrownError (TypeError_message eng "formato" args))
            | _ => ret args
            end = ret args) as -> by (destruct args; try reflexivity; contradiction).
    rewrite bind_ret. eexists. split; [reflexivity|].
    intros Hc Hh. unfold get_default.
    destruct (get "formato" args) as [ | | b | x | s | l | o]; try reflexivity.
    cbn [strict_eq].
    destruct (String.eqb_spec s "corto") as [-> | _]; [contradiction|].
    destruct (String.eqb_spec s "hora") as [-> | _]; [contradiction|]. reflexivity.
  - intros toolName key [[= <- <-] | [[= <- <-] | [[= <- <-] | []]]]; reflexivity.
Qed.

Lemma X21_witness :
  exists fecha,
    Tools.manejarFechaActual sample_engine (obj [("formato", VNumber (JS.ofZ 7))]) =
      ret (text_result ("La fecha actual es: " +:+ fecha))
    /\ (get "formato" (obj [("formato", VNumber (JS.ofZ 7))]) <> VString "corto" ->
        get "formato" (obj [("formato", VNumber (JS.ofZ 7))]) <> VString "hora" ->
        fecha = Date_format sample_engine toLocaleDateString "es-ES"
                  [("weekday", "long"); ("year", "numeric"); ("month", "long");
                   ("day", "numeric")]).
Proof.
  apply (proj1 (X21_legacy_date_and_missing_arguments sample_runtime sample_engine)
           (obj [("formato", VNumber (JS.ofZ 7))])); discriminate.
Defined.

Lemma number_add_comm (a b : JS.number) : JS.add a b = JS.add b a.
Proof.
  unfold JS.add, SFadd.
  destruct a as [sa | sa | | sa ma ea], b as [sb | sb | | sb mb eb]; try reflexivity;
    try (destruct sa, sb; reflexivity).
  rewrite (Z.min_comm ea eb). f_equal. apply Z.add_comm.
Qed.

Lemma number_mul_comm (a b : JS.number) : JS.mul a b = JS.mul b a.
Proof.
  unfold JS.mul, SFmul.
  destruct a as [sa | sa | | sa ma ea], b as [sb | sb | | sb mb eb]; try reflexivity;
    try (destruct sa, sb; reflexivity).
  rewrite (Pos.mul_comm ma mb), (Z.add_comm ea eb), (xorb_comm sa sb). reflexivity.
Qed.

(** X22. The sum and the product do not depend on the order of the
    operands: exchanging [a] and [b] gives the same number, so the same
    printed result, for all operands, the infinite ones and NaN
    included. *)
Theorem X22_sum_and_product_commute (a b : JS.number) :
  JS.add a b = JS.add b a
  /\ JS.mul a b = JS.mul b a
  /\ CalculatorUseCase.formatear (JS.add a b) = CalculatorUseCase.formatear (JS.add b a)
  /\ CalculatorUseCase.formatear (JS.mul a b) = CalculatorUseCase.formatear (JS.mul b a).
Proof.
  rewrite (number_add_comm a b), (number_mul_comm a b). repeat split.
Qed.
